(** * ReShade graphics-API abstraction: descriptor conversion, the D3D10
      device implementation and the Vulkan interception layer

    A shallow embedding of
      - [source/d3d11/render_d3d11_utils.cpp] (descriptor conversion),
      - [source/d3d10/d3d10_impl_device.cpp]  (the D3D10 [device_impl]),
      - [source/vulkan/vulkan_hooks_device.cpp] (device-level Vulkan hooks),
    together with the properties the specification states about them.

    Conventions.  A C++ unsigned integer of width [w] is a [Z] in
    [0, 2^w); every place where the source truncates or wraps is written out
    with [wrap32]/[wrap16].  Bit flags are [Z]s combined with [Z.lor] and
    tested with [Z.land].  Calls into the native driver are recorded in a
    trace and answered by an oracle, so that every statement holds for every
    possible driver behaviour. *)

From Stdlib Require Import ZArith Lia Bool List String.
From stdpp Require Import base gmap strings list.

Local Open Scope Z_scope.

(** ** Fixed-width arithmetic *)

Definition wrap16 (x : Z) : Z := x mod 2 ^ 16.
Definition wrap32 (x : Z) : Z := x mod 2 ^ 32.

Definition is_u16 (x : Z) : Prop := 0 <= x < 2 ^ 16.
Definition is_u32 (x : Z) : Prop := 0 <= x < 2 ^ 32.
Definition is_u64 (x : Z) : Prop := 0 <= x < 2 ^ 64.

(** [(x & flag) != 0], the test every flag conversion is written with. *)
Definition has_flag (x flag : Z) : bool := negb (Z.land x flag =? 0).

(** [a] is a subset of [b] as bit sets. *)
Definition flags_subset (a b : Z) : Prop := Z.land a b = a.

(** ** The backend-neutral model ([reshade::api]) *)

Module Api.

Inductive resource_type : Set :=
| resource_type_unknown
| buffer
| texture_1d
| texture_2d
| texture_3d
| surface.

Inductive memory_heap : Set :=
| memory_heap_unknown
| gpu_only
| cpu_to_gpu
| gpu_to_cpu
| cpu_only.

(** [enum class resource_usage : uint32_t] *)
Module resource_usage.
Definition undefined : Z := 0.
Definition depth_stencil : Z := 0x30.
Definition depth_stencil_read : Z := 0x20.
Definition depth_stencil_write : Z := 0x10.
Definition render_target : Z := 0x4.
Definition shader_resource : Z := 0xC0.
Definition shader_resource_pixel : Z := 0x80.
Definition shader_resource_non_pixel : Z := 0x40.
Definition unordered_access : Z := 0x8.
Definition copy_dest : Z := 0x400.
Definition copy_source : Z := 0x800.
Definition resolve_dest : Z := 0x1000.
Definition resolve_source : Z := 0x2000.
Definition index_buffer : Z := 0x2.
Definition vertex_buffer : Z := 0x1.
Definition constant_buffer : Z := 0x8000.
End resource_usage.

(** [struct resource_desc].  The buffer member and the texture members
    live in a union that is selected by [type]; they are kept as separate
    fields here and compared according to [type] (see [same_desc]).
    [flags] is read by the D3D10 device only; the D3D11 conversions do not
    touch it. *)
Record resource_desc : Set := mk_resource_desc {
  type : resource_type;
  buffer_size : Z;              (* uint64_t buffer.size *)
  texture_width : Z;            (* uint32_t *)
  texture_height : Z;           (* uint32_t *)
  texture_depth_or_layers : Z;  (* uint16_t *)
  texture_levels : Z;           (* uint16_t *)
  texture_format : Z;           (* api::format, 32 bit *)
  texture_samples : Z;          (* uint16_t *)
  heap : memory_heap;
  usage : Z;                    (* resource_usage *)
  flags : Z                     (* resource_flags *)
}.

(** [api::resource_desc desc = {};] *)
Definition resource_desc_zero : resource_desc :=
  mk_resource_desc resource_type_unknown 0 0 0 0 0 0 0 memory_heap_unknown
    resource_usage.undefined 0.

Definition resource_type_eqb (a b : resource_type) : bool :=
  match a, b with
  | resource_type_unknown, resource_type_unknown
  | buffer, buffer | texture_1d, texture_1d | texture_2d, texture_2d
  | texture_3d, texture_3d | surface, surface => true
  | _, _ => false
  end.

Definition memory_heap_eqb (a b : memory_heap) : bool :=
  match a, b with
  | memory_heap_unknown, memory_heap_unknown
  | gpu_only, gpu_only | cpu_to_gpu, cpu_to_gpu
  | gpu_to_cpu, gpu_to_cpu | cpu_only, cpu_only => true
  | _, _ => false
  end.

(** Equality on the members the neutral model represents: the common
    members, and the union member selected by [type]. *)
Definition same_desc (a b : resource_desc) : bool :=
  resource_type_eqb (type a) (type b)
  && memory_heap_eqb (heap a) (heap b)
  && (usage a =? usage b)
  && match type a with
     | buffer => buffer_size a =? buffer_size b
     | _ =>
       (texture_width a =? texture_width b)
       && (texture_height a =? texture_height b)
       && (texture_depth_or_layers a =? texture_depth_or_layers b)
       && (texture_levels a =? texture_levels b)
       && (texture_format a =? texture_format b)
       && (texture_samples a =? texture_samples b)
     end.

(** The value ranges of the C++ member types. *)
Record resource_desc_wf (d : resource_desc) : Prop := {
  wf_size : is_u64 (buffer_size d);
  wf_width : is_u32 (texture_width d);
  wf_height : is_u32 (texture_height d);
  wf_depth_or_layers : is_u16 (texture_depth_or_layers d);
  wf_levels : is_u16 (texture_levels d);
  wf_format : is_u32 (texture_format d);
  wf_samples : is_u16 (texture_samples d);
  wf_usage : is_u32 (usage d)
}.

End Api.

(** ** Descriptor conversion of the D3D11 backend
       ([render_d3d11_utils.cpp]) *)

Module D3D11.
Import Api.

(** Constants of the Direct3D 11 SDK headers ([d3d11.h]). *)
Definition D3D11_USAGE_DEFAULT : Z := 0.
Definition D3D11_USAGE_IMMUTABLE : Z := 1.
Definition D3D11_USAGE_DYNAMIC : Z := 2.
Definition D3D11_USAGE_STAGING : Z := 3.

Definition D3D11_BIND_VERTEX_BUFFER : Z := 0x1.
Definition D3D11_BIND_INDEX_BUFFER : Z := 0x2.
Definition D3D11_BIND_CONSTANT_BUFFER : Z := 0x4.
Definition D3D11_BIND_SHADER_RESOURCE : Z := 0x8.
Definition D3D11_BIND_STREAM_OUTPUT : Z := 0x10.
Definition D3D11_BIND_RENDER_TARGET : Z := 0x20.
Definition D3D11_BIND_DEPTH_STENCIL : Z := 0x40.
Definition D3D11_BIND_UNORDERED_ACCESS : Z := 0x80.

Definition D3D11_CPU_ACCESS_WRITE : Z := 0x10000.
Definition D3D11_CPU_ACCESS_READ : Z := 0x20000.

Definition DXGI_FORMAT_UNKNOWN : Z := 0.

Record D3D11_BUFFER_DESC : Set := {
  buf_ByteWidth : Z;
  buf_Usage : Z;
  buf_BindFlags : Z;
  buf_CPUAccessFlags : Z
}.

Record D3D11_TEXTURE1D_DESC : Set := {
  t1_Width : Z;
  t1_MipLevels : Z;
  t1_ArraySize : Z;
  t1_Format : Z;
  t1_Usage : Z;
  t1_BindFlags : Z;
  t1_CPUAccessFlags : Z
}.

Record D3D11_TEXTURE2D_DESC : Set := {
  t2_Width : Z;
  t2_Height : Z;
  t2_MipLevels : Z;
  t2_ArraySize : Z;
  t2_Format : Z;
  t2_SampleDesc_Count : Z;
  t2_Usage : Z;
  t2_BindFlags : Z;
  t2_CPUAccessFlags : Z
}.

Record D3D11_TEXTURE3D_DESC : Set := {
  t3_Width : Z;
  t3_Height : Z;
  t3_Depth : Z;
  t3_MipLevels : Z;
  t3_Format : Z;
  t3_Usage : Z;
  t3_BindFlags : Z;
  t3_CPUAccessFlags : Z
}.

(** [convert_format(api::format) -> DXGI_FORMAT] *)
Definition convert_format_to_dxgi (format : Z) : Z :=
  if 1000 <=? format then DXGI_FORMAT_UNKNOWN else format.

(** [convert_format(DXGI_FORMAT) -> api::format] *)
Definition convert_format_from_dxgi (format : Z) : Z := format.

(** [convert_memory_heap_to_d3d_usage]: the two reference parameters
    [usage] and [cpu_access_flags] come in and go out. *)
Definition convert_memory_heap_to_d3d_usage
    (heap : memory_heap) (usage cpu_access_flags : Z) : Z * Z :=
  match heap with
  | gpu_only => (D3D11_USAGE_DEFAULT, cpu_access_flags)
  | cpu_to_gpu =>
    (D3D11_USAGE_DYNAMIC, Z.lor cpu_access_flags D3D11_CPU_ACCESS_WRITE)
  | gpu_to_cpu =>
    (D3D11_USAGE_STAGING, Z.lor cpu_access_flags D3D11_CPU_ACCESS_READ)
  | cpu_only =>
    (D3D11_USAGE_STAGING,
     Z.lor cpu_access_flags
       (Z.lor D3D11_CPU_ACCESS_READ D3D11_CPU_ACCESS_WRITE))
  | memory_heap_unknown => (usage, cpu_access_flags)
  end.

(** [convert_d3d_usage_to_memory_heap]: a [D3D11_USAGE] outside the four
    enumerators leaves [heap] as it was. *)
Definition convert_d3d_usage_to_memory_heap
    (usage : Z) (heap : memory_heap) : memory_heap :=
  if (usage =? D3D11_USAGE_DEFAULT) || (usage =? D3D11_USAGE_IMMUTABLE)
  then gpu_only
  else if usage =? D3D11_USAGE_DYNAMIC then cpu_to_gpu
  else if usage =? D3D11_USAGE_STAGING then gpu_to_cpu
  else heap.

(** One [if ((usage & f) != 0) bind_flags |= b; else bind_flags &= ~b;] *)
Definition set_or_clear (cond : bool) (bind_flags b : Z) : Z :=
  if cond then Z.lor bind_flags b else Z.land bind_flags (Z.lnot b).

Definition convert_resource_usage_to_bind_flags
    (usage bind_flags : Z) : Z :=
  let bind_flags :=
    set_or_clear (has_flag usage resource_usage.render_target)
      bind_flags D3D11_BIND_RENDER_TARGET in
  let bind_flags :=
    set_or_clear (has_flag usage resource_usage.depth_stencil)
      bind_flags D3D11_BIND_DEPTH_STENCIL in
  let bind_flags :=
    set_or_clear (has_flag usage resource_usage.shader_resource)
      bind_flags D3D11_BIND_SHADER_RESOURCE in
  let bind_flags :=
    set_or_clear (has_flag usage resource_usage.unordered_access)
      bind_flags D3D11_BIND_UNORDERED_ACCESS in
  let bind_flags :=
    set_or_clear (has_flag usage resource_usage.index_buffer)
      bind_flags D3D11_BIND_INDEX_BUFFER in
  let bind_flags :=
    set_or_clear (has_flag usage resource_usage.vertex_buffer)
      bind_flags D3D11_BIND_VERTEX_BUFFER in
  set_or_clear (has_flag usage resource_usage.constant_buffer)
    bind_flags D3D11_BIND_CONSTANT_BUFFER.

(** One [if ((bind_flags & b) != 0) usage |= f;] *)
Definition add_if (cond : bool) (usage f : Z) : Z :=
  if cond then Z.lor usage f else usage.

Definition convert_bind_flags_to_resource_usage
    (bind_flags usage : Z) : Z :=
  (* Resources are generally copyable in D3D11 *)
  let usage :=
    Z.lor usage
      (Z.lor resource_usage.copy_dest resource_usage.copy_source) in
  let usage :=
    add_if (has_flag bind_flags D3D11_BIND_RENDER_TARGET)
      usage resource_usage.render_target in
  let usage :=
    add_if (has_flag bind_flags D3D11_BIND_DEPTH_STENCIL)
      usage resource_usage.depth_stencil in
  let usage :=
    add_if (has_flag bind_flags D3D11_BIND_SHADER_RESOURCE)
      usage resource_usage.shader_resource in
  let usage :=
    add_if (has_flag bind_flags D3D11_BIND_UNORDERED_ACCESS)
      usage resource_usage.unordered_access in
  let usage :=
    add_if (has_flag bind_flags D3D11_BIND_INDEX_BUFFER)
      usage resource_usage.index_buffer in
  let usage :=
    add_if (has_flag bind_flags D3D11_BIND_VERTEX_BUFFER)
      usage resource_usage.vertex_buffer in
  add_if (has_flag bind_flags D3D11_BIND_CONSTANT_BUFFER)
    usage resource_usage.constant_buffer.

(** *** neutral -> native.  The native description is passed by
    reference and updated in place; members that are not assigned keep
    their value. *)

Definition convert_resource_desc_to_buffer
    (desc : resource_desc) (internal_desc : D3D11_BUFFER_DESC)
    : D3D11_BUFFER_DESC :=
  let '(u, c) :=
    convert_memory_heap_to_d3d_usage (heap desc)
      (buf_Usage internal_desc) (buf_CPUAccessFlags internal_desc) in
  {| buf_ByteWidth := wrap32 (buffer_size desc);
     buf_Usage := u;
     buf_BindFlags :=
       convert_resource_usage_to_bind_flags (usage desc)
         (buf_BindFlags internal_desc);
     buf_CPUAccessFlags := c |}.

Definition convert_resource_desc_to_texture1d
    (desc : resource_desc) (internal_desc : D3D11_TEXTURE1D_DESC)
    : D3D11_TEXTURE1D_DESC :=
  let '(u, c) :=
    convert_memory_heap_to_d3d_usage (heap desc)
      (t1_Usage internal_desc) (t1_CPUAccessFlags internal_desc) in
  {| t1_Width := texture_width desc;
     t1_MipLevels := texture_levels desc;
     t1_ArraySize := texture_depth_or_layers desc;
     t1_Format := convert_format_to_dxgi (texture_format desc);
     t1_Usage := u;
     t1_BindFlags :=
       convert_resource_usage_to_bind_flags (usage desc)
         (t1_BindFlags internal_desc);
     t1_CPUAccessFlags := c |}.

Definition convert_resource_desc_to_texture2d
    (desc : resource_desc) (internal_desc : D3D11_TEXTURE2D_DESC)
    : D3D11_TEXTURE2D_DESC :=
  let '(u, c) :=
    convert_memory_heap_to_d3d_usage (heap desc)
      (t2_Usage internal_desc) (t2_CPUAccessFlags internal_desc) in
  {| t2_Width := texture_width desc;
     t2_Height := texture_height desc;
     t2_MipLevels := texture_levels desc;
     t2_ArraySize := texture_depth_or_layers desc;
     t2_Format := convert_format_to_dxgi (texture_format desc);
     t2_SampleDesc_Count := texture_samples desc;
     t2_Usage := u;
     t2_BindFlags :=
       convert_resource_usage_to_bind_flags (usage desc)
         (t2_BindFlags internal_desc);
     t2_CPUAccessFlags := c |}.

Definition convert_resource_desc_to_texture3d
    (desc : resource_desc) (internal_desc : D3D11_TEXTURE3D_DESC)
    : D3D11_TEXTURE3D_DESC :=
  let '(u, c) :=
    convert_memory_heap_to_d3d_usage (heap desc)
      (t3_Usage internal_desc) (t3_CPUAccessFlags internal_desc) in
  {| t3_Width := texture_width desc;
     t3_Height := texture_height desc;
     t3_Depth := texture_depth_or_layers desc;
     t3_MipLevels := texture_levels desc;
     t3_Format := convert_format_to_dxgi (texture_format desc);
     t3_Usage := u;
     t3_BindFlags :=
       convert_resource_usage_to_bind_flags (usage desc)
         (t3_BindFlags internal_desc);
     t3_CPUAccessFlags := c |}.

(** *** native -> neutral.  Each overload starts from
    [api::resource_desc desc = {}]. *)

Definition convert_resource_desc_from_buffer
    (internal_desc : D3D11_BUFFER_DESC) : resource_desc :=
  let desc := resource_desc_zero in
  {| type := buffer;
     buffer_size := buf_ByteWidth internal_desc;
     texture_width := texture_width desc;
     texture_height := texture_height desc;
     texture_depth_or_layers := texture_depth_or_layers desc;
     texture_levels := texture_levels desc;
     texture_format := texture_format desc;
     texture_samples := texture_samples desc;
     heap :=
       convert_d3d_usage_to_memory_heap (buf_Usage internal_desc)
         (heap desc);
     usage :=
       convert_bind_flags_to_resource_usage (buf_BindFlags internal_desc)
         (usage desc);
     flags := flags desc |}.

Definition convert_resource_desc_from_texture1d
    (internal_desc : D3D11_TEXTURE1D_DESC) : resource_desc :=
  let desc := resource_desc_zero in
  {| type := texture_1d;
     buffer_size := buffer_size desc;
     texture_width := t1_Width internal_desc;
     texture_height := 1;
     texture_depth_or_layers := wrap16 (t1_ArraySize internal_desc);
     texture_levels := wrap16 (t1_MipLevels internal_desc);
     texture_format := convert_format_from_dxgi (t1_Format internal_desc);
     texture_samples := 1;
     heap :=
       convert_d3d_usage_to_memory_heap (t1_Usage internal_desc)
         (heap desc);
     usage :=
       convert_bind_flags_to_resource_usage (t1_BindFlags internal_desc)
         (usage desc);
     flags := flags desc |}.

Definition convert_resource_desc_from_texture2d
    (internal_desc : D3D11_TEXTURE2D_DESC) : resource_desc :=
  let desc := resource_desc_zero in
  let samples := wrap16 (t2_SampleDesc_Count internal_desc) in
  let usage0 :=
    convert_bind_flags_to_resource_usage (t2_BindFlags internal_desc)
      (usage desc) in
  {| type := texture_2d;
     buffer_size := buffer_size desc;
     texture_width := t2_Width internal_desc;
     texture_height := t2_Height internal_desc;
     texture_depth_or_layers := wrap16 (t2_ArraySize internal_desc);
     texture_levels := wrap16 (t2_MipLevels internal_desc);
     texture_format := convert_format_from_dxgi (t2_Format internal_desc);
     texture_samples := samples;
     heap :=
       convert_d3d_usage_to_memory_heap (t2_Usage internal_desc)
         (heap desc);
     usage :=
       Z.lor usage0
         (if 1 <? samples then resource_usage.resolve_source
          else resource_usage.resolve_dest);
     flags := flags desc |}.

Definition convert_resource_desc_from_texture3d
    (internal_desc : D3D11_TEXTURE3D_DESC) : resource_desc :=
  let desc := resource_desc_zero in
  {| type := texture_3d;
     buffer_size := buffer_size desc;
     texture_width := t3_Width internal_desc;
     texture_height := t3_Height internal_desc;
     texture_depth_or_layers := wrap16 (t3_Depth internal_desc);
     texture_levels := wrap16 (t3_MipLevels internal_desc);
     texture_format := convert_format_from_dxgi (t3_Format internal_desc);
     texture_samples := 1;
     heap :=
       convert_d3d_usage_to_memory_heap (t3_Usage internal_desc)
         (heap desc);
     usage :=
       convert_bind_flags_to_resource_usage (t3_BindFlags internal_desc)
         (usage desc);
     flags := flags desc |}.

(** *** The pair of conversions as the device uses it: the native
    description is zero-initialised ([D3D11_xxx_DESC internal_desc = {}])
    and the overload is chosen by the resource type. *)

Inductive native_desc : Set :=
| native_buffer (d : D3D11_BUFFER_DESC)
| native_texture1d (d : D3D11_TEXTURE1D_DESC)
| native_texture2d (d : D3D11_TEXTURE2D_DESC)
| native_texture3d (d : D3D11_TEXTURE3D_DESC).

Definition to_native (desc : resource_desc) : option native_desc :=
  match type desc with
  | buffer =>
    Some (native_buffer
            (convert_resource_desc_to_buffer desc
               {| buf_ByteWidth := 0; buf_Usage := 0;
                  buf_BindFlags := 0; buf_CPUAccessFlags := 0 |}))
  | texture_1d =>
    Some (native_texture1d
            (convert_resource_desc_to_texture1d desc
               {| t1_Width := 0; t1_MipLevels := 0; t1_ArraySize := 0;
                  t1_Format := 0; t1_Usage := 0; t1_BindFlags := 0;
                  t1_CPUAccessFlags := 0 |}))
  | texture_2d =>
    Some (native_texture2d
            (convert_resource_desc_to_texture2d desc
               {| t2_Width := 0; t2_Height := 0; t2_MipLevels := 0;
                  t2_ArraySize := 0; t2_Format := 0;
                  t2_SampleDesc_Count := 0; t2_Usage := 0;
                  t2_BindFlags := 0; t2_CPUAccessFlags := 0 |}))
  | texture_3d =>
    Some (native_texture3d
            (convert_resource_desc_to_texture3d desc
               {| t3_Width := 0; t3_Height := 0; t3_Depth := 0;
                  t3_MipLevels := 0; t3_Format := 0; t3_Usage := 0;
                  t3_BindFlags := 0; t3_CPUAccessFlags := 0 |}))
  | resource_type_unknown | surface => None
  end.

Definition to_neutral (n : native_desc) : resource_desc :=
  match n with
  | native_buffer d => convert_resource_desc_from_buffer d
  | native_texture1d d => convert_resource_desc_from_texture1d d
  | native_texture2d d => convert_resource_desc_from_texture2d d
  | native_texture3d d => convert_resource_desc_from_texture3d d
  end.

Definition round_trip (desc : resource_desc) : option resource_desc :=
  to_neutral <$> to_native desc.

(** The descriptors the backend supports: a type with a native
    description, members within the range of their C++ type, and the
    assertions of the conversion functions. *)
Record supported (desc : resource_desc) : Prop := {
  sup_wf : resource_desc_wf desc;
  sup_type :
    type desc = buffer \/ type desc = texture_1d \/
    type desc = texture_2d \/ type desc = texture_3d;
  sup_size : type desc = buffer -> buffer_size desc <= 2 ^ 32 - 1;
  sup_format : type desc <> buffer -> texture_format desc < 1000;
  sup_height : type desc = texture_1d -> texture_height desc = 1;
  sup_samples :
    type desc = texture_1d \/ type desc = texture_3d ->
    texture_samples desc = 1
}.

(** What a usage mask reads back as: the part the bind flags carry, with
    a multi-bit neutral flag widened to its whole mask. *)
Definition keep (usage f : Z) : Z := if has_flag usage f then f else 0.

Definition bindable_usage (usage : Z) : Z :=
  Z.lor (keep usage resource_usage.render_target)
    (Z.lor (keep usage resource_usage.depth_stencil)
       (Z.lor (keep usage resource_usage.shader_resource)
          (Z.lor (keep usage resource_usage.unordered_access)
             (Z.lor (keep usage resource_usage.index_buffer)
                (Z.lor (keep usage resource_usage.vertex_buffer)
                   (keep usage resource_usage.constant_buffer)))))).

Definition implied_usage (desc : resource_desc) : Z :=
  Z.lor (Z.lor resource_usage.copy_dest resource_usage.copy_source)
    match type desc with
    | texture_2d =>
      if 1 <? texture_samples desc then resource_usage.resolve_source
      else resource_usage.resolve_dest
    | _ => 0
    end.

Definition heap_read_back (h : memory_heap) : memory_heap :=
  match h with
  | memory_heap_unknown | gpu_only => gpu_only
  | cpu_to_gpu => cpu_to_gpu
  | gpu_to_cpu | cpu_only => gpu_to_cpu
  end.

(** The descriptor a supported [desc] is expected to read back as. *)
Definition read_back (desc : resource_desc) : resource_desc :=
  {| type := type desc;
     buffer_size := buffer_size desc;
     texture_width := texture_width desc;
     texture_height := texture_height desc;
     texture_depth_or_layers := texture_depth_or_layers desc;
     texture_levels := texture_levels desc;
     texture_format := texture_format desc;
     texture_samples := texture_samples desc;
     heap := heap_read_back (heap desc);
     usage := Z.lor (bindable_usage (usage desc)) (implied_usage desc);
     flags := flags desc |}.

(** A CPU-only staging buffer that is used as a copy source and
    destination. *)
Definition staging_buffer_desc : resource_desc :=
  {| type := buffer;
     buffer_size := 256;
     texture_width := 0; texture_height := 0;
     texture_depth_or_layers := 0; texture_levels := 0;
     texture_format := 0; texture_samples := 0;
     heap := cpu_only;
     usage := Z.lor resource_usage.copy_dest resource_usage.copy_source;
     flags := 0 |}.

(** A GPU-only vertex buffer. *)
Definition vertex_buffer_desc : resource_desc :=
  {| type := buffer;
     buffer_size := 256;
     texture_width := 0; texture_height := 0;
     texture_depth_or_layers := 0; texture_levels := 0;
     texture_format := 0; texture_samples := 0;
     heap := gpu_only;
     usage := resource_usage.vertex_buffer;
     flags := 0 |}.

(** The texture of the specification's creation scenario: 256 x 256,
    one layer, one mip level, [rgba8_unorm] (DXGI format 28), one sample,
    GPU-only, in the form it reads back as. *)
Definition scenario_texture_desc : resource_desc :=
  {| type := texture_2d;
     buffer_size := 0;
     texture_width := 256; texture_height := 256;
     texture_depth_or_layers := 1; texture_levels := 1;
     texture_format := 28; texture_samples := 1;
     heap := gpu_only;
     usage :=
       Z.lor resource_usage.shader_resource
         (Z.lor resource_usage.copy_dest
            (Z.lor resource_usage.copy_source
               resource_usage.resolve_dest));
     flags := 0 |}.

End D3D11.

(** ** The D3D10 device ([d3d10_impl_device.cpp]) *)

Module D3D10.

(** *** Types of the public interface the device is written against.
    Their declarations are in headers that are not among the sources
    ([reshade_api.hpp] there predates them); the enumerators and members
    are the ones the device code names, and a catch-all enumerator stands
    for the others. *)

Module device_caps.
Inductive t : Set :=
| compute_shader
| geometry_shader
| hull_and_domain_shader
| logic_op
| dual_source_blend
| independent_blend
| fill_mode_non_solid
| conservative_rasterization
| bind_render_targets_and_depth_stencil
| multi_viewport
| partial_push_constant_updates
| partial_push_descriptor_updates
| draw_instanced
| draw_or_dispatch_indirect
| copy_buffer_region
| copy_buffer_to_texture
| blit
| resolve_region
| copy_query_pool_results
| sampler_compare
| sampler_anisotropic
| sampler_with_resource_view
| shared_resource
| shared_resource_nt_handle
| other (value : Z).
End device_caps.

Module descriptor_type.
Inductive t : Set :=
| sampler
| shader_resource_view
| constant_buffer
| other (value : Z).

Definition eqb (a b : t) : bool :=
  match a, b with
  | sampler, sampler => true
  | shader_resource_view, shader_resource_view => true
  | constant_buffer, constant_buffer => true
  | other x, other y => x =? y
  | _, _ => false
  end.
End descriptor_type.

Module pipeline_stage.
Inductive t : Set :=
| all_graphics
| input_assembler
| vertex_shader
| geometry_shader
| pixel_shader
| rasterizer
| depth_stencil
| output_merger
| other (value : Z).
End pipeline_stage.

Module primitive_topology.
Inductive t : Set :=
| triangle_fan
| other (value : Z).

Definition is_triangle_fan (x : t) : bool :=
  match x with triangle_fan => true | other _ => false end.
End primitive_topology.

Module dynamic_state.
Inductive t : Set :=
| primitive_topology
| other (value : Z).

Definition is_primitive_topology (x : t) : bool :=
  match x with primitive_topology => true | other _ => false end.
End dynamic_state.

(** [struct descriptor_range]; every integer member is a [uint32_t]. *)
Record descriptor_range : Set := mk_descriptor_range {
  binding : Z;
  dx_register_index : Z;
  dx_register_space : Z;
  count : Z;
  visibility : Z;               (* shader_stage flags *)
  array_size : Z;
  type : descriptor_type.t
}.

(** [struct pipeline_layout_param]: a tag and a union.  A descriptor set
    carries [descriptor_set.count] ranges, here the length of the list. *)
Inductive pipeline_layout_param : Set :=
| param_descriptor_set (ranges : list descriptor_range)
| param_push_descriptors (push_descriptors : descriptor_range)
| param_push_constants (dx_register_index dx_register_space : Z)
| param_other.

Record shader_desc : Set := { code : Z; code_size : Z }.

(** [struct pipeline_desc], the members the device itself looks at.
    [input_layout_elements] is the number of elements
    [convert_pipeline_desc] produces for the input layout. *)
Record pipeline_desc : Set := {
  pipeline_type : pipeline_stage.t;
  vertex_shader : shader_desc;
  hull_shader : shader_desc;
  domain_shader : shader_desc;
  geometry_shader : shader_desc;
  pixel_shader : shader_desc;
  input_layout_elements : Z;
  conservative_rasterization : bool;
  logic_op_enable_0 : bool;
  topology : primitive_topology.t;
  sample_mask : Z;
  stencil_reference_value : Z;
  blend_constant : list Z
}.

(** *** Records the device allocates behind a handle (declared in
    [d3d10_impl_type_convert.hpp], which is not among the sources; the
    members are the ones the device code assigns). *)

Record pipeline_impl : Set := {
  vs : Z;
  gs : Z;
  ps : Z;
  input_layout : Z;
  blend_state : Z;
  rasterizer_state : Z;
  depth_stencil_state : Z;
  impl_topology : primitive_topology.t;
  impl_sample_mask : Z;
  impl_stencil_reference_value : Z;
  impl_blend_constant : list Z
}.

Record descriptor_set_impl : Set := {
  set_type : descriptor_type.t;
  set_count : Z;                (* uint32_t *)
  descriptors : list Z          (* std::vector<uint64_t> *)
}.

(** Elements a descriptor of each type takes in [descriptors]: the
    factors of the [resize] calls in [allocate_descriptor_sets] (a
    constant buffer also carries offset and size).  Other types are not
    handled there. *)
Definition stride (t : descriptor_type.t) : option Z :=
  match t with
  | descriptor_type.sampler
  | descriptor_type.shader_resource_view => Some 1
  | descriptor_type.constant_buffer => Some 3
  | descriptor_type.other _ => None
  end.

Inductive object : Set :=
| obj_pipeline (impl : pipeline_impl)
| obj_pipeline_layout (ranges : list descriptor_range)
| obj_descriptor_set (impl : descriptor_set_impl)
| obj_query_pool (queries : list Z).

Definition D3D_FEATURE_LEVEL_10_0 : Z := 0xa000.

(** [device_impl::check_capability]; [feature_level] is what
    [_orig->GetFeatureLevel()] returns. *)
Definition check_capability (feature_level : Z) (capability : device_caps.t)
    : bool :=
  match capability with
  | device_caps.compute_shader => false
  | device_caps.geometry_shader => D3D_FEATURE_LEVEL_10_0 <=? feature_level
  | device_caps.hull_and_domain_shader
  | device_caps.logic_op => false
  | device_caps.dual_source_blend
  | device_caps.independent_blend
  | device_caps.fill_mode_non_solid => true
  | device_caps.conservative_rasterization => false
  | device_caps.bind_render_targets_and_depth_stencil
  | device_caps.multi_viewport => true
  | device_caps.partial_push_constant_updates => false
  | device_caps.partial_push_descriptor_updates
  | device_caps.draw_instanced => true
  | device_caps.draw_or_dispatch_indirect => false
  | device_caps.copy_buffer_region => true
  | device_caps.copy_buffer_to_texture
  | device_caps.blit
  | device_caps.resolve_region
  | device_caps.copy_query_pool_results => false
  | device_caps.sampler_compare
  | device_caps.sampler_anisotropic => true
  | device_caps.sampler_with_resource_view => false
  | device_caps.shared_resource => true
  | device_caps.shared_resource_nt_handle
  | device_caps.other _ => false
  end.

Section Device.

(** Descriptions the device only hands on to a conversion function and
    then to the driver. *)
Variables sampler_desc resource_view_desc query_type : Set.

(** Constants of [api::resource_flags]. *)
Variables resource_flags_shared resource_flags_shared_nt_handle : Z.

(** A value-initialised [api::descriptor_range]. *)
Variable descriptor_range_default : descriptor_range.

(** Calls into the native device and into COM objects.  A call carries
    the neutral description it was converted from. *)
Inductive native_call : Type :=
| CreateSamplerState (desc : sampler_desc)
| OpenSharedResource (shared_handle : Z)
| QueryInterface_IDXGIResource (object : Z)
| GetSharedHandle (object_dxgi : Z)
| CreateBuffer (desc : Api.resource_desc) (initial_data : Z)
| CreateTexture1D (desc : Api.resource_desc) (initial_data : Z)
| CreateTexture2D (desc : Api.resource_desc) (initial_data : Z)
| CreateTexture3D (desc : Api.resource_desc) (initial_data : Z)
| CreateDepthStencilView (resource : Z) (desc : resource_view_desc)
| CreateRenderTargetView (resource : Z) (desc : resource_view_desc)
| CreateShaderResourceView1 (resource : Z) (desc : resource_view_desc)
| CreateInputLayout (desc : pipeline_desc)
| CreateVertexShader (desc : pipeline_desc)
| CreateGeometryShader (desc : pipeline_desc)
| CreatePixelShader (desc : pipeline_desc)
| CreateBlendState1 (desc : pipeline_desc)
| CreateRasterizerState (desc : pipeline_desc)
| CreateDepthStencilState (desc : pipeline_desc)
| CreateQuery (type : query_type)
| Release (object : Z).

(** The driver: given the calls made so far and the next call, either
    [Some r] (the call SUCCEEDED and produced [r]) or [None] (FAILED). *)
Variable driver : list native_call -> native_call -> option Z.

(** The state the device works on: the native calls made so far (oldest
    first) and the records it has allocated with [new]. *)
Record world : Type := mk_world {
  calls : list native_call;
  heap : gmap Z object;
  allocations : nat
}.

Definition M (A : Type) : Type := world -> A * world.

Definition ret {A : Type} (a : A) : M A := fun w => (a, w).

Definition bind {A B : Type} (m : M A) (k : A -> M B) : M B :=
  fun w => let (a, w') := m w in k a w'.

Notation "x <- m ;; k" := (bind m (fun x => k))
  (at level 100, m at next level, right associativity).
Notation "m ;;; k" := (bind m (fun _ => k))
  (at level 100, right associativity).

(** A call that reports success or failure. *)
Definition native (c : native_call) : M (option Z) :=
  fun w =>
    (driver (calls w) c,
     {| calls := calls w ++ [c]; heap := heap w;
        allocations := allocations w |}).

(** [IUnknown::Release], also what a [com_ptr] destructor does. *)
Definition release (object : Z) : M unit :=
  fun w =>
    (tt,
     {| calls := calls w ++ [Release object]; heap := heap w;
        allocations := allocations w |}).

(** Destructors of [com_ptr]s: the ones that hold an object release
    it. *)
Fixpoint release_all (objects : list Z) : M unit :=
  match objects with
  | [] => ret tt
  | object :: rest =>
    (if object =? 0 then ret tt else release object) ;;;
    release_all rest
  end.

(** [new T()]: a fresh address, never null and at least 2-aligned (the
    [static_assert(alignof(...) >= 2)]s of the source). *)
Definition new (o : object) : M Z :=
  fun w =>
    let p := 2 * (Z.of_nat (allocations w) + 1) in
    (p,
     {| calls := calls w; heap := <[p := o]> (heap w);
        allocations := S (allocations w) |}).

Definition load (p : Z) : M (option object) :=
  fun w => (heap w !! p, w).

Definition store (p : Z) (o : object) : M unit :=
  fun w =>
    (tt,
     {| calls := calls w; heap := <[p := o]> (heap w);
        allocations := allocations w |}).

(** Returning the memory of a record; nothing happens for a pointer
    that is not allocated (in particular for null). *)
Definition free (p : Z) : M unit :=
  fun w =>
    (tt,
     {| calls := calls w; heap := delete p (heap w);
        allocations := allocations w |}).

(** *** Samplers *)

Definition create_sampler (desc : sampler_desc) (out_handle : Z)
    : M (bool * Z) :=
  r <- native (CreateSamplerState desc) ;;
  match r with
  | Some object => ret (true, object)
  | None => ret (false, 0)
  end.

Definition destroy_sampler (handle : Z) : M unit :=
  if negb (handle =? 0) then release handle else ret tt.

(** *** Resources *)

(** [get_shared_resource]: [Some h] when both calls succeed and the
    shared handle [h] was written. *)
Definition get_shared_resource (object : Z) : M (option Z) :=
  qi <- native (QueryInterface_IDXGIResource object) ;;
  match qi with
  | Some object_dxgi =>
    r <- native (GetSharedHandle object_dxgi) ;;
    release_all [object_dxgi] ;;;
    ret r
  | None => ret None
  end.

Definition open_shared_resource (shared_handle : Z) : M (option Z) :=
  native (OpenSharedResource shared_handle).

(** One [case] of the [switch (desc.type)] in [create_resource]:
    [None] stands for leaving the switch with [break]. *)
Definition create_native_resource (create : native_call)
    (is_shared : bool) (shared_handle : option Z)
    : M (option (Z * option Z)) :=
  r <- native create ;;
  match r with
  | Some object =>
    if is_shared then
      gs <- get_shared_resource object ;;
      match gs with
      | Some h => ret (Some (object, Some h))
      | None => release_all [object] ;;; ret None
      end
    else ret (Some (object, shared_handle))
  | None => ret None
  end.

(** [create_resource]; [shared_handle] is [None] for a null pointer and
    [Some h] for a pointer to the handle value [h].  The result is the
    return value, [*out_handle] and [*shared_handle]. *)
Definition create_resource (desc : Api.resource_desc) (initial_data : Z)
    (initial_state : Z) (out_handle : Z) (shared_handle : option Z)
    : M (bool * Z * option Z) :=
  let out_handle := 0 in
  let is_shared := has_flag (Api.flags desc) resource_flags_shared in
  let create_by_type :=
    let create :=
      match Api.type desc with
      | Api.buffer => Some (CreateBuffer desc initial_data)
      | Api.texture_1d => Some (CreateTexture1D desc initial_data)
      | Api.texture_2d => Some (CreateTexture2D desc initial_data)
      | Api.texture_3d => Some (CreateTexture3D desc initial_data)
      | Api.resource_type_unknown | Api.surface => None
      end in
    match create with
    | Some call =>
      r <- create_native_resource call is_shared shared_handle ;;
      match r with
      | Some (object, shared_handle') =>
        ret (true, object, shared_handle')
      | None => ret (false, out_handle, shared_handle)
      end
    | None => ret (false, out_handle, shared_handle)
    end in
  if is_shared then
    (* NT handles are not supported *)
    match shared_handle with
    | None => ret (false, out_handle, shared_handle)
    | Some h =>
      if has_flag (Api.flags desc) resource_flags_shared_nt_handle
      then ret (false, out_handle, shared_handle)
      else if negb (h =? 0) then
        r <- open_shared_resource h ;;
        match r with
        | Some object => ret (true, object, shared_handle)
        | None => ret (false, out_handle, shared_handle)
        end
      else create_by_type
    end
  else create_by_type.

Definition destroy_resource (handle : Z) : M unit :=
  if negb (handle =? 0) then release handle else ret tt.

(** *** Resource views *)

Definition create_resource_view (resource : Z) (usage_type : Z)
    (desc : resource_view_desc) (out_handle : Z) : M (bool * Z) :=
  let out_handle := 0 in
  if resource =? 0 then ret (false, out_handle)
  else
    let create :=
      if usage_type =? Api.resource_usage.depth_stencil
      then Some (CreateDepthStencilView resource desc)
      else if usage_type =? Api.resource_usage.render_target
      then Some (CreateRenderTargetView resource desc)
      else if usage_type =? Api.resource_usage.shader_resource
      then Some (CreateShaderResourceView1 resource desc)
      else None in
    match create with
    | Some call =>
      r <- native call ;;
      match r with
      | Some object => ret (true, object)
      | None => ret (false, out_handle)
      end
    | None => ret (false, out_handle)
    end.

Definition destroy_resource_view (handle : Z) : M unit :=
  if negb (handle =? 0) then release handle else ret tt.

(** *** Pipelines *)

(** The seven functions that create one state object each. *)
Definition create_from (call : native_call) (out_handle : Z)
    : M (bool * Z) :=
  r <- native call ;;
  match r with
  | Some object => ret (true, object)
  | None => ret (false, 0)
  end.

Definition create_input_layout (desc : pipeline_desc) (out_handle : Z)
    : M (bool * Z) :=
  (* Empty input layout is valid, but generates a warning, so just
     return success and a zero handle *)
  if input_layout_elements desc =? 0 then ret (true, 0)
  else create_from (CreateInputLayout desc) out_handle.

Definition create_vertex_shader (desc : pipeline_desc) :=
  create_from (CreateVertexShader desc).
Definition create_geometry_shader (desc : pipeline_desc) :=
  create_from (CreateGeometryShader desc).
Definition create_pixel_shader (desc : pipeline_desc) :=
  create_from (CreatePixelShader desc).
Definition create_blend_state (desc : pipeline_desc) :=
  create_from (CreateBlendState1 desc).
Definition create_rasterizer_state (desc : pipeline_desc) :=
  create_from (CreateRasterizerState desc).
Definition create_depth_stencil_state (desc : pipeline_desc) :=
  create_from (CreateDepthStencilState desc).

(** The macro [create_state_object(name, type, condition)]: [None] when
    it executes [return false]; otherwise the object the new [com_ptr]
    owns (null when [condition] is false). *)
Definition create_state_object
    (create : pipeline_desc -> Z -> M (bool * Z))
    (condition : bool) (desc : pipeline_desc) : M (option Z) :=
  if condition then
    r <- create desc 0 ;;
    ret (if fst r then Some (snd r) else None)
  else ret (Some 0).

(** Continue with the created object, or run the destructors of the
    [com_ptr]s constructed so far and return false. *)
Definition or_return_false (constructed : list Z) (r : option Z)
    (k : Z -> M (bool * Z)) : M (bool * Z) :=
  match r with
  | Some object => k object
  | None => release_all constructed ;;; ret (false, 0)
  end.

Definition create_graphics_pipeline (desc : pipeline_desc)
    (out_handle : Z) : M (bool * Z) :=
  let out_handle := 0 in
  if negb (code_size (hull_shader desc) =? 0)
     || negb (code_size (domain_shader desc) =? 0)
     || conservative_rasterization desc
     || logic_op_enable_0 desc
     || primitive_topology.is_triangle_fan (topology desc)
  then ret (false, out_handle)
  else
    r <- create_state_object create_vertex_shader
           (negb (code_size (vertex_shader desc) =? 0)) desc ;;
    or_return_false [] r (fun vertex_shader =>
    r <- create_state_object create_geometry_shader
           (negb (code_size (geometry_shader desc) =? 0)) desc ;;
    or_return_false [vertex_shader] r (fun geometry_shader =>
    r <- create_state_object create_pixel_shader
           (negb (code_size (pixel_shader desc) =? 0)) desc ;;
    or_return_false [geometry_shader; vertex_shader] r
      (fun pixel_shader =>
    r <- create_state_object create_input_layout true desc ;;
    or_return_false [pixel_shader; geometry_shader; vertex_shader] r
      (fun input_layout =>
    r <- create_state_object create_blend_state true desc ;;
    or_return_false
      [input_layout; pixel_shader; geometry_shader; vertex_shader] r
      (fun blend_state =>
    r <- create_state_object create_rasterizer_state true desc ;;
    or_return_false
      [blend_state; input_layout; pixel_shader; geometry_shader;
       vertex_shader] r
      (fun rasterizer_state =>
    r <- create_state_object create_depth_stencil_state true desc ;;
    or_return_false
      [rasterizer_state; blend_state; input_layout; pixel_shader;
       geometry_shader; vertex_shader] r
      (fun depth_stencil_state =>
    impl <- new (obj_pipeline
              {| vs := vertex_shader;
                 gs := geometry_shader;
                 ps := pixel_shader;
                 input_layout := input_layout;
                 blend_state := blend_state;
                 rasterizer_state := rasterizer_state;
                 depth_stencil_state := depth_stencil_state;
                 impl_topology := topology desc;
                 impl_sample_mask := sample_mask desc;
                 impl_stencil_reference_value :=
                   stencil_reference_value desc;
                 impl_blend_constant := blend_constant desc |}) ;;
    (* Set first bit to identify this as a 'pipeline_impl' handle *)
    ret (true, Z.lor impl 1)))))))).

Definition create_pipeline (desc : pipeline_desc)
    (dynamic_states : list dynamic_state.t) (out_handle : Z)
    : M (bool * Z) :=
  let out_handle := 0 in
  if negb (forallb dynamic_state.is_primitive_topology dynamic_states)
  then ret (false, out_handle)
  else
    match pipeline_type desc with
    | pipeline_stage.all_graphics =>
      create_graphics_pipeline desc out_handle
    | pipeline_stage.input_assembler =>
      create_input_layout desc out_handle
    | pipeline_stage.vertex_shader =>
      create_vertex_shader desc out_handle
    | pipeline_stage.geometry_shader =>
      create_geometry_shader desc out_handle
    | pipeline_stage.pixel_shader =>
      create_pixel_shader desc out_handle
    | pipeline_stage.rasterizer =>
      create_rasterizer_state desc out_handle
    | pipeline_stage.depth_stencil =>
      create_depth_stencil_state desc out_handle
    | pipeline_stage.output_merger =>
      create_blend_state desc out_handle
    | pipeline_stage.other _ => ret (false, out_handle)
    end.

(** [delete] of a [pipeline_impl]: the [com_ptr] members release what
    they hold, then the memory is returned. *)
Definition delete_pipeline_impl (p : Z) : M unit :=
  o <- load p ;;
  match o with
  | Some (obj_pipeline impl) =>
    release_all
      [depth_stencil_state impl; rasterizer_state impl;
       blend_state impl; input_layout impl; ps impl; gs impl; vs impl] ;;;
    free p
  | _ => ret tt
  end.

Definition destroy_pipeline (handle : Z) : M unit :=
  if negb (Z.land handle 1 =? 0)
  then delete_pipeline_impl (Z.lxor handle 1)
  else if negb (handle =? 0) then release handle
  else ret tt.

(** *** Pipeline layouts *)

Definition set_binding_and_register (r : descriptor_range)
    (binding' dx_register_index' : Z) : descriptor_range :=
  mk_descriptor_range binding' dx_register_index' (dx_register_space r)
    (count r) (visibility r) (array_size r) (type r).

Definition add_count_and_visibility (r : descriptor_range)
    (distance visibility' : Z) : descriptor_range :=
  mk_descriptor_range (binding r) (dx_register_index r)
    (dx_register_space r) (wrap32 (count r + distance))
    (Z.lor (visibility r) visibility') (array_size r) (type r).

(** The loop over [ranges[1 .. count)] of one descriptor set; [None]
    is [return false]. *)
Fixpoint merge_ranges (merged_range : descriptor_range)
    (ranges : list descriptor_range) : option descriptor_range :=
  match ranges with
  | [] => Some merged_range
  | range :: rest =>
    if negb (descriptor_type.eqb (type range) (type merged_range))
       || (1 <? array_size range)
       || negb (dx_register_space range
                =? dx_register_space merged_range)
    then None
    else if binding merged_range <=? binding range then
      let distance := wrap32 (binding range - binding merged_range) in
      if negb (wrap32 (dx_register_index range
                       - dx_register_index merged_range) =? distance)
      then None
      else
        merge_ranges
          (add_count_and_visibility merged_range distance
             (visibility range))
          rest
    else
      let distance := wrap32 (binding merged_range - binding range) in
      if negb (wrap32 (dx_register_index merged_range
                       - dx_register_index range) =? distance)
      then None
      else
        merge_ranges
          (add_count_and_visibility
             (set_binding_and_register merged_range (binding range)
                (dx_register_index range))
             distance (visibility range))
          rest
  end.

(** One iteration of the loop over the parameters. *)
Definition merge_param (param : pipeline_layout_param)
    : option descriptor_range :=
  match param with
  | param_descriptor_set [] => None
  | param_descriptor_set (merged_range :: rest) =>
    if (1 <? array_size merged_range)
       || negb (dx_register_space merged_range =? 0)
    then None
    else merge_ranges merged_range rest
  | param_push_descriptors merged_range =>
    if negb (dx_register_space merged_range =? 0) then None
    else Some merged_range
  | param_push_constants index space =>
    let merged_range :=
      mk_descriptor_range (binding descriptor_range_default)
        index space (count descriptor_range_default)
        (visibility descriptor_range_default)
        (array_size descriptor_range_default)
        (type descriptor_range_default) in
    if negb (dx_register_space merged_range =? 0) then None
    else Some merged_range
  | param_other => Some descriptor_range_default
  end.

Fixpoint merge_params (params : list pipeline_layout_param)
    : option (list descriptor_range) :=
  match params with
  | [] => Some []
  | param :: rest =>
    match merge_param param with
    | None => None
    | Some merged_range =>
      match merge_params rest with
      | None => None
      | Some ranges => Some (merged_range :: ranges)
      end
    end
  end.

Definition create_pipeline_layout (params : list pipeline_layout_param)
    (out_handle : Z) : M (bool * Z) :=
  let out_handle := 0 in
  match merge_params params with
  | None => ret (false, out_handle)
  | Some ranges =>
    impl <- new (obj_pipeline_layout ranges) ;;
    ret (true, impl)
  end.

Definition destroy_pipeline_layout (handle : Z) : M unit :=
  free handle.

(** *** Descriptor sets *)

Definition new_descriptor_set (range : descriptor_range) : M Z :=
  let size :=
    match type range with
    | descriptor_type.sampler
    | descriptor_type.shader_resource_view => wrap32 (count range * 1)
    | descriptor_type.constant_buffer => wrap32 (count range * 3)
    | descriptor_type.other _ => 0
    end in
  new (obj_descriptor_set
         {| set_type := type range;
            set_count := count range;
            descriptors := replicate (Z.to_nat size) 0 |}).

Fixpoint new_descriptor_sets (n : nat) (range : descriptor_range)
    : M (list Z) :=
  match n with
  | O => ret []
  | S n' =>
    set <- new_descriptor_set range ;;
    sets <- new_descriptor_sets n' range ;;
    ret (set :: sets)
  end.

(** [allocate_descriptor_sets]: the return value and [out_sets].  The
    result is [None] where the source reads through a layout handle
    that is not a live layout, or indexes past its ranges. *)
Definition allocate_descriptor_sets (set_count : Z) (layout : Z)
    (layout_param : Z) : M (option (bool * list Z)) :=
  if negb (layout =? 0) then
    o <- load layout ;;
    match o with
    | Some (obj_pipeline_layout ranges) =>
      match ranges !! Z.to_nat layout_param with
      | Some range =>
        sets <- new_descriptor_sets (Z.to_nat set_count) range ;;
        ret (Some (true, sets))
      | None => ret None
      end
    | _ => ret None
    end
  else ret (Some (false, replicate (Z.to_nat set_count) 0)).

Fixpoint free_descriptor_sets (sets : list Z) : M unit :=
  match sets with
  | [] => ret tt
  | set :: rest => free set ;;; free_descriptor_sets rest
  end.

(** *** Query pools *)

(** The loop creating the queries: [inl] all of them, or [inr] the
    ones created before the call that failed. *)
Fixpoint create_queries (type : query_type) (n : nat) (created : list Z)
    : M (list Z + list Z) :=
  match n with
  | O => ret (inl created)
  | S n' =>
    r <- native (CreateQuery type) ;;
    match r with
    | Some query => create_queries type n' (created ++ [query])
    | None => ret (inr created)
    end
  end.

Definition create_query_pool (type : query_type) (size : Z)
    (out_handle : Z) : M (bool * Z) :=
  impl <- new (obj_query_pool (replicate (Z.to_nat size) 0)) ;;
  r <- create_queries type (Z.to_nat size) [] ;;
  match r with
  | inl queries =>
    store impl (obj_query_pool queries) ;;;
    ret (true, impl)
  | inr created =>
    release_all created ;;;
    free impl ;;;
    ret (false, 0)
  end.

Definition destroy_query_pool (handle : Z) : M unit :=
  o <- load handle ;;
  match o with
  | Some (obj_query_pool queries) =>
    release_all queries ;;; free handle
  | _ => ret tt
  end.

(** The world of a freshly created device. *)
Definition initial_world : world :=
  {| calls := []; heap := ∅; allocations := O |}.

End Device.

Arguments mk_world {_ _ _}.
Arguments calls {_ _ _}.
Arguments heap {_ _ _}.
Arguments allocations {_ _ _}.
Arguments initial_world {_ _ _}.

(** A create operation fails closed when a [false] return value comes
    with a zero output handle. *)
Definition fails_closed (result : bool * Z) : Prop :=
  fst result = false -> snd result = 0.

(** What merging the ranges of a descriptor set keeps constant: the
    offset between register index and binding index, in 32-bit unsigned
    arithmetic. *)
Definition register_offset (r : descriptor_range) : Z :=
  wrap32 (dx_register_index r - binding r).

(** *** Concrete devices and descriptions for the examples *)

Module Examples.

Abbreviation call := (native_call unit unit unit).

(** [api::resource_flags::shared] and [shared_nt_handle]. *)
Definition resource_flags_shared : Z := 0x2.
Definition resource_flags_shared_nt_handle : Z := 0x800.

Definition descriptor_range_default : descriptor_range :=
  mk_descriptor_range 0 0 0 0 0 1 descriptor_type.sampler.

(** A driver that fails every call, and one that succeeds every call
    with a new object. *)
Definition failing_driver : list call -> call -> option Z :=
  fun _ _ => None.

Definition working_driver : list call -> call -> option Z :=
  fun history _ => Some (0x10000 + 16 * Z.of_nat (length history)).

Definition device_world : world unit unit unit := initial_world.

(** Constant-buffer ranges: b0 visible to the vertex stage, b1 visible
    to the pixel stage, and a range at binding 1 bound to register 5. *)
Definition vertex_stage_range : descriptor_range :=
  mk_descriptor_range 0 0 0 1 0x1 1 descriptor_type.constant_buffer.

Definition pixel_stage_range : descriptor_range :=
  mk_descriptor_range 1 1 0 1 0x10 1 descriptor_type.constant_buffer.

Definition displaced_range : descriptor_range :=
  mk_descriptor_range 1 5 0 1 0x1 1 descriptor_type.constant_buffer.

(** Push-descriptor parameters of constant-buffer type. *)
Definition constant_buffers (n : Z) : pipeline_layout_param :=
  param_push_descriptors
    (mk_descriptor_range 0 0 0 n 0x1 1 descriptor_type.constant_buffer).

(** The world after creating a layout with one such parameter; the
    layout is the first allocation, at address 2. *)
Definition layout_world (n : Z) : world unit unit unit :=
  snd (create_pipeline_layout unit unit unit descriptor_range_default
         [constant_buffers n] 0 device_world).

(** A description with the shared and shared-NT-handle flags. *)
Definition shared_nt_buffer_desc : Api.resource_desc :=
  {| Api.type := Api.buffer;
     Api.buffer_size := 256;
     Api.texture_width := 0; Api.texture_height := 0;
     Api.texture_depth_or_layers := 0; Api.texture_levels := 0;
     Api.texture_format := 0; Api.texture_samples := 0;
     Api.heap := Api.gpu_only;
     Api.usage := Api.resource_usage.shader_resource;
     Api.flags :=
       Z.lor resource_flags_shared resource_flags_shared_nt_handle |}.

End Examples.

End D3D10.

(** ** The Vulkan interception layer ([vulkan_hooks_device.cpp]) *)

Module Vulkan.

(** Constants of the Vulkan headers. *)
Definition VK_SUCCESS : Z := 0.
Definition VK_ERROR_INITIALIZATION_FAILED : Z := -3.
Definition VK_QUEUE_GRAPHICS_BIT : Z := 0x1.
Definition VK_MAX_EXTENSION_NAME_SIZE : nat := 256.
Definition VK_KHR_SWAPCHAIN_EXTENSION_NAME : string := "VK_KHR_swapchain".
Definition VK_KHR_PUSH_DESCRIPTOR_EXTENSION_NAME : string :=
  "VK_KHR_push_descriptor".
Definition VK_KHR_IMAGE_FORMAT_LIST_EXTENSION_NAME : string :=
  "VK_KHR_image_format_list".
Definition VK_KHR_SWAPCHAIN_MUTABLE_FORMAT_EXTENSION_NAME : string :=
  "VK_KHR_swapchain_mutable_format".
Definition VK_EXT_DEBUG_MARKER_EXTENSION_NAME : string :=
  "VK_EXT_debug_marker".

(** [std::numeric_limits<uint32_t>::max()] *)
Definition UINT32_MAX : Z := 2 ^ 32 - 1.

(** [strcmp(a, b) == 0] and [strncmp(a, b, n) == 0]. *)
Definition strcmp_eq (a b : string) : bool := String.eqb a b.

Fixpoint strncmp_eq (n : nat) (a b : string) : bool :=
  match n with
  | O => true
  | S n' =>
    match a, b with
    | EmptyString, EmptyString => true
    | String x a', String y b' => Ascii.eqb x y && strncmp_eq n' a' b'
    | _, _ => false
    end
  end.

(** *** The registries *)

(** Modelled from the spec: [lockfree_table] ([lockfree_table.hpp] is not
    among the sources).  "[emplace(key, value) -> bool] (fails if key
    already present), [erase(key) -> value_or_null] (removes and returns
    prior value for the caller to destroy), [at(key) -> value_or_null]",
    over a finite map; [clear] empties the table. *)
Definition emplace {V : Type} (key : Z) (value : V) (t : gmap Z V)
    : bool * gmap Z V :=
  match t !! key with
  | Some _ => (false, t)
  | None => (true, <[key := value]> t)
  end.

Definition erase {V : Type} (key : Z) (t : gmap Z V)
    : option V * gmap Z V :=
  (t !! key, delete key t).

Definition table_at {V : Type} (key : Z) (t : gmap Z V) : option V :=
  t !! key.

(** Per-device data.  [_queues] are the [VkQueue] handles of the
    [command_queue_impl]s of the device; [_resources] is the table behind
    [register_buffer] and [unregister_buffer]. *)
Record device_impl : Type := mk_device_impl {
  _orig : Z;
  _graphics_queue_family_index : Z;
  _queues : list Z;
  _resources : gmap Z unit
}.

Inductive table : Set :=
| g_vulkan_devices_table
| s_vulkan_queues_table
| s_vulkan_command_buffers_table
| resources_table (device_key : Z).

Inductive trampoline_function : Set :=
| CreateDevice
| DestroyDevice
| DestroyBuffer
| AllocateCommandBuffers
| FreeCommandBuffers.

(** What a hook does, in order: registry updates, [delete] of a wrapper
    record, and the call of the native trampoline. *)
Inductive event : Set :=
| Emplaced (t : table) (key : Z)
| Erased (t : table) (key : Z)
| Cleared (t : table)
| DeletedQueue (queue : Z)
| DeletedCommandList (command_buffer : Z)
| DeletedDevice (device : Z)
| Called (f : trampoline_function) (handles : list Z).


Record world : Type := mk_world {
  g_vulkan_devices : gmap Z device_impl;
  s_vulkan_queues : gmap Z Z;            (* VkQueue to its device *)
  s_vulkan_command_buffers : gmap Z Z;   (* VkCommandBuffer to its device *)
  trace : list event
}.

Definition log (events : list event) (w : world) : world :=
  mk_world (g_vulkan_devices w) (s_vulkan_queues w)
    (s_vulkan_command_buffers w) (trace w ++ events).

Definition initial_world : world := mk_world ∅ ∅ ∅ [].

(** *** Device creation *)

Record VkDeviceQueueCreateInfo : Set := {
  queueFamilyIndex : Z;
  queueCount : Z
}.

(** The two members of [VkPhysicalDeviceFeatures] the hook writes. *)
Record VkPhysicalDeviceFeatures : Set := {
  shaderImageGatherExtended : bool;
  shaderStorageImageWriteWithoutFormat : bool
}.

(** [VkDeviceCreateInfo]; [features2] is the [VkPhysicalDeviceFeatures2]
    found in the [pNext] chain, [link_info] whether the loader's layer
    link info is in the chain. *)
Record VkDeviceCreateInfo : Set := {
  link_info : bool;
  features2 : option VkPhysicalDeviceFeatures;
  pQueueCreateInfos : list VkDeviceQueueCreateInfo;
  ppEnabledExtensionNames : list string;
  pEnabledFeatures : option VkPhysicalDeviceFeatures
}.

(** What the instance dispatch table reports for a physical device: the
    [queueFlags] of its queue families and the names of its extensions. *)
Record physical_device : Set := {
  queue_families : list Z;
  extensions : list string
}.

(** The first queue family which supports graphics and has at least one
    queue. *)
Fixpoint find_graphics_queue_family (queue_families : list Z)
    (infos : list VkDeviceQueueCreateInfo) : Z :=
  match infos with
  | [] => UINT32_MAX
  | info :: rest =>
    let queue_family_index := queueFamilyIndex info in
    if (0 <? queueCount info)
       && has_flag
            (nth (Z.to_nat queue_family_index) queue_families 0)
            VK_QUEUE_GRAPHICS_BIT
    then queue_family_index
    else find_graphics_queue_family queue_families rest
  end.

(** [std::find_if(extensions.begin(), extensions.end(), ...) !=
    extensions.end()] with the [strncmp] predicate of [add_extension]. *)
Definition has_extension (extensions : list string) (name : string)
    : bool :=
  existsb (fun props => strncmp_eq VK_MAX_EXTENSION_NAME_SIZE props name)
    extensions.

(** The lambda [add_extension]; it captures [extensions] and, by
    reference, [enabled_extensions] and [graphics_queue_family_index]. *)
Definition add_extension (extensions : list string)
    (name : string) (required : bool)
    (captured : list string * Z) : bool * (list string * Z) :=
  let (enabled_extensions, graphics_queue_family_index) := captured in
  if has_extension extensions name
  then (true, (enabled_extensions ++ [name], graphics_queue_family_index))
  else if required
  then
    (* Reset queue family index to prevent ReShade initialization *)
    (false, (enabled_extensions, UINT32_MAX))
  else (false, (enabled_extensions, graphics_queue_family_index)).

(** The part of [vkCreateDevice] between resolving the trampoline and
    calling it: the extensions and features passed down the chain and the
    graphics queue family index kept for the device. *)
Definition negotiate (NDEBUG : bool) (physicalDevice : physical_device)
    (pCreateInfo : VkDeviceCreateInfo)
    : list string * VkPhysicalDeviceFeatures * Z :=
  let graphics_queue_family_index :=
    find_graphics_queue_family (queue_families physicalDevice)
      (pQueueCreateInfos pCreateInfo) in
  let enabled_features :=
    match features2 pCreateInfo, pEnabledFeatures pCreateInfo with
    | Some f, _ => f
    | None, Some f => f
    | None, None =>
      {| shaderImageGatherExtended := false;
         shaderStorageImageWriteWithoutFormat := false |}
    end in
  let enabled_extensions := ppEnabledExtensionNames pCreateInfo in
  (* Check if the device is used for presenting *)
  if negb (existsb
             (fun name => strcmp_eq name VK_KHR_SWAPCHAIN_EXTENSION_NAME)
             enabled_extensions)
  then (enabled_extensions, enabled_features, UINT32_MAX)
  else if graphics_queue_family_index =? UINT32_MAX
  then (enabled_extensions, enabled_features, graphics_queue_family_index)
  else
    let enabled_features :=
      {| shaderImageGatherExtended := true;
         shaderStorageImageWriteWithoutFormat := true |} in
    let captured := (enabled_extensions, graphics_queue_family_index) in
    let captured :=
      snd (add_extension (extensions physicalDevice)
             VK_KHR_PUSH_DESCRIPTOR_EXTENSION_NAME false captured) in
    let captured :=
      snd (add_extension (extensions physicalDevice)
             VK_KHR_IMAGE_FORMAT_LIST_EXTENSION_NAME true captured) in
    let captured :=
      snd (add_extension (extensions physicalDevice)
             VK_KHR_SWAPCHAIN_MUTABLE_FORMAT_EXTENSION_NAME true
             captured) in
    let captured :=
      if NDEBUG then captured
      else snd (add_extension (extensions physicalDevice)
                  VK_EXT_DEBUG_MARKER_EXTENSION_NAME false captured) in
    (fst captured, enabled_features, snd captured).

(** Whether the physical device reports the extension [name], and
    whether the application enables the swap chain extension. *)
Definition supports (physicalDevice : physical_device) (name : string)
    : bool :=
  has_extension (extensions physicalDevice) name.

Definition presents (pCreateInfo : VkDeviceCreateInfo) : bool :=
  existsb (fun name => strcmp_eq name VK_KHR_SWAPCHAIN_EXTENSION_NAME)
    (ppEnabledExtensionNames pCreateInfo).





Section Hooks.

(** [dispatch_key_from_handle]: the key a dispatchable handle is
    registered under. *)
Variable dispatch_key_from_handle : Z -> Z.

(** Build configuration. *)
Variables RESHADE_ADDON NDEBUG : bool.

(** The next [vkCreateDevice] in the chain: its result and the device
    written to [*pDevice], for the extensions and features it is
    called with. *)
Variable next_vkCreateDevice :
  physical_device -> list string -> VkPhysicalDeviceFeatures -> Z * Z.

(** [GetDeviceQueue] of the device dispatch table. *)
Variable GetDeviceQueue : Z -> Z -> Z -> Z.

(** The loop over [queue_index] for one [VkDeviceQueueCreateInfo]. *)
Fixpoint init_queues (device : Z) (family : Z) (first : Z) (n : nat)
    (w : world) : world :=
  match n with
  | O => w
  | S n' =>
    let queue := GetDeviceQueue device family first in
    let key := dispatch_key_from_handle device in
    (* the constructor of [command_queue_impl] enters the queue in the
       queue list of its device *)
    let devices :=
      alter (fun impl =>
               mk_device_impl (_orig impl)
                 (_graphics_queue_family_index impl)
                 (_queues impl ++ [queue]) (_resources impl))
        key (g_vulkan_devices w) in
    let w1 :=
      mk_world devices
        (snd (emplace queue device (s_vulkan_queues w)))
        (s_vulkan_command_buffers w)
        (trace w ++ [Emplaced s_vulkan_queues_table queue]) in
    init_queues device family (first + 1) n' w1
  end.

Fixpoint init_all_queues (device : Z)
    (infos : list VkDeviceQueueCreateInfo) (w : world) : world :=
  match infos with
  | [] => w
  | info :: rest =>
    init_all_queues device rest
      (init_queues device (queueFamilyIndex info) 0
         (Z.to_nat (queueCount info)) w)
  end.

(** [vkCreateDevice]: the [VkResult], the device written to [*pDevice]
    (if any) and the world afterwards. *)
Definition vkCreateDevice (physicalDevice : physical_device)
    (pCreateInfo : VkDeviceCreateInfo) (w : world)
    : Z * option Z * world :=
  if negb (link_info pCreateInfo)
  then
    (* Unable to resolve next 'vkCreateDevice' function in the call
       chain *)
    (VK_ERROR_INITIALIZATION_FAILED, None, w)
  else
    let '(enabled_extensions, enabled_features,
          graphics_queue_family_index) :=
      negotiate NDEBUG physicalDevice pCreateInfo in
    (* Continue calling down the chain *)
    let (result, device) :=
      next_vkCreateDevice physicalDevice enabled_extensions
        enabled_features in
    let w := log [Called CreateDevice []] w in
    if negb (result =? VK_SUCCESS) then (result, None, w)
    else
      let device_impl :=
        mk_device_impl device graphics_queue_family_index [] ∅ in
      let key := dispatch_key_from_handle device in
      let w :=
        mk_world
          (snd (emplace key device_impl (g_vulkan_devices w)))
          (s_vulkan_queues w) (s_vulkan_command_buffers w)
          (trace w ++ [Emplaced g_vulkan_devices_table key]) in
      (VK_SUCCESS, Some device,
       init_all_queues device (pQueueCreateInfos pCreateInfo) w).

(** *** Destruction *)

Fixpoint erase_queues (queues : list Z) (w : world) : world :=
  match queues with
  | [] => w
  | queue :: rest =>
    erase_queues rest
      (mk_world (g_vulkan_devices w)
         (snd (erase queue (s_vulkan_queues w)))
         (s_vulkan_command_buffers w)
         (trace w
          ++ [Erased s_vulkan_queues_table queue; DeletedQueue queue]))
  end.

(** [vkDestroyDevice]; [None] where the source asserts that the device
    is registered. *)
Definition vkDestroyDevice (device : Z) (w : world) : option world :=
  (* Reset all command buffer data *)
  let w :=
    mk_world (g_vulkan_devices w) (s_vulkan_queues w) ∅
      (trace w ++ [Cleared s_vulkan_command_buffers_table]) in
  (* Remove from device dispatch table since this device is being
     destroyed *)
  let key := dispatch_key_from_handle device in
  let (device_impl, devices) := erase key (g_vulkan_devices w) in
  match device_impl with
  | None => None
  | Some device_impl =>
    let w :=
      mk_world devices (s_vulkan_queues w) (s_vulkan_command_buffers w)
        (trace w ++ [Erased g_vulkan_devices_table key]) in
    (* Destroy all queues associated with this device *)
    let w := erase_queues (_queues device_impl) w in
    (* Finally destroy the device *)
    Some (log [DeletedDevice device; Called DestroyDevice [device]] w)
  end.

(** [device_impl::unregister_buffer] ([render_vk.hpp] is not among the
    sources): what the call leaves of the data of the device. *)
Variable unregister_buffer : Z -> device_impl -> device_impl.


(** The loop of [vkFreeCommandBuffers]:
    [delete s_vulkan_command_buffers.erase(pCommandBuffers[i])]. *)
Fixpoint erase_command_buffers (pCommandBuffers : list Z) (w : world)
    : world :=
  match pCommandBuffers with
  | [] => w
  | command_buffer :: rest =>
    let (cmd_impl, command_buffers) :=
      erase command_buffer (s_vulkan_command_buffers w) in
    erase_command_buffers rest
      (mk_world (g_vulkan_devices w) (s_vulkan_queues w) command_buffers
         (trace w
          ++ Erased s_vulkan_command_buffers_table command_buffer
             :: match cmd_impl with
                | Some _ => [DeletedCommandList command_buffer]
                | None => []
                end))
  end.

(** [vkFreeCommandBuffers] *)
Definition vkFreeCommandBuffers (device commandPool : Z)
    (pCommandBuffers : list Z) (w : world) : option world :=
  let w :=
    if RESHADE_ADDON then erase_command_buffers pCommandBuffers w
    else w in
  match table_at (dispatch_key_from_handle device)
          (g_vulkan_devices w) with
  | None => None
  | Some _ => Some (log [Called FreeCommandBuffers pCommandBuffers] w)
  end.

(** The loop of [vkAllocateCommandBuffers] that registers the new
    command buffers. *)
Fixpoint emplace_command_buffers (device : Z)
    (pCommandBuffers : list Z) (w : world) : world :=
  match pCommandBuffers with
  | [] => w
  | command_buffer :: rest =>
    let (inserted, command_buffers) :=
      emplace command_buffer device (s_vulkan_command_buffers w) in
    emplace_command_buffers device rest
      (mk_world (g_vulkan_devices w) (s_vulkan_queues w) command_buffers
         (trace w
          ++ if inserted
             then [Emplaced s_vulkan_command_buffers_table
                     command_buffer]
             else [DeletedCommandList command_buffer]))
  end.

(** [vkAllocateCommandBuffers]; the trampoline answers with a result
    and the command buffers it allocated. *)
Definition vkAllocateCommandBuffers (device : Z)
    (next : Z * list Z) (w : world) : option (Z * world) :=
  match table_at (dispatch_key_from_handle device)
          (g_vulkan_devices w) with
  | None => None
  | Some _ =>
    let (result, pCommandBuffers) := next in
    let w := log [Called AllocateCommandBuffers []] w in
    if negb (result =? VK_SUCCESS) then Some (result, w)
    else
      Some (VK_SUCCESS,
            if RESHADE_ADDON
            then emplace_command_buffers device pCommandBuffers w
            else w)
  end.

End Hooks.


(** *** Concrete devices for the examples *)

Module Examples.

Definition dispatch_key_from_handle (handle : Z) : Z := handle.

(** A device with one graphics queue family and every extension the
    layer asks for except [VK_KHR_image_format_list]. *)
Definition device_without_format_list : physical_device :=
  {| queue_families := [VK_QUEUE_GRAPHICS_BIT];
     extensions :=
       [VK_KHR_SWAPCHAIN_EXTENSION_NAME;
        VK_KHR_PUSH_DESCRIPTOR_EXTENSION_NAME;
        VK_KHR_SWAPCHAIN_MUTABLE_FORMAT_EXTENSION_NAME] |}.

(** The same, but without the optional [VK_KHR_push_descriptor]. *)
Definition device_without_push_descriptor : physical_device :=
  {| queue_families := [VK_QUEUE_GRAPHICS_BIT];
     extensions :=
       [VK_KHR_SWAPCHAIN_EXTENSION_NAME;
        VK_KHR_IMAGE_FORMAT_LIST_EXTENSION_NAME;
        VK_KHR_SWAPCHAIN_MUTABLE_FORMAT_EXTENSION_NAME] |}.

(** An application that presents from one graphics queue. *)
Definition presenting_application : VkDeviceCreateInfo :=
  {| link_info := true;
     features2 := None;
     pQueueCreateInfos := [{| queueFamilyIndex := 0; queueCount := 1 |}];
     ppEnabledExtensionNames := [VK_KHR_SWAPCHAIN_EXTENSION_NAME];
     pEnabledFeatures := None |}.

(** A driver that creates the device 0x1000 whatever it is asked. *)
Definition next_vkCreateDevice (_ : physical_device) (_ : list string)
    (_ : VkPhysicalDeviceFeatures) : Z * Z :=
  (VK_SUCCESS, 0x1000).

Definition GetDeviceQueue (device family index : Z) : Z :=
  device + 0x100 * (family + 1) + index.

(** The world after creating a device on
    [device_without_push_descriptor] and allocating two command
    buffers. *)
Definition device_world : world :=
  snd (vkCreateDevice dispatch_key_from_handle true next_vkCreateDevice
         GetDeviceQueue device_without_push_descriptor
         presenting_application initial_world).

Definition recording_world : world :=
  match vkAllocateCommandBuffers dispatch_key_from_handle true 0x1000
          (VK_SUCCESS, [0x2000; 0x2010]) device_world with
  | Some (_, w) => w
  | None => device_world
  end.



End Examples.

End Vulkan.

(** ** D3D11: what the flag conversions keep *)

Module D3D11Flags.
Import D3D11.

(** The bind flags [convert_resource_usage_to_bind_flags] decides on; the
    other bits of [bind_flags] (stream output, decoder, video encoder) are
    not named in it. *)
Definition converted_bind_flags : Z :=
  Z.lor D3D11_BIND_RENDER_TARGET
    (Z.lor D3D11_BIND_DEPTH_STENCIL
       (Z.lor D3D11_BIND_SHADER_RESOURCE
          (Z.lor D3D11_BIND_UNORDERED_ACCESS
             (Z.lor D3D11_BIND_INDEX_BUFFER
                (Z.lor D3D11_BIND_VERTEX_BUFFER
                   D3D11_BIND_CONSTANT_BUFFER))))).

(** The CPU access flags each [D3D11_USAGE] gets on the way back from the
    neutral heap. *)
Definition cpu_access_of_usage (usage : Z) : Z :=
  if usage =? D3D11_USAGE_DYNAMIC then D3D11_CPU_ACCESS_WRITE
  else if usage =? D3D11_USAGE_STAGING then D3D11_CPU_ACCESS_READ
  else 0.

(** [D3D11_USAGE_IMMUTABLE] is read as [gpu_only] and comes back as
    [D3D11_USAGE_DEFAULT]. *)
Definition usage_read_back (usage : Z) : Z :=
  if usage =? D3D11_USAGE_IMMUTABLE then D3D11_USAGE_DEFAULT else usage.

(** A native description as the runtime reports it: unsigned 32-bit
    members, one of the four [D3D11_USAGE] values, and the bounds the
    conversion functions assert. *)
Definition native_usage_valid (usage : Z) : Prop :=
  usage = D3D11_USAGE_DEFAULT \/ usage = D3D11_USAGE_IMMUTABLE
  \/ usage = D3D11_USAGE_DYNAMIC \/ usage = D3D11_USAGE_STAGING.

Definition native_valid (n : native_desc) : Prop :=
  match n with
  | native_buffer d =>
    is_u32 (buf_ByteWidth d) /\ native_usage_valid (buf_Usage d)
  | native_texture1d d =>
    is_u32 (t1_Width d) /\ is_u16 (t1_MipLevels d)
    /\ is_u16 (t1_ArraySize d) /\ 0 <= t1_Format d < 1000
    /\ native_usage_valid (t1_Usage d)
  | native_texture2d d =>
    is_u32 (t2_Width d) /\ is_u32 (t2_Height d) /\ is_u16 (t2_MipLevels d)
    /\ is_u16 (t2_ArraySize d) /\ 0 <= t2_Format d < 1000
    /\ is_u16 (t2_SampleDesc_Count d) /\ native_usage_valid (t2_Usage d)
  | native_texture3d d =>
    is_u32 (t3_Width d) /\ is_u32 (t3_Height d) /\ is_u16 (t3_Depth d)
    /\ is_u16 (t3_MipLevels d) /\ 0 <= t3_Format d < 1000
    /\ native_usage_valid (t3_Usage d)
  end.

(** What a native description is expected to come back as after
    [to_neutral] and [to_native]. *)
Definition native_read_back (n : native_desc) : native_desc :=
  match n with
  | native_buffer d =>
    native_buffer
      {| buf_ByteWidth := buf_ByteWidth d;
         buf_Usage := usage_read_back (buf_Usage d);
         buf_BindFlags := Z.land (buf_BindFlags d) converted_bind_flags;
         buf_CPUAccessFlags := cpu_access_of_usage (buf_Usage d) |}
  | native_texture1d d =>
    native_texture1d
      {| t1_Width := t1_Width d;
         t1_MipLevels := t1_MipLevels d;
         t1_ArraySize := t1_ArraySize d;
         t1_Format := t1_Format d;
         t1_Usage := usage_read_back (t1_Usage d);
         t1_BindFlags := Z.land (t1_BindFlags d) converted_bind_flags;
         t1_CPUAccessFlags := cpu_access_of_usage (t1_Usage d) |}
  | native_texture2d d =>
    native_texture2d
      {| t2_Width := t2_Width d;
         t2_Height := t2_Height d;
         t2_MipLevels := t2_MipLevels d;
         t2_ArraySize := t2_ArraySize d;
         t2_Format := t2_Format d;
         t2_SampleDesc_Count := t2_SampleDesc_Count d;
         t2_Usage := usage_read_back (t2_Usage d);
         t2_BindFlags := Z.land (t2_BindFlags d) converted_bind_flags;
         t2_CPUAccessFlags := cpu_access_of_usage (t2_Usage d) |}
  | native_texture3d d =>
    native_texture3d
      {| t3_Width := t3_Width d;
         t3_Height := t3_Height d;
         t3_Depth := t3_Depth d;
         t3_MipLevels := t3_MipLevels d;
         t3_Format := t3_Format d;
         t3_Usage := usage_read_back (t3_Usage d);
         t3_BindFlags := Z.land (t3_BindFlags d) converted_bind_flags;
         t3_CPUAccessFlags := cpu_access_of_usage (t3_Usage d) |}
  end.

(** An immutable multisampled render target with a stream-output bind
    flag, as an application may have created it. *)
Definition application_texture : native_desc :=
  native_texture2d
    {| t2_Width := 1920; t2_Height := 1080; t2_MipLevels := 1;
       t2_ArraySize := 1; t2_Format := 28; t2_SampleDesc_Count := 4;
       t2_Usage := D3D11_USAGE_IMMUTABLE;
       t2_BindFlags :=
         Z.lor D3D11_BIND_RENDER_TARGET D3D11_BIND_STREAM_OUTPUT;
       t2_CPUAccessFlags := 0 |}.

End D3D11Flags.

(** ** Resource view descriptions of the D3D11 backend
       ([render_d3d11_utils.cpp]) *)

Module D3D11Views.

Module resource_view_type.
Inductive t : Set :=
| unknown
| buffer
| texture_1d
| texture_1d_array
| texture_2d
| texture_2d_array
| texture_2d_multisample
| texture_2d_multisample_array
| texture_3d
| texture_cube
| texture_cube_array.
End resource_view_type.

(** [api::resource_view_desc].  The members [buffer] and [texture] of its
    union are kept as separate fields: a conversion reads only the member
    that belongs to the view type, which is the one that was written for
    it. *)
Record resource_view_desc : Set := mk_resource_view_desc {
  type : resource_view_type.t;
  format : Z;
  buffer_offset : Z;
  buffer_size : Z;
  texture_first_level : Z;
  texture_levels : Z;
  texture_first_layer : Z;
  texture_layers : Z
}.

(** Enumerators of [d3dcommon.h] and [d3d11.h]. *)
Definition D3D11_SRV_DIMENSION_BUFFER : Z := 1.
Definition D3D11_SRV_DIMENSION_TEXTURE1D : Z := 2.
Definition D3D11_SRV_DIMENSION_TEXTURE1DARRAY : Z := 3.
Definition D3D11_SRV_DIMENSION_TEXTURE2D : Z := 4.
Definition D3D11_SRV_DIMENSION_TEXTURE2DARRAY : Z := 5.
Definition D3D11_SRV_DIMENSION_TEXTURE2DMS : Z := 6.
Definition D3D11_SRV_DIMENSION_TEXTURE2DMSARRAY : Z := 7.
Definition D3D11_SRV_DIMENSION_TEXTURE3D : Z := 8.
Definition D3D11_SRV_DIMENSION_TEXTURECUBE : Z := 9.
Definition D3D11_SRV_DIMENSION_TEXTURECUBEARRAY : Z := 10.
Definition D3D11_SRV_DIMENSION_BUFFEREX : Z := 11.

Definition D3D11_RTV_DIMENSION_TEXTURE1D : Z := 2.
Definition D3D11_RTV_DIMENSION_TEXTURE1DARRAY : Z := 3.
Definition D3D11_RTV_DIMENSION_TEXTURE2D : Z := 4.
Definition D3D11_RTV_DIMENSION_TEXTURE2DARRAY : Z := 5.
Definition D3D11_RTV_DIMENSION_TEXTURE2DMS : Z := 6.
Definition D3D11_RTV_DIMENSION_TEXTURE2DMSARRAY : Z := 7.
Definition D3D11_RTV_DIMENSION_TEXTURE3D : Z := 8.

Definition D3D11_DSV_DIMENSION_TEXTURE1D : Z := 1.
Definition D3D11_DSV_DIMENSION_TEXTURE1DARRAY : Z := 2.
Definition D3D11_DSV_DIMENSION_TEXTURE2D : Z := 3.
Definition D3D11_DSV_DIMENSION_TEXTURE2DARRAY : Z := 4.
Definition D3D11_DSV_DIMENSION_TEXTURE2DMS : Z := 5.
Definition D3D11_DSV_DIMENSION_TEXTURE2DMSARRAY : Z := 6.

Definition D3D11_UAV_DIMENSION_BUFFER : Z := 1.
Definition D3D11_UAV_DIMENSION_TEXTURE1D : Z := 2.
Definition D3D11_UAV_DIMENSION_TEXTURE1DARRAY : Z := 3.
Definition D3D11_UAV_DIMENSION_TEXTURE2D : Z := 4.
Definition D3D11_UAV_DIMENSION_TEXTURE2DARRAY : Z := 5.
Definition D3D11_UAV_DIMENSION_TEXTURE3D : Z := 8.

(** The native view descriptions.  Their anonymous union holds [UINT]
    members only, so it is modelled as the consecutive [UINT] slots the
    members occupy; a member named in a comment below is the slot it is
    declared at in [d3d11.h]. *)

(** [D3D11_SHADER_RESOURCE_VIEW_DESC]: [Buffer], [Texture1D], [Texture2D],
    [Texture3D], [TextureCube] and [Texture2DMSArray] use slots 0 and 1,
    the array members of [Texture1DArray], [Texture2DArray] and
    [TextureCubeArray] slots 2 and 3, [BufferEx] slots 0 to 2. *)
Record D3D11_SHADER_RESOURCE_VIEW_DESC : Set := mk_srv {
  srv_Format : Z;
  srv_ViewDimension : Z;
  srv_0 : Z;
  srv_1 : Z;
  srv_2 : Z;
  srv_3 : Z
}.

(** [D3D11_RENDER_TARGET_VIEW_DESC]: [MipSlice] is slot 0 and the array
    or depth members slots 1 and 2, except for [Texture2DMSArray], which
    has no [MipSlice] and uses slots 0 and 1. *)
Record D3D11_RENDER_TARGET_VIEW_DESC : Set := mk_rtv {
  rtv_Format : Z;
  rtv_ViewDimension : Z;
  rtv_0 : Z;
  rtv_1 : Z;
  rtv_2 : Z
}.

(** [D3D11_DEPTH_STENCIL_VIEW_DESC], laid out as the render target view
    with the additional member [Flags]. *)
Record D3D11_DEPTH_STENCIL_VIEW_DESC : Set := mk_dsv {
  dsv_Format : Z;
  dsv_ViewDimension : Z;
  dsv_Flags : Z;
  dsv_0 : Z;
  dsv_1 : Z;
  dsv_2 : Z
}.

(** [D3D11_UNORDERED_ACCESS_VIEW_DESC]: [Buffer] uses slots 0 to 2
    ([FirstElement], [NumElements], [Flags]). *)
Record D3D11_UNORDERED_ACCESS_VIEW_DESC : Set := mk_uav {
  uav_Format : Z;
  uav_ViewDimension : Z;
  uav_0 : Z;
  uav_1 : Z;
  uav_2 : Z
}.

(** *** neutral -> native.  The native description is passed by
    reference; what a case does not assign keeps its value. *)

Definition convert_resource_view_desc_to_dsv
    (desc : resource_view_desc)
    (internal_desc : D3D11_DEPTH_STENCIL_VIEW_DESC)
    : D3D11_DEPTH_STENCIL_VIEW_DESC :=
  let Format := D3D11.convert_format_to_dxgi (format desc) in
  let Flags := dsv_Flags internal_desc in
  match type desc with
  | resource_view_type.texture_1d =>
    mk_dsv Format D3D11_DSV_DIMENSION_TEXTURE1D Flags
      (texture_first_level desc) (dsv_1 internal_desc) (dsv_2 internal_desc)
  | resource_view_type.texture_1d_array =>
    mk_dsv Format D3D11_DSV_DIMENSION_TEXTURE1DARRAY Flags
      (texture_first_level desc) (texture_first_layer desc)
      (texture_layers desc)
  | resource_view_type.texture_2d =>
    mk_dsv Format D3D11_DSV_DIMENSION_TEXTURE2D Flags
      (texture_first_level desc) (dsv_1 internal_desc) (dsv_2 internal_desc)
  | resource_view_type.texture_2d_array =>
    mk_dsv Format D3D11_DSV_DIMENSION_TEXTURE2DARRAY Flags
      (texture_first_level desc) (texture_first_layer desc)
      (texture_layers desc)
  | resource_view_type.texture_2d_multisample =>
    mk_dsv Format D3D11_DSV_DIMENSION_TEXTURE2DMS Flags
      (dsv_0 internal_desc) (dsv_1 internal_desc) (dsv_2 internal_desc)
  | resource_view_type.texture_2d_multisample_array =>
    mk_dsv Format D3D11_DSV_DIMENSION_TEXTURE2DMSARRAY Flags
      (texture_first_layer desc) (texture_layers desc) (dsv_2 internal_desc)
  | _ =>
    mk_dsv Format (dsv_ViewDimension internal_desc) Flags
      (dsv_0 internal_desc) (dsv_1 internal_desc) (dsv_2 internal_desc)
  end.

Definition convert_resource_view_desc_to_rtv
    (desc : resource_view_desc)
    (internal_desc : D3D11_RENDER_TARGET_VIEW_DESC)
    : D3D11_RENDER_TARGET_VIEW_DESC :=
  let Format := D3D11.convert_format_to_dxgi (format desc) in
  match type desc with
  | resource_view_type.texture_1d =>
    mk_rtv Format D3D11_RTV_DIMENSION_TEXTURE1D
      (texture_first_level desc) (rtv_1 internal_desc) (rtv_2 internal_desc)
  | resource_view_type.texture_1d_array =>
    mk_rtv Format D3D11_RTV_DIMENSION_TEXTURE1DARRAY
      (texture_first_level desc) (texture_first_layer desc)
      (texture_layers desc)
  | resource_view_type.texture_2d =>
    mk_rtv Format D3D11_RTV_DIMENSION_TEXTURE2D
      (texture_first_level desc) (rtv_1 internal_desc) (rtv_2 internal_desc)
  | resource_view_type.texture_2d_array =>
    mk_rtv Format D3D11_RTV_DIMENSION_TEXTURE2DARRAY
      (texture_first_level desc) (texture_first_layer desc)
      (texture_layers desc)
  | resource_view_type.texture_2d_multisample =>
    mk_rtv Format D3D11_RTV_DIMENSION_TEXTURE2DMS
      (rtv_0 internal_desc) (rtv_1 internal_desc) (rtv_2 internal_desc)
  | resource_view_type.texture_2d_multisample_array =>
    mk_rtv Format D3D11_RTV_DIMENSION_TEXTURE2DMSARRAY
      (texture_first_layer desc) (texture_layers desc) (rtv_2 internal_desc)
  | resource_view_type.texture_3d =>
    mk_rtv Format D3D11_RTV_DIMENSION_TEXTURE3D
      (texture_first_level desc) (texture_first_layer desc)
      (texture_layers desc)
  | _ =>
    mk_rtv Format (rtv_ViewDimension internal_desc)
      (rtv_0 internal_desc) (rtv_1 internal_desc) (rtv_2 internal_desc)
  end.

Definition convert_resource_view_desc_to_srv
    (desc : resource_view_desc)
    (internal_desc : D3D11_SHADER_RESOURCE_VIEW_DESC)
    : D3D11_SHADER_RESOURCE_VIEW_DESC :=
  let Format := D3D11.convert_format_to_dxgi (format desc) in
  let mips (ViewDimension : Z) :=
    mk_srv Format ViewDimension
      (texture_first_level desc) (texture_levels desc)
      (srv_2 internal_desc) (srv_3 internal_desc) in
  let mips_and_layers (ViewDimension : Z) :=
    mk_srv Format ViewDimension
      (texture_first_level desc) (texture_levels desc)
      (texture_first_layer desc) (texture_layers desc) in
  match type desc with
  | resource_view_type.buffer =>
    mk_srv Format D3D11_SRV_DIMENSION_BUFFER
      (wrap32 (buffer_offset desc)) (wrap32 (buffer_size desc))
      (srv_2 internal_desc) (srv_3 internal_desc)
  | resource_view_type.texture_1d => mips D3D11_SRV_DIMENSION_TEXTURE1D
  | resource_view_type.texture_1d_array =>
    mips_and_layers D3D11_SRV_DIMENSION_TEXTURE1DARRAY
  | resource_view_type.texture_2d => mips D3D11_SRV_DIMENSION_TEXTURE2D
  | resource_view_type.texture_2d_array =>
    mips_and_layers D3D11_SRV_DIMENSION_TEXTURE2DARRAY
  | resource_view_type.texture_2d_multisample =>
    mk_srv Format D3D11_SRV_DIMENSION_TEXTURE2DMS
      (srv_0 internal_desc) (srv_1 internal_desc)
      (srv_2 internal_desc) (srv_3 internal_desc)
  | resource_view_type.texture_2d_multisample_array =>
    mk_srv Format D3D11_SRV_DIMENSION_TEXTURE2DMSARRAY
      (texture_first_layer desc) (texture_layers desc)
      (srv_2 internal_desc) (srv_3 internal_desc)
  | resource_view_type.texture_3d => mips D3D11_SRV_DIMENSION_TEXTURE3D
  | resource_view_type.texture_cube => mips D3D11_SRV_DIMENSION_TEXTURECUBE
  | resource_view_type.texture_cube_array =>
    mk_srv Format D3D11_SRV_DIMENSION_TEXTURECUBEARRAY
      (texture_first_level desc) (texture_levels desc)
      (texture_first_layer desc)
      (if texture_layers desc =? 0xFFFFFFFF then 0xFFFFFFFF
       else texture_layers desc / 6)
  | resource_view_type.unknown =>
    mk_srv Format (srv_ViewDimension internal_desc)
      (srv_0 internal_desc) (srv_1 internal_desc)
      (srv_2 internal_desc) (srv_3 internal_desc)
  end.

Definition convert_resource_view_desc_to_uav
    (desc : resource_view_desc)
    (internal_desc : D3D11_UNORDERED_ACCESS_VIEW_DESC)
    : D3D11_UNORDERED_ACCESS_VIEW_DESC :=
  let Format := D3D11.convert_format_to_dxgi (format desc) in
  match type desc with
  | resource_view_type.buffer =>
    mk_uav Format D3D11_UAV_DIMENSION_BUFFER
      (wrap32 (buffer_offset desc)) (wrap32 (buffer_size desc))
      (uav_2 internal_desc)
  | resource_view_type.texture_1d =>
    mk_uav Format D3D11_UAV_DIMENSION_TEXTURE1D
      (texture_first_level desc) (uav_1 internal_desc) (uav_2 internal_desc)
  | resource_view_type.texture_1d_array =>
    mk_uav Format D3D11_UAV_DIMENSION_TEXTURE1DARRAY
      (texture_first_level desc) (texture_first_layer desc)
      (texture_layers desc)
  | resource_view_type.texture_2d =>
    mk_uav Format D3D11_UAV_DIMENSION_TEXTURE2D
      (texture_first_level desc) (uav_1 internal_desc) (uav_2 internal_desc)
  | resource_view_type.texture_2d_array =>
    mk_uav Format D3D11_UAV_DIMENSION_TEXTURE2DARRAY
      (texture_first_level desc) (texture_first_layer desc)
      (texture_layers desc)
  | resource_view_type.texture_3d =>
    mk_uav Format D3D11_UAV_DIMENSION_TEXTURE3D
      (texture_first_level desc) (texture_first_layer desc)
      (texture_layers desc)
  | _ =>
    mk_uav Format (uav_ViewDimension internal_desc)
      (uav_0 internal_desc) (uav_1 internal_desc) (uav_2 internal_desc)
  end.

(** The assertions of the three overloads that have one. *)
Definition asserts_texture_view (desc : resource_view_desc) : Prop :=
  type desc <> resource_view_type.buffer /\ texture_levels desc = 1.

Definition asserts_unordered_access_view (desc : resource_view_desc)
    : Prop :=
  type desc = resource_view_type.buffer \/ texture_levels desc = 1.

(** *** native -> neutral.  Each overload starts from
    [api::resource_view_desc desc = {}]; a [ViewDimension] without a case
    leaves the type [unknown]. *)

Definition convert_resource_view_desc_from_dsv
    (internal_desc : D3D11_DEPTH_STENCIL_VIEW_DESC) : resource_view_desc :=
  let format := D3D11.convert_format_from_dxgi (dsv_Format internal_desc) in
  let dimension := dsv_ViewDimension internal_desc in
  if dimension =? D3D11_DSV_DIMENSION_TEXTURE1D then
    mk_resource_view_desc resource_view_type.texture_1d format 0 0
      (dsv_0 internal_desc) 1 0 0
  else if dimension =? D3D11_DSV_DIMENSION_TEXTURE1DARRAY then
    mk_resource_view_desc resource_view_type.texture_1d_array format 0 0
      (dsv_0 internal_desc) 1 (dsv_1 internal_desc) (dsv_2 internal_desc)
  else if dimension =? D3D11_DSV_DIMENSION_TEXTURE2D then
    mk_resource_view_desc resource_view_type.texture_2d format 0 0
      (dsv_0 internal_desc) 1 0 0
  else if dimension =? D3D11_DSV_DIMENSION_TEXTURE2DARRAY then
    mk_resource_view_desc resource_view_type.texture_2d_array format 0 0
      (dsv_0 internal_desc) 1 (dsv_1 internal_desc) (dsv_2 internal_desc)
  else if dimension =? D3D11_DSV_DIMENSION_TEXTURE2DMS then
    mk_resource_view_desc resource_view_type.texture_2d_multisample
      format 0 0 0 1 0 0
  else if dimension =? D3D11_DSV_DIMENSION_TEXTURE2DMSARRAY then
    mk_resource_view_desc resource_view_type.texture_2d_multisample_array
      format 0 0 0 1 (dsv_0 internal_desc) (dsv_1 internal_desc)
  else
    mk_resource_view_desc resource_view_type.unknown format 0 0 0 1 0 0.

Definition convert_resource_view_desc_from_rtv
    (internal_desc : D3D11_RENDER_TARGET_VIEW_DESC) : resource_view_desc :=
  let format := D3D11.convert_format_from_dxgi (rtv_Format internal_desc) in
  let dimension := rtv_ViewDimension internal_desc in
  if dimension =? D3D11_RTV_DIMENSION_TEXTURE1D then
    mk_resource_view_desc resource_view_type.texture_1d format 0 0
      (rtv_0 internal_desc) 1 0 0
  else if dimension =? D3D11_RTV_DIMENSION_TEXTURE1DARRAY then
    mk_resource_view_desc resource_view_type.texture_1d_array format 0 0
      (rtv_0 internal_desc) 1 (rtv_1 internal_desc) (rtv_2 internal_desc)
  else if dimension =? D3D11_RTV_DIMENSION_TEXTURE2D then
    mk_resource_view_desc resource_view_type.texture_2d format 0 0
      (rtv_0 internal_desc) 1 0 0
  else if dimension =? D3D11_RTV_DIMENSION_TEXTURE2DARRAY then
    mk_resource_view_desc resource_view_type.texture_2d_array format 0 0
      (rtv_0 internal_desc) 1 (rtv_1 internal_desc) (rtv_2 internal_desc)
  else if dimension =? D3D11_RTV_DIMENSION_TEXTURE2DMS then
    mk_resource_view_desc resource_view_type.texture_2d_multisample
      format 0 0 0 1 0 0
  else if dimension =? D3D11_RTV_DIMENSION_TEXTURE2DMSARRAY then
    mk_resource_view_desc resource_view_type.texture_2d_multisample_array
      format 0 0 0 1 (rtv_0 internal_desc) (rtv_1 internal_desc)
  else if dimension =? D3D11_RTV_DIMENSION_TEXTURE3D then
    mk_resource_view_desc resource_view_type.texture_3d format 0 0
      (rtv_0 internal_desc) 1 (rtv_1 internal_desc) (rtv_2 internal_desc)
  else
    mk_resource_view_desc resource_view_type.unknown format 0 0 0 1 0 0.

Definition convert_resource_view_desc_from_srv
    (internal_desc : D3D11_SHADER_RESOURCE_VIEW_DESC) : resource_view_desc :=
  let format := D3D11.convert_format_from_dxgi (srv_Format internal_desc) in
  let dimension := srv_ViewDimension internal_desc in
  let mips (type : resource_view_type.t) :=
    mk_resource_view_desc type format 0 0
      (srv_0 internal_desc) (srv_1 internal_desc) 0 0 in
  let mips_and_layers (type : resource_view_type.t) :=
    mk_resource_view_desc type format 0 0
      (srv_0 internal_desc) (srv_1 internal_desc)
      (srv_2 internal_desc) (srv_3 internal_desc) in
  if dimension =? D3D11_SRV_DIMENSION_BUFFER then
    mk_resource_view_desc resource_view_type.buffer format
      (srv_0 internal_desc) (srv_1 internal_desc) 0 0 0 0
  else if dimension =? D3D11_SRV_DIMENSION_TEXTURE1D then
    mips resource_view_type.texture_1d
  else if dimension =? D3D11_SRV_DIMENSION_TEXTURE1DARRAY then
    mips_and_layers resource_view_type.texture_1d_array
  else if dimension =? D3D11_SRV_DIMENSION_TEXTURE2D then
    mips resource_view_type.texture_2d
  else if dimension =? D3D11_SRV_DIMENSION_TEXTURE2DARRAY then
    mips_and_layers resource_view_type.texture_2d_array
  else if dimension =? D3D11_SRV_DIMENSION_TEXTURE2DMS then
    mk_resource_view_desc resource_view_type.texture_2d_multisample
      format 0 0 0 0 0 0
  else if dimension =? D3D11_SRV_DIMENSION_TEXTURE2DMSARRAY then
    mk_resource_view_desc resource_view_type.texture_2d_multisample_array
      format 0 0 0 0 (srv_0 internal_desc) (srv_1 internal_desc)
  else if dimension =? D3D11_SRV_DIMENSION_TEXTURE3D then
    mips resource_view_type.texture_3d
  else if dimension =? D3D11_SRV_DIMENSION_TEXTURECUBE then
    mips resource_view_type.texture_cube
  else if dimension =? D3D11_SRV_DIMENSION_TEXTURECUBEARRAY then
    mk_resource_view_desc resource_view_type.texture_cube_array format 0 0
      (srv_0 internal_desc) (srv_1 internal_desc) (srv_2 internal_desc)
      (if srv_3 internal_desc =? 0xFFFFFFFF then 0xFFFFFFFF
       else wrap32 (srv_3 internal_desc * 6))
  else if dimension =? D3D11_SRV_DIMENSION_BUFFEREX then
    (* the type is left unknown on purpose *)
    mk_resource_view_desc resource_view_type.unknown format
      (srv_0 internal_desc) (srv_1 internal_desc) 0 0 0 0
  else
    mk_resource_view_desc resource_view_type.unknown format 0 0 0 0 0 0.

Definition convert_resource_view_desc_from_uav
    (internal_desc : D3D11_UNORDERED_ACCESS_VIEW_DESC) : resource_view_desc :=
  let format := D3D11.convert_format_from_dxgi (uav_Format internal_desc) in
  let dimension := uav_ViewDimension internal_desc in
  if dimension =? D3D11_UAV_DIMENSION_BUFFER then
    mk_resource_view_desc resource_view_type.buffer format
      (uav_0 internal_desc) (uav_1 internal_desc) 0 1 0 0
  else if dimension =? D3D11_UAV_DIMENSION_TEXTURE1D then
    mk_resource_view_desc resource_view_type.texture_1d format 0 0
      (uav_0 internal_desc) 1 0 0
  else if dimension =? D3D11_UAV_DIMENSION_TEXTURE1DARRAY then
    mk_resource_view_desc resource_view_type.texture_1d_array format 0 0
      (uav_0 internal_desc) 1 (uav_1 internal_desc) (uav_2 internal_desc)
  else if dimension =? D3D11_UAV_DIMENSION_TEXTURE2D then
    mk_resource_view_desc resource_view_type.texture_2d format 0 0
      (uav_0 internal_desc) 1 0 0
  else if dimension =? D3D11_UAV_DIMENSION_TEXTURE2DARRAY then
    mk_resource_view_desc resource_view_type.texture_2d_array format 0 0
      (uav_0 internal_desc) 1 (uav_1 internal_desc) (uav_2 internal_desc)
  else if dimension =? D3D11_UAV_DIMENSION_TEXTURE3D then
    mk_resource_view_desc resource_view_type.texture_3d format 0 0
      (uav_0 internal_desc) 1 (uav_1 internal_desc) (uav_2 internal_desc)
  else
    mk_resource_view_desc resource_view_type.unknown format 0 0 0 1 0 0.

(** The number of cubes a cube array view may name without the layer
    count [NumCubes * 6] leaving 32 bits; [0xFFFFFFFF] stands for all. *)
Definition cubes_representable (internal_desc : D3D11_SHADER_RESOURCE_VIEW_DESC)
    : Prop :=
  srv_ViewDimension internal_desc = D3D11_SRV_DIMENSION_TEXTURECUBEARRAY ->
  srv_3 internal_desc = 0xFFFFFFFF \/ srv_3 internal_desc * 6 < 2 ^ 32.

(** The members of a native shader resource view within their C++
    types. *)
Definition srv_wf (internal_desc : D3D11_SHADER_RESOURCE_VIEW_DESC) : Prop :=
  0 <= srv_Format internal_desc < 1000
  /\ is_u32 (srv_0 internal_desc) /\ is_u32 (srv_1 internal_desc)
  /\ is_u32 (srv_2 internal_desc) /\ is_u32 (srv_3 internal_desc).

(** A view of four cubes of a cube array, and a view whose cube count
    times six does not fit 32 bits. *)
Definition cube_array_view : D3D11_SHADER_RESOURCE_VIEW_DESC :=
  mk_srv 28 D3D11_SRV_DIMENSION_TEXTURECUBEARRAY 0 1 0 4.

Definition oversized_cube_array_view : D3D11_SHADER_RESOURCE_VIEW_DESC :=
  mk_srv 28 D3D11_SRV_DIMENSION_TEXTURECUBEARRAY 0 1 0 715827883.

(** A raw buffer view ([D3D11_SRV_DIMENSION_BUFFEREX] with the raw
    flag). *)
Definition raw_buffer_view : D3D11_SHADER_RESOURCE_VIEW_DESC :=
  mk_srv 39 D3D11_SRV_DIMENSION_BUFFEREX 0 64 1 0.

(** Which members of the texture part a shader resource view of each
    type carries. *)
Definition srv_has_levels (t : resource_view_type.t) : bool :=
  match t with
  | resource_view_type.texture_1d | resource_view_type.texture_1d_array
  | resource_view_type.texture_2d | resource_view_type.texture_2d_array
  | resource_view_type.texture_3d | resource_view_type.texture_cube
  | resource_view_type.texture_cube_array => true
  | _ => false
  end.

Definition srv_has_layers (t : resource_view_type.t) : bool :=
  match t with
  | resource_view_type.texture_1d_array
  | resource_view_type.texture_2d_array
  | resource_view_type.texture_2d_multisample_array => true
  | _ => false
  end.

(** A view of the first eleven layers of a cube array. *)
Definition eleven_layers_view : resource_view_desc :=
  mk_resource_view_desc resource_view_type.texture_cube_array 28 0 0
    0 1 0 11.

End D3D11Views.

(** ** D3D10: the references the device holds on native objects *)

Module D3D10References.

Section References.

Variables sampler_desc resource_view_desc query_type : Set.

Abbreviation native_call :=
  (D3D10.native_call sampler_desc resource_view_desc query_type).
Abbreviation world :=
  (D3D10.world sampler_desc resource_view_desc query_type).

Variable driver : list native_call -> native_call -> option Z.

(** What one native call does to the number of references the caller
    holds on [object]: a successful call that hands out an interface
    pointer adds one to the object it hands out, [Release] takes one off.
    [GetSharedHandle] hands out a handle, not an interface pointer. *)
Definition reference_change (history : list native_call)
    (c : native_call) (object : Z) : Z :=
  match c with
  | D3D10.Release _ _ _ released => if released =? object then -1 else 0
  | D3D10.GetSharedHandle _ _ _ _ => 0
  | _ =>
    match driver history c with
    | Some created => if created =? object then 1 else 0
    | None => 0
    end
  end.

(** The references taken on [object] by the calls [new], made after
    [history]. *)
Fixpoint references (history new : list native_call) (object : Z) : Z :=
  match new with
  | [] => 0
  | c :: rest =>
    reference_change history c object
    + references (history ++ [c]) rest object
  end.

(** The references on [object] held in a world. *)
Definition held (w : world) (object : Z) : Z :=
  references [] (D3D10.calls w) object.

(** How often [object] is among the members of a record. *)
Fixpoint occurrences (object : Z) (members : list Z) : Z :=
  match members with
  | [] => 0
  | member :: rest =>
    (if member =? object then 1 else 0) + occurrences object rest
  end.

(** The interface pointers a [pipeline_impl] owns. *)
Definition pipeline_members (impl : D3D10.pipeline_impl) : list Z :=
  [D3D10.depth_stencil_state impl; D3D10.rasterizer_state impl;
   D3D10.blend_state impl; D3D10.input_layout impl;
   D3D10.ps impl; D3D10.gs impl; D3D10.vs impl].

(** The records of [w'] are those of [w]. *)
Definition same_records (w w' : world) : Prop :=
  D3D10.heap w' = D3D10.heap w
  /\ D3D10.allocations w' = D3D10.allocations w.

(** Calls that hand out an interface pointer. *)
Definition hands_out (c : native_call) : bool :=
  match c with
  | D3D10.Release _ _ _ _ | D3D10.GetSharedHandle _ _ _ _ => false
  | _ => true
  end.

(** [m] keeps the records, and the references it takes are one on the
    object it returns on success and none on failure. *)
Definition accounted
    (m : D3D10.M sampler_desc resource_view_desc query_type (bool * Z))
    : Prop :=
  forall w,
    same_records w (snd (m w))
    /\ forall o, o <> 0 ->
         held (snd (m w)) o
         = held w o
           + (if fst (fst (m w))
              then (if snd (fst (m w)) =? o then 1 else 0) else 0).

(** What [create_graphics_pipeline] leaves behind, seen from the world
    [w0] it started in. *)
Definition pipeline_post (w0 : world) (res : bool * Z * world) : Prop :=
  let p := 2 * (Z.of_nat (D3D10.allocations w0) + 1) in
  if fst (fst res) then
    exists impl,
      snd (fst res) = Z.lor p 1
      /\ D3D10.heap (snd res)
         = <[p := D3D10.obj_pipeline impl]> (D3D10.heap w0)
      /\ forall o, o <> 0 ->
           held (snd res) o
           = held w0 o
             + occurrences o (pipeline_members impl)
  else
    same_records w0 (snd res)
    /\ forall o, o <> 0 -> held (snd res) o = held w0 o.

End References.

(** A pipeline of a vertex and a pixel shader without input layout, and
    a driver whose third call fails. *)
Definition two_shader_pipeline : D3D10.pipeline_desc :=
  {| D3D10.pipeline_type := D3D10.pipeline_stage.all_graphics;
     D3D10.vertex_shader :=
       {| D3D10.code := 0x1000; D3D10.code_size := 64 |};
     D3D10.hull_shader := {| D3D10.code := 0; D3D10.code_size := 0 |};
     D3D10.domain_shader := {| D3D10.code := 0; D3D10.code_size := 0 |};
     D3D10.geometry_shader := {| D3D10.code := 0; D3D10.code_size := 0 |};
     D3D10.pixel_shader :=
       {| D3D10.code := 0x2000; D3D10.code_size := 64 |};
     D3D10.input_layout_elements := 0;
     D3D10.conservative_rasterization := false;
     D3D10.logic_op_enable_0 := false;
     D3D10.topology := D3D10.primitive_topology.other 4;
     D3D10.sample_mask := 0xFFFFFFFF;
     D3D10.stencil_reference_value := 0;
     D3D10.blend_constant := [0; 0; 0; 0] |}.

Definition third_call_fails
    : list D3D10.Examples.call -> D3D10.Examples.call -> option Z :=
  fun history c =>
    if (length history =? 2)%nat then None
    else D3D10.Examples.working_driver history c.

(** A buffer to be shared with another device. *)
Definition exported_buffer_desc : Api.resource_desc :=
  {| Api.type := Api.buffer;
     Api.buffer_size := 256;
     Api.texture_width := 0; Api.texture_height := 0;
     Api.texture_depth_or_layers := 0; Api.texture_levels := 0;
     Api.texture_format := 0; Api.texture_samples := 0;
     Api.heap := Api.gpu_only;
     Api.usage := Api.resource_usage.shader_resource;
     Api.flags := D3D10.Examples.resource_flags_shared |}.

End D3D10References.

(** ** Vulkan: what [vkCreateSwapchainKHR] changes in the create info *)

Module VulkanSwapchain.

Definition VK_IMAGE_USAGE_TRANSFER_SRC_BIT : Z := 0x1.
Definition VK_SWAPCHAIN_CREATE_MUTABLE_FORMAT_BIT_KHR : Z := 0x4.
Definition VK_SHARING_MODE_CONCURRENT : Z := 1.

(** [VkSwapchainCreateInfoKHR], the members the hook reads or writes.
    [pViewFormats] is the format list of the
    [VkImageFormatListCreateInfoKHR] in the [pNext] chain, if there is
    one; [pQueueFamilyIndices] has [queueFamilyIndexCount] elements. *)
Record VkSwapchainCreateInfoKHR : Set := {
  pViewFormats : option (list Z);
  flags : Z;
  imageFormat : Z;
  imageUsage : Z;
  imageSharingMode : Z;
  pQueueFamilyIndices : list Z
}.

(** [std::sort] on [VkFormat] values: the ascending arrangement. *)
Fixpoint insert_sorted (x : Z) (l : list Z) : list Z :=
  match l with
  | [] => [x]
  | y :: rest => if x <=? y then x :: l else y :: insert_sorted x rest
  end.

Fixpoint sort (l : list Z) : list Z :=
  match l with
  | [] => []
  | x :: rest => insert_sorted x (sort rest)
  end.

(** [std::unique] followed by [erase]: of every run of equal elements
    the first is kept. *)
Fixpoint unique_from (x : Z) (l : list Z) : list Z :=
  match l with
  | [] => [x]
  | y :: rest =>
    if x =? y then unique_from x rest else x :: unique_from y rest
  end.

Definition unique (l : list Z) : list Z :=
  match l with
  | [] => []
  | x :: rest => unique_from x rest
  end.

(** Every element is at most ([ascending]) or below ([increasing]) all
    the elements after it. *)
Fixpoint ascending (l : list Z) : Prop :=
  match l with
  | [] => True
  | x :: rest => (forall y, In y rest -> x <= y) /\ ascending rest
  end.

Fixpoint increasing (l : list Z) : Prop :=
  match l with
  | [] => True
  | x :: rest => (forall y, In y rest -> x < y) /\ increasing rest
  end.

Section Patch.

(** [make_format_srgb] and [make_format_normal] of the runtime. *)
Variables make_format_srgb make_format_normal : Z -> Z.

(** The create info handed to the trampoline, from the graphics queue
    family index kept for the device and the create info of the
    application. *)
Definition patch_create_info (graphics_queue_family_index : Z)
    (pCreateInfo : VkSwapchainCreateInfoKHR) : VkSwapchainCreateInfoKHR :=
  (* Only have to enable additional features if there is a graphics
     queue *)
  if negb (graphics_queue_family_index =? Vulkan.UINT32_MAX) then
    let format_list :=
      [make_format_srgb (imageFormat pCreateInfo);
       make_format_normal (imageFormat pCreateInfo)] in
    let differ :=
      negb (make_format_srgb (imageFormat pCreateInfo)
            =? make_format_normal (imageFormat pCreateInfo)) in
    {| pViewFormats :=
         match pViewFormats pCreateInfo with
         | Some application_formats =>
           Some (unique (sort (format_list ++ application_formats)))
         | None => if differ then Some format_list else None
         end;
       flags :=
         if differ
         then Z.lor (flags pCreateInfo)
                VK_SWAPCHAIN_CREATE_MUTABLE_FORMAT_BIT_KHR
         else flags pCreateInfo;
       imageFormat := imageFormat pCreateInfo;
       imageUsage :=
         Z.lor (imageUsage pCreateInfo) VK_IMAGE_USAGE_TRANSFER_SRC_BIT;
       imageSharingMode := imageSharingMode pCreateInfo;
       pQueueFamilyIndices :=
         if imageSharingMode pCreateInfo =? VK_SHARING_MODE_CONCURRENT
         then
           graphics_queue_family_index
           :: List.filter
                (fun index => negb (index =? graphics_queue_family_index))
                (pQueueFamilyIndices pCreateInfo)
         else pQueueFamilyIndices pCreateInfo |}
  else pCreateInfo.

End Patch.

(** How often an index is in a list of queue families. *)
Fixpoint occurrences (index : Z) (l : list Z) : nat :=
  match l with
  | [] => O
  | x :: rest =>
    if x =? index then S (occurrences index rest)
    else occurrences index rest
  end.

(** A swap chain shared between the queue families 2, 0 and 2 whose
    application lists the formats 50, 37 and 44; the formats 37 and 43
    are (say) the normal and sRGB variants of each other. *)
Definition shared_swapchain : VkSwapchainCreateInfoKHR :=
  {| pViewFormats := Some [50; 37; 44];
     flags := 0;
     imageFormat := 37;
     imageUsage := 0x10;
     imageSharingMode := VK_SHARING_MODE_CONCURRENT;
     pQueueFamilyIndices := [2; 0; 2] |}.

Definition srgb_of (format : Z) : Z :=
  if format =? 37 then 43 else format.

Definition normal_of (format : Z) : Z :=
  if format =? 43 then 37 else format.

End VulkanSwapchain.

(** ** Vulkan: the data [vkCreateRenderPass] keeps for a render pass *)

Module VulkanRenderPass.

Definition VK_ATTACHMENT_UNUSED : Z := 2 ^ 32 - 1.
Definition VK_IMAGE_LAYOUT_UNDEFINED : Z := 0.
Definition VK_ATTACHMENT_LOAD_OP_CLEAR : Z := 1.

Record VkAttachmentReference : Set := {
  attachment : Z;
  layout : Z
}.

(** [VkAttachmentDescription], the members the hook reads. *)
Record VkAttachmentDescription : Set := {
  loadOp : Z;
  stencilLoadOp : Z;
  initialLayout : Z
}.

(** [VkSubpassDescription]: [colorAttachmentCount] color attachments and
    an optional depth-stencil attachment. *)
Record VkSubpassDescription : Set := {
  pColorAttachments : list VkAttachmentReference;
  pDepthStencilAttachment : option VkAttachmentReference
}.

Record VkRenderPassCreateInfo : Set := {
  pAttachments : list VkAttachmentDescription;
  pSubpasses : list VkSubpassDescription
}.

(** The records of [render_pass_data] ([render_vk.hpp] is not among the
    sources; the members are the ones the hook assigns). *)
Record subpass_data : Set := {
  color_attachments : list VkAttachmentReference;
  depth_stencil_attachment : VkAttachmentReference
}.

Record cleared_attachment : Set := {
  clear_flags : Z;
  index : Z;
  initial_layout : Z
}.

Record render_pass_data : Set := {
  subpasses : list subpass_data;
  cleared_attachments : list cleared_attachment
}.

Definition unused : VkAttachmentReference :=
  {| attachment := VK_ATTACHMENT_UNUSED;
     layout := VK_IMAGE_LAYOUT_UNDEFINED |}.

(** The body of the loop over the subpasses. *)
Definition subpass_data_of (subpass : VkSubpassDescription)
    : subpass_data :=
  {| color_attachments :=
       map (fun reference =>
              if negb (attachment reference =? VK_ATTACHMENT_UNUSED)
              then reference else unused)
         (pColorAttachments subpass);
     depth_stencil_attachment :=
       match pDepthStencilAttachment subpass with
       | Some reference =>
         if negb (attachment reference =? VK_ATTACHMENT_UNUSED)
         then reference else unused
       | None => unused
       end |}.

(** The loop over the attachments, from the attachment number
    [attachment] on. *)
Fixpoint cleared_attachments_from (attachment : Z)
    (pAttachments : list VkAttachmentDescription)
    : list cleared_attachment :=
  match pAttachments with
  | [] => []
  | description :: rest =>
    let clear_flags :=
      Z.lor
        (if loadOp description =? VK_ATTACHMENT_LOAD_OP_CLEAR
         then 0x1 else 0x0)
        (if stencilLoadOp description =? VK_ATTACHMENT_LOAD_OP_CLEAR
         then 0x2 else 0x0) in
    (if negb (clear_flags =? 0)
     then [{| clear_flags := clear_flags;
              index := attachment;
              initial_layout := initialLayout description |}]
     else [])
    ++ cleared_attachments_from (attachment + 1) rest
  end.

(** What the hook records for a render pass that was created. *)
Definition render_pass_data_of (pCreateInfo : VkRenderPassCreateInfo)
    : render_pass_data :=
  {| subpasses := map subpass_data_of (pSubpasses pCreateInfo);
     cleared_attachments :=
       cleared_attachments_from 0 (pAttachments pCreateInfo) |}.

(** Whether an attachment is cleared when the render pass begins. *)
Definition is_cleared (description : VkAttachmentDescription) : bool :=
  (loadOp description =? VK_ATTACHMENT_LOAD_OP_CLEAR)
  || (stencilLoadOp description =? VK_ATTACHMENT_LOAD_OP_CLEAR).

(** A render pass with a loaded color attachment, a depth-stencil
    attachment whose depth and stencil are cleared, and a color attachment
    that is cleared. *)
Definition three_attachments : VkRenderPassCreateInfo :=
  {| pAttachments :=
       [{| loadOp := 0; stencilLoadOp := 2; initialLayout := 2 |};
        {| loadOp := 1; stencilLoadOp := 1; initialLayout := 3 |};
        {| loadOp := 1; stencilLoadOp := 2; initialLayout := 0 |}];
     pSubpasses :=
       [{| pColorAttachments :=
             [{| attachment := 0; layout := 2 |};
              {| attachment := VK_ATTACHMENT_UNUSED; layout := 2 |};
              {| attachment := 2; layout := 2 |}];
           pDepthStencilAttachment :=
             Some {| attachment := 1; layout := 3 |} |}] |}.

End VulkanRenderPass.

(** ** D3D10: format support and buffer updates *)

Module D3D10Support.

(** Enumerators of [D3D10_FORMAT_SUPPORT] ([d3d10.h]). *)
Definition D3D10_FORMAT_SUPPORT_SHADER_LOAD : Z := 0x100.
Definition D3D10_FORMAT_SUPPORT_SHADER_SAMPLE : Z := 0x200.
Definition D3D10_FORMAT_SUPPORT_RENDER_TARGET : Z := 0x4000.
Definition D3D10_FORMAT_SUPPORT_DEPTH_STENCIL : Z := 0x10000.
Definition D3D10_FORMAT_SUPPORT_MULTISAMPLE_RESOLVE : Z := 0x40000.

Section Support.

(** [convert_format] of the D3D10 backend (declared in
    [d3d10_impl_type_convert.hpp], which is not among the sources), and
    [ID3D10Device::CheckFormatSupport]: [None] when the call FAILED,
    otherwise the support bits it wrote. *)
Variable convert_format : Z -> Z.
Variable CheckFormatSupport : Z -> option Z.

Definition check_format_support (format usage : Z) : bool :=
  if has_flag usage Api.resource_usage.unordered_access then false
  else
    match CheckFormatSupport (convert_format format) with
    | None => false
    | Some support =>
      if has_flag usage Api.resource_usage.depth_stencil
         && (Z.land support D3D10_FORMAT_SUPPORT_DEPTH_STENCIL =? 0)
      then false
      else if has_flag usage Api.resource_usage.render_target
              && (Z.land support D3D10_FORMAT_SUPPORT_RENDER_TARGET =? 0)
      then false
      else if has_flag usage Api.resource_usage.shader_resource
              && (Z.land support
                    (Z.lor D3D10_FORMAT_SUPPORT_SHADER_LOAD
                       D3D10_FORMAT_SUPPORT_SHADER_SAMPLE) =? 0)
      then false
      else if has_flag usage
                (Z.lor Api.resource_usage.resolve_source
                   Api.resource_usage.resolve_dest)
              && (Z.land support
                    D3D10_FORMAT_SUPPORT_MULTISAMPLE_RESOLVE =? 0)
      then false
      else true
    end.

End Support.

(** [D3D10_BOX] and the arguments [update_buffer_region] passes to
    [UpdateSubresource]: the destination box (if any) and the row
    pitch. *)
Record D3D10_BOX : Set := {
  left : Z;
  top : Z;
  front : Z;
  right : Z;
  bottom : Z;
  back : Z
}.

Definition update_buffer_region (offset size : Z)
    : option D3D10_BOX * Z :=
  let box :=
    {| left := wrap32 offset; top := 0; front := 0;
       right := wrap32 (offset + size); bottom := 1; back := 1 |} in
  (if negb (offset =? 0) then Some box else None, wrap32 size).

(** The assertion of [update_buffer_region]. *)
Definition update_buffer_region_asserts (offset size : Z) : Prop :=
  0 <= offset <= 2 ^ 32 - 1 /\ 0 <= size <= 2 ^ 32 - 1.

(** A driver that supports sampling and rendering to every format. *)
Definition color_support (format : Z) : option Z :=
  Some (Z.lor D3D10_FORMAT_SUPPORT_SHADER_SAMPLE
          D3D10_FORMAT_SUPPORT_RENDER_TARGET).

End D3D10Support.

(** ** D3D10: the ranges of a pipeline layout *)

Module D3D10Layout.

(** What a range that went into a merge has in common with the merged
    range: it starts at or after it, is visible to no stage the merged
    range is not visible to, and has its type and register space. *)
Definition covered_by (merged r : D3D10.descriptor_range) : Prop :=
  D3D10.binding merged <= D3D10.binding r
  /\ flags_subset (D3D10.visibility r) (D3D10.visibility merged)
  /\ D3D10.type r = D3D10.type merged
  /\ D3D10.dx_register_space r = D3D10.dx_register_space merged.

(** The merged range starts where [r] starts. *)
Definition starts_at (merged r : D3D10.descriptor_range) : Prop :=
  D3D10.binding merged = D3D10.binding r
  /\ D3D10.dx_register_index merged = D3D10.dx_register_index r.

(** [r] can join the descriptor set that starts with [first]: it has
    the type and the register space of [first], is no array, and its
    register index lies as far from its binding as that of [first]
    (modulo 2^32). *)
Definition joins (first r : D3D10.descriptor_range) : Prop :=
  D3D10.type r = D3D10.type first
  /\ D3D10.array_size r <= 1
  /\ D3D10.dx_register_space r = D3D10.dx_register_space first
  /\ D3D10.register_offset r = D3D10.register_offset first.

(** The ranges of a descriptor set that can be merged into one range. *)
Definition mergeable (ranges : list D3D10.descriptor_range) : Prop :=
  match ranges with
  | [] => False
  | first :: rest =>
    D3D10.array_size first <= 1
    /\ D3D10.dx_register_space first = 0
    /\ Forall (joins first) rest
  end.

(** The parameters [create_pipeline_layout] has a range for. *)
Definition acceptable (param : D3D10.pipeline_layout_param) : Prop :=
  match param with
  | D3D10.param_descriptor_set ranges => mergeable ranges
  | D3D10.param_push_descriptors range =>
    D3D10.dx_register_space range = 0
  | D3D10.param_push_constants _ dx_register_space =>
    dx_register_space = 0
  | D3D10.param_other => True
  end.

(** The stages any range of a descriptor set is visible to. *)
Definition union_visibility (first : D3D10.descriptor_range)
    (rest : list D3D10.descriptor_range) : Z :=
  fold_left (fun visibility r => Z.lor visibility (D3D10.visibility r))
    rest (D3D10.visibility first).

End D3D10Layout.

(** ** D3D10: exceptions of the create operations

    The device is compiled with exceptions and has neither [try] nor
    [noexcept].  Its calls into the driver are COM methods, which report
    failure by [HRESULT]; what can throw is an allocation: [operator new]
    and the allocator of a [std::vector]. *)

Module D3D10Exceptions.

Inductive exception : Set :=
| bad_alloc.

Section Exceptions.

Variables sampler_desc resource_view_desc query_type : Set.
Variables resource_flags_shared resource_flags_shared_nt_handle : Z.

Abbreviation native_call :=
  (D3D10.native_call sampler_desc resource_view_desc query_type).
Abbreviation world :=
  (D3D10.world sampler_desc resource_view_desc query_type).
Abbreviation M := (D3D10.M sampler_desc resource_view_desc query_type).

Variable driver : list native_call -> native_call -> option Z.

(** The allocator: whether it finds memory in the given state. *)
Variable allocates : world -> bool.

(** A computation that returns a value or leaves by an exception. *)
Definition E (A : Type) : Type := world -> (A + exception) * world.

Definition ret {A : Type} (a : A) : E A := fun w => (inl a, w).

Definition throw {A : Type} (e : exception) : E A := fun w => (inr e, w).

Definition bind {A B : Type} (m : E A) (k : A -> E B) : E B :=
  fun w =>
    match m w with
    | (inl a, w') => k a w'
    | (inr e, w') => (inr e, w')
    end.

Notation "x <- m ;; k" := (bind m (fun x => k))
  (at level 100, m at next level, right associativity).
Notation "m ;;; k" := (bind m (fun _ => k))
  (at level 100, right associativity).

(** Code without allocation: it returns. *)
Definition lift {A : Type} (m : M A) : E A :=
  fun w => let (a, w') := m w in (inl a, w').

(** Stack unwinding: an exception that leaves the scope of the
    [com_ptr]s [constructed] runs their destructors. *)
Definition unwinding {A : Type} (constructed : list Z) (m : E A) : E A :=
  fun w =>
    match m w with
    | (inl a, w') => (inl a, w')
    | (inr e, w') =>
      (inr e, snd (D3D10.release_all _ _ _ constructed w'))
    end.

(** [new T()] *)
Definition operator_new (o : D3D10.object) : E Z :=
  fun w =>
    if allocates w then lift (D3D10.new _ _ _ o) w
    else throw bad_alloc w.

(** The allocation of a [std::vector] that grows from empty to [n]
    elements; no memory is asked for when [n] is 0. *)
Definition allocate_elements (n : Z) : E unit :=
  fun w =>
    if (n =? 0) || allocates w then ret tt w else throw bad_alloc w.

(** *** Samplers, resources and resource views: no allocation *)

Definition create_sampler (desc : sampler_desc) (out_handle : Z)
    : E (bool * Z) :=
  lift (D3D10.create_sampler _ _ _ driver desc out_handle).

Definition create_resource (desc : Api.resource_desc)
    (initial_data initial_state out_handle : Z) (shared_handle : option Z)
    : E (bool * Z * option Z) :=
  lift (D3D10.create_resource _ _ _ resource_flags_shared
          resource_flags_shared_nt_handle driver desc initial_data
          initial_state out_handle shared_handle).

Definition create_resource_view (resource usage_type : Z)
    (desc : resource_view_desc) (out_handle : Z) : E (bool * Z) :=
  lift (D3D10.create_resource_view _ _ _ driver resource usage_type desc
          out_handle).

(** *** Pipelines *)

(** [create_input_layout] fills the vector [internal_elements] before
    it calls the driver. *)
Definition create_input_layout (desc : D3D10.pipeline_desc)
    (out_handle : Z) : E (bool * Z) :=
  allocate_elements (D3D10.input_layout_elements desc) ;;;
  lift (D3D10.create_input_layout _ _ _ driver desc out_handle).

Definition create_vertex_shader (desc : D3D10.pipeline_desc)
    (out_handle : Z) : E (bool * Z) :=
  lift (D3D10.create_vertex_shader _ _ _ driver desc out_handle).
Definition create_geometry_shader (desc : D3D10.pipeline_desc)
    (out_handle : Z) : E (bool * Z) :=
  lift (D3D10.create_geometry_shader _ _ _ driver desc out_handle).
Definition create_pixel_shader (desc : D3D10.pipeline_desc)
    (out_handle : Z) : E (bool * Z) :=
  lift (D3D10.create_pixel_shader _ _ _ driver desc out_handle).
Definition create_blend_state (desc : D3D10.pipeline_desc)
    (out_handle : Z) : E (bool * Z) :=
  lift (D3D10.create_blend_state _ _ _ driver desc out_handle).
Definition create_rasterizer_state (desc : D3D10.pipeline_desc)
    (out_handle : Z) : E (bool * Z) :=
  lift (D3D10.create_rasterizer_state _ _ _ driver desc out_handle).
Definition create_depth_stencil_state (desc : D3D10.pipeline_desc)
    (out_handle : Z) : E (bool * Z) :=
  lift (D3D10.create_depth_stencil_state _ _ _ driver desc out_handle).

(** The macro [create_state_object(name, type, condition)], as
    [D3D10.create_state_object]. *)
Definition create_state_object
    (create : D3D10.pipeline_desc -> Z -> E (bool * Z))
    (condition : bool) (desc : D3D10.pipeline_desc) : E (option Z) :=
  if condition then
    r <- create desc 0 ;;
    ret (if fst r then Some (snd r) else None)
  else ret (Some 0).

(** Continue in the scope of the new [com_ptr], or run the destructors
    of the [com_ptr]s constructed so far and return false. *)
Definition or_return_false (constructed : list Z) (r : option Z)
    (k : Z -> E (bool * Z)) : E (bool * Z) :=
  match r with
  | Some object => unwinding [object] (k object)
  | None =>
    lift (D3D10.bind _ _ _ (D3D10.release_all _ _ _ constructed)
            (fun _ => D3D10.ret _ _ _ (false, 0)))
  end.

Definition create_graphics_pipeline (desc : D3D10.pipeline_desc)
    (out_handle : Z) : E (bool * Z) :=
  let out_handle := 0 in
  if negb (D3D10.code_size (D3D10.hull_shader desc) =? 0)
     || negb (D3D10.code_size (D3D10.domain_shader desc) =? 0)
     || D3D10.conservative_rasterization desc
     || D3D10.logic_op_enable_0 desc
     || D3D10.primitive_topology.is_triangle_fan (D3D10.topology desc)
  then ret (false, out_handle)
  else
    r <- create_state_object create_vertex_shader
           (negb (D3D10.code_size (D3D10.vertex_shader desc) =? 0))
           desc ;;
    or_return_false [] r (fun vertex_shader =>
    r <- create_state_object create_geometry_shader
           (negb (D3D10.code_size (D3D10.geometry_shader desc) =? 0))
           desc ;;
    or_return_false [vertex_shader] r (fun geometry_shader =>
    r <- create_state_object create_pixel_shader
           (negb (D3D10.code_size (D3D10.pixel_shader desc) =? 0))
           desc ;;
    or_return_false [geometry_shader; vertex_shader] r
      (fun pixel_shader =>
    r <- create_state_object create_input_layout true desc ;;
    or_return_false [pixel_shader; geometry_shader; vertex_shader] r
      (fun input_layout =>
    r <- create_state_object create_blend_state true desc ;;
    or_return_false
      [input_layout; pixel_shader; geometry_shader; vertex_shader] r
      (fun blend_state =>
    r <- create_state_object create_rasterizer_state true desc ;;
    or_return_false
      [blend_state; input_layout; pixel_shader; geometry_shader;
       vertex_shader] r
      (fun rasterizer_state =>
    r <- create_state_object create_depth_stencil_state true desc ;;
    or_return_false
      [rasterizer_state; blend_state; input_layout; pixel_shader;
       geometry_shader; vertex_shader] r
      (fun depth_stencil_state =>
    impl <- operator_new
              (D3D10.obj_pipeline
                 {| D3D10.vs := vertex_shader;
                    D3D10.gs := geometry_shader;
                    D3D10.ps := pixel_shader;
                    D3D10.input_layout := input_layout;
                    D3D10.blend_state := blend_state;
                    D3D10.rasterizer_state := rasterizer_state;
                    D3D10.depth_stencil_state := depth_stencil_state;
                    D3D10.impl_topology := D3D10.topology desc;
                    D3D10.impl_sample_mask := D3D10.sample_mask desc;
                    D3D10.impl_stencil_reference_value :=
                      D3D10.stencil_reference_value desc;
                    D3D10.impl_blend_constant :=
                      D3D10.blend_constant desc |}) ;;
    (* Set first bit to identify this as a 'pipeline_impl' handle *)
    ret (true, Z.lor impl 1)))))))).

Definition create_pipeline (desc : D3D10.pipeline_desc)
    (dynamic_states : list D3D10.dynamic_state.t) (out_handle : Z)
    : E (bool * Z) :=
  let out_handle := 0 in
  if negb (forallb D3D10.dynamic_state.is_primitive_topology
             dynamic_states)
  then ret (false, out_handle)
  else
    match D3D10.pipeline_type desc with
    | D3D10.pipeline_stage.all_graphics =>
      create_graphics_pipeline desc out_handle
    | D3D10.pipeline_stage.input_assembler =>
      create_input_layout desc out_handle
    | D3D10.pipeline_stage.vertex_shader =>
      create_vertex_shader desc out_handle
    | D3D10.pipeline_stage.geometry_shader =>
      create_geometry_shader desc out_handle
    | D3D10.pipeline_stage.pixel_shader =>
      create_pixel_shader desc out_handle
    | D3D10.pipeline_stage.rasterizer =>
      create_rasterizer_state desc out_handle
    | D3D10.pipeline_stage.depth_stencil =>
      create_depth_stencil_state desc out_handle
    | D3D10.pipeline_stage.output_merger =>
      create_blend_state desc out_handle
    | D3D10.pipeline_stage.other _ => ret (false, out_handle)
    end.

(** *** Query pools *)

Definition create_query_pool (type : query_type) (size : Z)
    (out_handle : Z) : E (bool * Z) :=
  impl <- operator_new (D3D10.obj_query_pool []) ;;
  (* impl->queries.resize(size) *)
  allocate_elements size ;;;
  lift (D3D10.store _ _ _ impl
          (D3D10.obj_query_pool (replicate (Z.to_nat size) 0))) ;;;
  r <- lift (D3D10.create_queries _ _ _ driver type (Z.to_nat size) []) ;;
  match r with
  | inl queries =>
    lift (D3D10.store _ _ _ impl (D3D10.obj_query_pool queries)) ;;;
    ret (true, impl)
  | inr created =>
    lift (D3D10.release_all _ _ _ created) ;;;
    lift (D3D10.free _ _ _ impl) ;;;
    ret (false, 0)
  end.

(** *** What is shown of a computation *)

(** Every result it returns with is closed: a [false] flag comes with a
    zero handle. *)
Definition returns_closed (m : E (bool * Z)) : Prop :=
  forall (w : world) result,
    fst (m w) = inl result -> D3D10.fails_closed result.

(** It does what the code without exceptions does: it returns, with the
    same result, in the same state. *)
Definition returns_as {A : Type} (m : E A) (total : M A) : Prop :=
  forall w : world, m w = (inl (fst (total w)), snd (total w)).

End Exceptions.

End D3D10Exceptions.

(** * Properties *)

(** ** Bit-set reasoning shared by the flag conversions *)

Lemma flags_subset_spec (a b : Z) :
  flags_subset a b <->
  (forall n, 0 <= n -> Z.testbit a n = true -> Z.testbit b n = true).
Proof.
  unfold flags_subset. split.
  - intros H n Hn Ha. rewrite <- H in Ha.
    rewrite Z.land_spec in Ha. apply andb_true_iff in Ha. tauto.
  - intros H. apply Z.bits_inj'. intros n Hn.
    rewrite Z.land_spec. specialize (H n Hn).
    destruct (Z.testbit a n); [rewrite H|]; reflexivity.
Qed.

Lemma flags_subset_refl (a : Z) : flags_subset a a.
Proof. apply Z.land_diag. Qed.

Lemma flags_subset_lor_l (a b c : Z) :
  flags_subset a b -> flags_subset a (Z.lor b c).
Proof.
  rewrite !flags_subset_spec. intros H n Hn Ha.
  rewrite Z.lor_spec, (H n Hn Ha). reflexivity.
Qed.

Lemma flags_subset_lor_mono (a b c : Z) :
  flags_subset a b -> flags_subset (Z.lor a c) (Z.lor b c).
Proof.
  rewrite !flags_subset_spec. intros H n Hn.
  rewrite !Z.lor_spec. intros Ha. apply orb_true_iff in Ha.
  destruct Ha as [Ha | Ha]; [rewrite (H n Hn Ha) | rewrite Ha];
    auto using orb_true_r.
Qed.

Lemma has_flag_mono (a b f : Z) :
  flags_subset a b -> has_flag a f = true -> has_flag b f = true.
Proof.
  unfold flags_subset, has_flag. intros Hab Ha.
  apply negb_true_iff, Z.eqb_neq in Ha.
  apply negb_true_iff, Z.eqb_neq. intros Hb. apply Ha.
  rewrite <- Hab, <- Z.land_assoc, Hb. apply Z.land_0_r.
Qed.

Lemma add_if_mono (ca cb : bool) (x y f : Z) :
  (ca = true -> cb = true) ->
  flags_subset x y -> flags_subset (D3D11.add_if ca x f) (D3D11.add_if cb y f).
Proof.
  intros Hc Hxy. unfold D3D11.add_if. destruct ca.
  - rewrite Hc by reflexivity. apply flags_subset_lor_mono, Hxy.
  - destruct cb; [apply flags_subset_lor_l|]; exact Hxy.
Qed.

Lemma add_if_keeps (c : bool) (m x f : Z) :
  flags_subset m x -> flags_subset m (D3D11.add_if c x f).
Proof.
  intros H. unfold D3D11.add_if.
  destruct c; [apply flags_subset_lor_l|]; exact H.
Qed.

Lemma flags_subset_lor_r (a b : Z) : flags_subset b (Z.lor a b).
Proof.
  rewrite flags_subset_spec. intros n Hn Hb.
  rewrite Z.lor_spec, Hb. apply orb_true_r.
Qed.

(** ** D3D11: bind flags to resource usage *)

(** C2.  The conversion of native bind flags to the neutral usage set is
    monotonic: whenever the bind flags [a] are a subset of the bind flags
    [b], the usage converted from [a] is a subset of the usage converted
    from [b] (for every incoming value [usage] of the reference parameter);
    and the result always contains [copy_dest] and [copy_source], whatever
    the bind flags are. *)
Theorem convert_bind_flags_to_resource_usage_monotonic (a b usage : Z) :
  flags_subset a b ->
  flags_subset (D3D11.convert_bind_flags_to_resource_usage a usage)
               (D3D11.convert_bind_flags_to_resource_usage b usage)
  /\ flags_subset
       (Z.lor Api.resource_usage.copy_dest Api.resource_usage.copy_source)
       (D3D11.convert_bind_flags_to_resource_usage a usage)
  /\ flags_subset
       (Z.lor Api.resource_usage.copy_dest Api.resource_usage.copy_source)
       (D3D11.convert_bind_flags_to_resource_usage b usage).
Proof.
  intros Hab. unfold D3D11.convert_bind_flags_to_resource_usage.
  repeat split.
  - repeat (apply add_if_mono; [apply has_flag_mono, Hab|]).
    apply flags_subset_refl.
  - repeat apply add_if_keeps. apply flags_subset_lor_r.
  - repeat apply add_if_keeps. apply flags_subset_lor_r.
Qed.

Lemma convert_bind_flags_to_resource_usage_monotonic_witness :
  flags_subset D3D11.D3D11_BIND_VERTEX_BUFFER
    (Z.lor D3D11.D3D11_BIND_VERTEX_BUFFER D3D11.D3D11_BIND_SHADER_RESOURCE)
  /\ flags_subset
       (D3D11.convert_bind_flags_to_resource_usage
          D3D11.D3D11_BIND_VERTEX_BUFFER 0)
       (D3D11.convert_bind_flags_to_resource_usage
          (Z.lor D3D11.D3D11_BIND_VERTEX_BUFFER
             D3D11.D3D11_BIND_SHADER_RESOURCE) 0).
Proof.
  split; [reflexivity|].
  apply (convert_bind_flags_to_resource_usage_monotonic
           D3D11.D3D11_BIND_VERTEX_BUFFER
           (Z.lor D3D11.D3D11_BIND_VERTEX_BUFFER
              D3D11.D3D11_BIND_SHADER_RESOURCE) 0).
  reflexivity.
Defined.

(** ** D3D11: resource description round trip *)

Lemma wrap16_small (x : Z) : is_u16 x -> wrap16 x = x.
Proof. intros H. apply Z.mod_small, H. Qed.

Lemma wrap32_small (x : Z) : is_u32 x -> wrap32 x = x.
Proof. intros H. apply Z.mod_small, H. Qed.

Lemma convert_format_round_trip (format : Z) :
  format < 1000 ->
  D3D11.convert_format_from_dxgi (D3D11.convert_format_to_dxgi format)
  = format.
Proof.
  intros H. unfold D3D11.convert_format_from_dxgi,
    D3D11.convert_format_to_dxgi.
  destruct (Z.leb_spec 1000 format); [lia | reflexivity].
Qed.

Lemma convert_memory_heap_round_trip (h : Api.memory_heap) :
  D3D11.convert_d3d_usage_to_memory_heap
    (fst (D3D11.convert_memory_heap_to_d3d_usage h 0 0))
    Api.memory_heap_unknown
  = D3D11.heap_read_back h.
Proof. destruct h; reflexivity. Qed.

(** The usage mask survives the two flag conversions exactly as
    [bindable_usage] says, plus the two copy bits. *)
Lemma convert_usage_round_trip (usage : Z) :
  D3D11.convert_bind_flags_to_resource_usage
    (D3D11.convert_resource_usage_to_bind_flags usage 0) 0
  = Z.lor (D3D11.bindable_usage usage)
      (Z.lor Api.resource_usage.copy_dest Api.resource_usage.copy_source).
Proof.
  unfold D3D11.convert_resource_usage_to_bind_flags, D3D11.bindable_usage,
    D3D11.keep.
  generalize (has_flag usage Api.resource_usage.render_target).
  generalize (has_flag usage Api.resource_usage.depth_stencil).
  generalize (has_flag usage Api.resource_usage.shader_resource).
  generalize (has_flag usage Api.resource_usage.unordered_access).
  generalize (has_flag usage Api.resource_usage.index_buffer).
  generalize (has_flag usage Api.resource_usage.vertex_buffer).
  generalize (has_flag usage Api.resource_usage.constant_buffer).
  intros [] [] [] [] [] [] []; vm_compute; reflexivity.
Qed.

Lemma lor_shuffle (a b c : Z) : Z.lor (Z.lor a b) c = Z.lor a (Z.lor b c).
Proof. symmetry. apply Z.lor_assoc. Qed.

Lemma same_desc_intro (a b : Api.resource_desc) :
  Api.type a = Api.type b ->
  Api.heap a = Api.heap b ->
  Api.usage a = Api.usage b ->
  (Api.type a = Api.buffer -> Api.buffer_size a = Api.buffer_size b) ->
  (Api.type a <> Api.buffer ->
   Api.texture_width a = Api.texture_width b
   /\ Api.texture_height a = Api.texture_height b
   /\ Api.texture_depth_or_layers a = Api.texture_depth_or_layers b
   /\ Api.texture_levels a = Api.texture_levels b
   /\ Api.texture_format a = Api.texture_format b
   /\ Api.texture_samples a = Api.texture_samples b) ->
  Api.same_desc a b = true.
Proof.
  intros Hty Hheap Husage Hbuf Htex. unfold Api.same_desc.
  rewrite <- Hty, <- Hheap, <- Husage, Z.eqb_refl.
  replace (Api.resource_type_eqb (Api.type a) (Api.type a)) with true
    by (destruct (Api.type a); reflexivity).
  replace (Api.memory_heap_eqb (Api.heap a) (Api.heap a)) with true
    by (destruct (Api.heap a); reflexivity).
  simpl. destruct (Api.type a) eqn:E;
    try (rewrite <- Hbuf by reflexivity; apply Z.eqb_refl);
    (destruct Htex as (<- & <- & <- & <- & <- & <-); [discriminate|];
     rewrite !Z.eqb_refl; reflexivity).
Qed.

(** What the two conversions compute for a supported descriptor, member by
    member. *)
Lemma round_trip_members (desc : Api.resource_desc) :
  D3D11.supported desc ->
  exists back,
    D3D11.round_trip desc = Some back
    /\ Api.type back = Api.type desc
    /\ Api.heap back = D3D11.heap_read_back (Api.heap desc)
    /\ Api.usage back
       = Z.lor (D3D11.bindable_usage (Api.usage desc))
           (D3D11.implied_usage desc)
    /\ (Api.type desc = Api.buffer ->
        Api.buffer_size back = Api.buffer_size desc)
    /\ (Api.type desc <> Api.buffer ->
        Api.texture_width back = Api.texture_width desc
        /\ Api.texture_height back = Api.texture_height desc
        /\ Api.texture_depth_or_layers back = Api.texture_depth_or_layers desc
        /\ Api.texture_levels back = Api.texture_levels desc
        /\ Api.texture_format back = Api.texture_format desc
        /\ Api.texture_samples back = Api.texture_samples desc).
Proof.
  intros [[Hsz Hw Hh Hd Hl Hf Hs Hu] Hty Hsize Hfmt Hheight Hsamp].
  destruct desc as [ty sz w h d l f s hp u fl]; simpl in *.
  unfold D3D11.round_trip, D3D11.to_native, D3D11.implied_usage; simpl.
  pose proof (convert_memory_heap_round_trip hp) as Hheap.
  destruct ty; try (exfalso; intuition congruence);
    eexists; (split; [reflexivity|]); simpl;
    unfold D3D11.convert_resource_desc_to_buffer,
      D3D11.convert_resource_desc_to_texture1d,
      D3D11.convert_resource_desc_to_texture2d,
      D3D11.convert_resource_desc_to_texture3d; simpl;
    destruct (D3D11.convert_memory_heap_to_d3d_usage hp 0 0) as [nu nc];
    simpl in *; rewrite ?convert_usage_round_trip, ?Z.lor_0_r;
    (split; [reflexivity|]); (split; [exact Hheap|]).
  - (* buffer *)
    split; [reflexivity|]. split; [|congruence].
    intros _. apply wrap32_small. unfold is_u32, is_u64 in *.
    specialize (Hsize eq_refl). lia.
  - (* texture_1d *)
    split; [reflexivity|]. split; [discriminate|]. intros _.
    rewrite !wrap16_small by assumption.
    rewrite convert_format_round_trip by (apply Hfmt; discriminate).
    rewrite Hheight, Hsamp by auto. repeat split.
  - (* texture_2d *)
    rewrite !wrap16_small by assumption.
    split; [apply lor_shuffle|]. split; [discriminate|]. intros _.
    rewrite convert_format_round_trip by (apply Hfmt; discriminate).
    repeat split.
  - (* texture_3d *)
    split; [reflexivity|]. split; [discriminate|]. intros _.
    rewrite !wrap16_small by assumption.
    rewrite convert_format_round_trip by (apply Hfmt; discriminate).
    rewrite Hsamp by auto. repeat split.
Qed.

(** C1 (as the code has it).  For every descriptor the D3D11 backend
    supports, converting to the native description and back succeeds and
    preserves the type, the buffer size or the texture width, height,
    depth_or_layers, levels, format and samples.  The heap reads back as
    [heap_read_back] ([cpu_only] becomes [gpu_to_cpu], [unknown] becomes
    [gpu_only]) and the usage as its bind-flag part together with the copy
    bits and, for a 2D texture, one resolve bit.  A descriptor whose heap
    and usage already have that form is reproduced exactly. *)
Theorem resource_desc_round_trip (desc : Api.resource_desc) :
  D3D11.supported desc ->
  exists back,
    D3D11.round_trip desc = Some back
    /\ Api.same_desc back (D3D11.read_back desc) = true
    /\ (D3D11.heap_read_back (Api.heap desc) = Api.heap desc ->
        Z.lor (D3D11.bindable_usage (Api.usage desc))
          (D3D11.implied_usage desc) = Api.usage desc ->
        Api.same_desc back desc = true).
Proof.
  intros Hsup.
  destruct (round_trip_members desc Hsup)
    as (back & Hrt & Hty & Hheap & Husage & Hbuf & Htex).
  exists back. split; [exact Hrt|]. split.
  - apply same_desc_intro; simpl; try assumption; rewrite Hty; assumption.
  - intros Hh Hu. apply same_desc_intro; try congruence;
      rewrite Hty; assumption.
Qed.

Lemma scenario_texture_supported :
  D3D11.supported D3D11.scenario_texture_desc.
Proof.
  split; [split; vm_compute; (split; congruence)| | | | | ];
    simpl; try (intros; discriminate); try (intros; reflexivity); auto.
Qed.

Lemma resource_desc_round_trip_witness :
  D3D11.supported D3D11.scenario_texture_desc
  /\ exists back,
       D3D11.round_trip D3D11.scenario_texture_desc = Some back
       /\ Api.same_desc back D3D11.scenario_texture_desc = true.
Proof.
  split; [exact scenario_texture_supported|].
  destruct (resource_desc_round_trip D3D11.scenario_texture_desc
              scenario_texture_supported) as (back & Hrt & _ & Hsame).
  exists back. split; [exact Hrt|].
  apply Hsame; reflexivity.
Defined.

(** C1 (as stated) fails: a CPU-only staging buffer with both copy usages
    is supported and converts, but reads back with the [gpu_to_cpu] heap,
    so the round trip does not reproduce the descriptor. *)
Lemma resource_desc_round_trip_counterexample :
  D3D11.supported D3D11.staging_buffer_desc
  /\ exists back,
       D3D11.round_trip D3D11.staging_buffer_desc = Some back
       /\ Api.heap back = Api.gpu_to_cpu
       /\ Api.heap D3D11.staging_buffer_desc = Api.cpu_only
       /\ Api.same_desc back D3D11.staging_buffer_desc = false.
Proof.
  split.
  - split; [split; vm_compute; (split; congruence)| | | | | ]; simpl;
      try (intros; congruence); auto.
    + intros _. vm_compute. congruence.
    + intros [H|H]; discriminate.
  - eexists. split; [reflexivity|]. repeat split.
Qed.

(** The usage member alone also changes: a vertex buffer reads back with
    the two copy bits added. *)
Example vertex_buffer_usage_read_back :
  Api.usage <$> D3D11.round_trip D3D11.vertex_buffer_desc
  = Some (Z.lor Api.resource_usage.vertex_buffer
            (Z.lor Api.resource_usage.copy_dest
               Api.resource_usage.copy_source)).
Proof. reflexivity. Qed.

(** ** D3D10 device: failure convention of the create operations and
       destruction of the "no object" handle *)

Section D3D10_device.

Variables sampler_desc resource_view_desc query_type : Set.
Variables resource_flags_shared resource_flags_shared_nt_handle : Z.
Variable descriptor_range_default : D3D10.descriptor_range.

Abbreviation native_call :=
  (D3D10.native_call sampler_desc resource_view_desc query_type).
Abbreviation world :=
  (D3D10.world sampler_desc resource_view_desc query_type).

Variable driver : list native_call -> native_call -> option Z.

Abbreviation create_sampler := (D3D10.create_sampler _ _ _ driver).
Abbreviation create_resource :=
  (D3D10.create_resource _ _ _ resource_flags_shared
     resource_flags_shared_nt_handle driver).
Abbreviation create_resource_view := (D3D10.create_resource_view _ _ _ driver).
Abbreviation create_pipeline := (D3D10.create_pipeline _ _ _ driver).
Abbreviation create_query_pool := (D3D10.create_query_pool _ _ _ driver).
Abbreviation create_pipeline_layout :=
  (D3D10.create_pipeline_layout sampler_desc resource_view_desc query_type
     descriptor_range_default).
Abbreviation allocate_descriptor_sets :=
  (D3D10.allocate_descriptor_sets sampler_desc resource_view_desc
     query_type).
Abbreviation destroy_sampler :=
  (D3D10.destroy_sampler sampler_desc resource_view_desc query_type).
Abbreviation destroy_resource :=
  (D3D10.destroy_resource sampler_desc resource_view_desc query_type).
Abbreviation destroy_resource_view :=
  (D3D10.destroy_resource_view sampler_desc resource_view_desc query_type).
Abbreviation destroy_pipeline :=
  (D3D10.destroy_pipeline sampler_desc resource_view_desc query_type).

Abbreviation fails_closed := D3D10.fails_closed.

Lemma fails_closed_true (h : Z) : fails_closed (true, h).
Proof. intros H. discriminate H. Qed.

Lemma fails_closed_false : fails_closed (false, 0).
Proof. intros _. reflexivity. Qed.

Create HintDb fails_closed.
#[local] Hint Resolve fails_closed_true fails_closed_false : fails_closed.

Lemma create_from_fails_closed (call : native_call) (out_handle : Z)
    (w : world) :
  fails_closed (fst (D3D10.create_from _ _ _ driver call out_handle w)).
Proof.
  unfold D3D10.create_from, D3D10.bind, D3D10.native, D3D10.ret.
  destruct (driver _ _); simpl; auto with fails_closed.
Qed.

Lemma create_input_layout_fails_closed (desc : D3D10.pipeline_desc)
    (out_handle : Z) (w : world) :
  fails_closed
    (fst (D3D10.create_input_layout _ _ _ driver desc out_handle w)).
Proof.
  unfold D3D10.create_input_layout.
  destruct (_ =? 0); [apply fails_closed_true|].
  apply create_from_fails_closed.
Qed.

Lemma or_return_false_fails_closed (constructed : list Z) (r : option Z)
    (k : Z -> D3D10.M _ _ _ (bool * Z)) (w : world) :
  (forall object w', fails_closed (fst (k object w'))) ->
  fails_closed
    (fst (D3D10.or_return_false _ _ _ constructed r k w)).
Proof.
  intros Hk. unfold D3D10.or_return_false.
  destruct r as [object|]; [apply Hk|].
  unfold D3D10.bind, D3D10.ret.
  destruct (D3D10.release_all _ _ _ constructed w).
  apply fails_closed_false.
Qed.

Lemma bind_fails_closed {A : Type} (m : D3D10.M _ _ _ A)
    (k : A -> D3D10.M _ _ _ (bool * Z)) (w : world) :
  (forall a w', fails_closed (fst (k a w'))) ->
  fails_closed (fst (D3D10.bind _ _ _ m k w)).
Proof.
  intros Hk. unfold D3D10.bind. destruct (m w) as [a w']. apply Hk.
Qed.

Lemma create_graphics_pipeline_fails_closed (desc : D3D10.pipeline_desc)
    (out_handle : Z) (w : world) :
  fails_closed
    (fst (D3D10.create_graphics_pipeline _ _ _ driver desc out_handle w)).
Proof.
  unfold D3D10.create_graphics_pipeline.
  destruct (_ || _); [apply fails_closed_false|].
  repeat (apply bind_fails_closed; intros;
          apply or_return_false_fails_closed; intros).
  apply bind_fails_closed; intros. apply fails_closed_true.
Qed.

Lemma create_pipeline_fails_closed (desc : D3D10.pipeline_desc)
    (dynamic_states : list D3D10.dynamic_state.t) (out_handle : Z)
    (w : world) :
  fails_closed (fst (create_pipeline desc dynamic_states out_handle w)).
Proof.
  unfold D3D10.create_pipeline.
  destruct (negb _); [apply fails_closed_false|].
  destruct (D3D10.pipeline_type desc);
    try apply create_from_fails_closed;
    try apply create_input_layout_fails_closed;
    try apply create_graphics_pipeline_fails_closed.
  apply fails_closed_false.
Qed.

Lemma create_resource_fails_closed (desc : Api.resource_desc)
    (initial_data initial_state out_handle : Z) (shared_handle : option Z)
    (w : world) :
  fails_closed
    (fst (fst (create_resource desc initial_data initial_state out_handle
                 shared_handle w))).
Proof.
  unfold D3D10.create_resource, D3D10.create_native_resource,
    D3D10.get_shared_resource, D3D10.open_shared_resource,
    D3D10.release_all, D3D10.bind, D3D10.native, D3D10.release, D3D10.ret.
  repeat (match goal with
          | |- context [match ?x with _ => _ end] => destruct x
          | |- context [if ?x then _ else _] => destruct x
          end; simpl);
    auto with fails_closed.
Qed.

Lemma create_sampler_fails_closed (desc : sampler_desc) (out_handle : Z)
    (w : world) :
  fails_closed (fst (create_sampler desc out_handle w)).
Proof.
  unfold D3D10.create_sampler, D3D10.bind, D3D10.native, D3D10.ret.
  destruct (driver _ _); simpl; auto with fails_closed.
Qed.

Lemma create_resource_view_fails_closed (resource usage_type : Z)
    (desc : resource_view_desc) (out_handle : Z) (w : world) :
  fails_closed
    (fst (create_resource_view resource usage_type desc out_handle w)).
Proof.
  unfold D3D10.create_resource_view, D3D10.bind, D3D10.native,
    D3D10.ret.
  repeat (match goal with
          | |- context [match ?x with _ => _ end] => destruct x
          | |- context [if ?x then _ else _] => destruct x
          end; simpl);
    auto with fails_closed.
Qed.

Lemma create_query_pool_fails_closed (type : query_type)
    (size out_handle : Z) (w : world) :
  fails_closed (fst (create_query_pool type size out_handle w)).
Proof.
  unfold D3D10.create_query_pool.
  apply bind_fails_closed; intros impl w1.
  apply bind_fails_closed; intros [queries|created] w2.
  - apply bind_fails_closed; intros. apply fails_closed_true.
  - repeat (apply bind_fails_closed; intros).
    apply fails_closed_false.
Qed.

(** *** Exceptions *)

Section D3D10_exceptions.

Variable allocates : world -> bool.

Abbreviation E :=
  (D3D10Exceptions.E sampler_desc resource_view_desc query_type).
Abbreviation returns_closed :=
  (D3D10Exceptions.returns_closed sampler_desc resource_view_desc
     query_type).
Abbreviation returns_as :=
  (D3D10Exceptions.returns_as sampler_desc resource_view_desc
     query_type).

Lemma returns_closed_ret (result : bool * Z) :
  fails_closed result ->
  returns_closed (D3D10Exceptions.ret _ _ _ result).
Proof using Type.
  intros H w r. unfold D3D10Exceptions.ret. cbn [fst].
  intros [= <-]. exact H.
Qed.

Lemma returns_closed_lift (m : D3D10.M _ _ _ (bool * Z)) :
  (forall w : world, fails_closed (fst (m w))) ->
  returns_closed (D3D10Exceptions.lift _ _ _ m).
Proof using Type.
  intros H w r. unfold D3D10Exceptions.lift. specialize (H w).
  destruct (m w) as [a w']. cbn [fst] in *. intros [= <-]. exact H.
Qed.

Lemma returns_closed_bind {A : Type} (m : E A)
    (k : A -> E (bool * Z)) :
  (forall a, returns_closed (k a)) ->
  returns_closed (D3D10Exceptions.bind _ _ _ m k).
Proof using Type.
  intros H w r. unfold D3D10Exceptions.bind.
  destruct (m w) as [[a|e] w']; [apply H | discriminate].
Qed.

Lemma returns_closed_unwinding (constructed : list Z)
    (m : E (bool * Z)) :
  returns_closed m ->
  returns_closed (D3D10Exceptions.unwinding _ _ _ constructed m).
Proof using Type.
  intros H w r. unfold D3D10Exceptions.unwinding. specialize (H w r).
  destruct (m w) as [[a|e] w']; [exact H | discriminate].
Qed.

Lemma returns_closed_or_return_false (constructed : list Z)
    (r : option Z) (k : Z -> E (bool * Z)) :
  (forall object, returns_closed (k object)) ->
  returns_closed (D3D10Exceptions.or_return_false _ _ _ constructed r k).
Proof using Type.
  intros H. unfold D3D10Exceptions.or_return_false.
  destruct r as [object|]; [apply returns_closed_unwinding, H|].
  apply returns_closed_lift. intros w.
  unfold D3D10.bind, D3D10.ret.
  destruct (D3D10.release_all _ _ _ constructed w).
  apply fails_closed_false.
Qed.

Lemma create_graphics_pipeline_returns_closed
    (desc : D3D10.pipeline_desc) (out_handle : Z) :
  returns_closed
    (D3D10Exceptions.create_graphics_pipeline _ _ _ driver allocates desc
       out_handle).
Proof using Type.
  unfold D3D10Exceptions.create_graphics_pipeline.
  destruct (_ || _); [apply returns_closed_ret, fails_closed_false|].
  repeat (apply returns_closed_bind; intros;
          apply returns_closed_or_return_false; intros).
  apply returns_closed_bind; intros.
  apply returns_closed_ret, fails_closed_true.
Qed.

Lemma create_pipeline_returns_closed (desc : D3D10.pipeline_desc)
    (dynamic_states : list D3D10.dynamic_state.t) (out_handle : Z) :
  returns_closed
    (D3D10Exceptions.create_pipeline _ _ _ driver allocates desc
       dynamic_states out_handle).
Proof using Type.
  unfold D3D10Exceptions.create_pipeline.
  destruct (negb _); [apply returns_closed_ret, fails_closed_false|].
  destruct (D3D10.pipeline_type desc);
    try (apply returns_closed_lift; intros w;
         apply create_from_fails_closed).
  - apply create_graphics_pipeline_returns_closed.
  - apply returns_closed_bind; intros _.
    apply returns_closed_lift; intros w.
    apply create_input_layout_fails_closed.
  - apply returns_closed_ret, fails_closed_false.
Qed.

Lemma create_query_pool_returns_closed (type : query_type)
    (size out_handle : Z) :
  returns_closed
    (D3D10Exceptions.create_query_pool _ _ _ driver allocates type size
       out_handle).
Proof using Type.
  unfold D3D10Exceptions.create_query_pool.
  do 3 (apply returns_closed_bind; intros).
  apply returns_closed_bind; intros [queries|created].
  - apply returns_closed_bind; intros.
    apply returns_closed_ret, fails_closed_true.
  - do 2 (apply returns_closed_bind; intros).
    apply returns_closed_ret, fails_closed_false.
Qed.

Lemma returns_as_ret {A : Type} (a : A) :
  returns_as (D3D10Exceptions.ret _ _ _ a) (D3D10.ret _ _ _ a).
Proof using Type. intros w. reflexivity. Qed.

Lemma returns_as_lift {A : Type} (m : D3D10.M _ _ _ A) :
  returns_as (D3D10Exceptions.lift _ _ _ m) m.
Proof using Type.
  intros w. unfold D3D10Exceptions.lift. destruct (m w). reflexivity.
Qed.

Lemma returns_as_bind {A B : Type} (m : E A) (total : D3D10.M _ _ _ A)
    (k : A -> E B) (total_k : A -> D3D10.M _ _ _ B) :
  returns_as m total ->
  (forall a, returns_as (k a) (total_k a)) ->
  returns_as (D3D10Exceptions.bind _ _ _ m k)
    (D3D10.bind _ _ _ total total_k).
Proof using Type.
  intros Hm Hk w. unfold D3D10Exceptions.bind, D3D10.bind.
  rewrite (Hm w). destruct (total w) as [a w']. cbn [fst snd].
  apply Hk.
Qed.

Lemma returns_as_unwinding {A : Type} (constructed : list Z) (m : E A)
    (total : D3D10.M _ _ _ A) :
  returns_as m total ->
  returns_as (D3D10Exceptions.unwinding _ _ _ constructed m) total.
Proof using Type.
  intros Hm w. unfold D3D10Exceptions.unwinding. rewrite (Hm w).
  reflexivity.
Qed.

Lemma returns_as_operator_new (o : D3D10.object) :
  (forall w, allocates w = true) ->
  returns_as (D3D10Exceptions.operator_new _ _ _ allocates o)
    (D3D10.new _ _ _ o).
Proof using Type.
  intros Halloc w. unfold D3D10Exceptions.operator_new.
  rewrite Halloc. apply returns_as_lift.
Qed.

Lemma returns_as_allocate_elements {A : Type} (n : Z) (m : E A)
    (total : D3D10.M _ _ _ A) :
  (forall w, allocates w = true) ->
  returns_as m total ->
  returns_as
    (D3D10Exceptions.bind _ _ _
       (D3D10Exceptions.allocate_elements _ _ _ allocates n)
       (fun _ => m))
    total.
Proof using Type.
  intros Halloc Hm w.
  unfold D3D10Exceptions.bind, D3D10Exceptions.allocate_elements.
  rewrite Halloc, orb_true_r. apply Hm.
Qed.

Lemma returns_as_create_state_object
    (create : D3D10.pipeline_desc -> Z -> E (bool * Z))
    (total : D3D10.pipeline_desc -> Z -> D3D10.M _ _ _ (bool * Z))
    (condition : bool) (desc : D3D10.pipeline_desc) :
  (forall d h, returns_as (create d h) (total d h)) ->
  returns_as
    (D3D10Exceptions.create_state_object _ _ _ create condition desc)
    (D3D10.create_state_object _ _ _ total condition desc).
Proof using Type.
  intros H. unfold D3D10Exceptions.create_state_object,
    D3D10.create_state_object.
  destruct condition; [|apply returns_as_ret].
  apply returns_as_bind; [apply H|]. intros r. apply returns_as_ret.
Qed.

Lemma returns_as_or_return_false (constructed : list Z) (r : option Z)
    (k : Z -> E (bool * Z)) (total : Z -> D3D10.M _ _ _ (bool * Z)) :
  (forall object, returns_as (k object) (total object)) ->
  returns_as (D3D10Exceptions.or_return_false _ _ _ constructed r k)
    (D3D10.or_return_false _ _ _ constructed r total).
Proof using Type.
  intros H. unfold D3D10Exceptions.or_return_false,
    D3D10.or_return_false.
  destruct r as [object|]; [apply returns_as_unwinding, H|].
  apply returns_as_lift.
Qed.

Lemma create_input_layout_returns_as (desc : D3D10.pipeline_desc)
    (out_handle : Z) :
  (forall w, allocates w = true) ->
  returns_as
    (D3D10Exceptions.create_input_layout _ _ _ driver allocates desc
       out_handle)
    (D3D10.create_input_layout _ _ _ driver desc out_handle).
Proof using Type.
  intros Halloc. unfold D3D10Exceptions.create_input_layout.
  apply returns_as_allocate_elements; [exact Halloc|].
  apply returns_as_lift.
Qed.

Lemma create_graphics_pipeline_returns_as (desc : D3D10.pipeline_desc)
    (out_handle : Z) :
  (forall w, allocates w = true) ->
  returns_as
    (D3D10Exceptions.create_graphics_pipeline _ _ _ driver allocates desc
       out_handle)
    (D3D10.create_graphics_pipeline _ _ _ driver desc out_handle).
Proof using Type.
  intros Halloc.
  unfold D3D10Exceptions.create_graphics_pipeline,
    D3D10.create_graphics_pipeline.
  destruct (_ || _); [apply returns_as_ret|].
  repeat (apply returns_as_bind;
          [apply returns_as_create_state_object; intros ?d ?h;
           first [apply returns_as_lift
                 | apply create_input_layout_returns_as, Halloc]
          | intros ?r; apply returns_as_or_return_false;
            intros ?object]).
  apply returns_as_bind;
    [apply returns_as_operator_new, Halloc | intros impl].
  apply returns_as_ret.
Qed.

Lemma create_pipeline_returns_as (desc : D3D10.pipeline_desc)
    (dynamic_states : list D3D10.dynamic_state.t) (out_handle : Z) :
  (forall w, allocates w = true) ->
  returns_as
    (D3D10Exceptions.create_pipeline _ _ _ driver allocates desc
       dynamic_states out_handle)
    (create_pipeline desc dynamic_states out_handle).
Proof using Type.
  intros Halloc.
  unfold D3D10Exceptions.create_pipeline, D3D10.create_pipeline.
  destruct (negb _); [apply returns_as_ret|].
  destruct (D3D10.pipeline_type desc);
    try apply returns_as_lift; try apply returns_as_ret.
  - apply create_graphics_pipeline_returns_as, Halloc.
  - apply create_input_layout_returns_as, Halloc.
Qed.

Lemma create_query_pool_returns_as (type : query_type)
    (size out_handle : Z) :
  (forall w, allocates w = true) ->
  returns_as
    (D3D10Exceptions.create_query_pool _ _ _ driver allocates type size
       out_handle)
    (create_query_pool type size out_handle).
Proof using Type.
  intros Halloc w.
  unfold D3D10Exceptions.create_query_pool, D3D10.create_query_pool.
  unfold D3D10Exceptions.bind at 1, D3D10Exceptions.operator_new.
  rewrite Halloc.
  unfold D3D10Exceptions.lift at 1, D3D10.bind at 1, D3D10.new.
  unfold D3D10Exceptions.bind at 1, D3D10Exceptions.allocate_elements.
  cbn [D3D10.calls D3D10.heap D3D10.allocations].
  rewrite Halloc, orb_true_r. unfold D3D10Exceptions.ret at 1.
  unfold D3D10Exceptions.bind at 1, D3D10Exceptions.lift at 1,
    D3D10.store.
  cbn [D3D10.calls D3D10.heap D3D10.allocations].
  rewrite insert_insert_eq.
  match goal with
  | |- D3D10Exceptions.bind _ _ _ ?m ?k ?w1 = _ =>
    refine (returns_as_bind m _ k _ _ _ w1)
  end.
  - apply returns_as_lift.
  - intros [queries|created].
    + apply returns_as_bind; [apply returns_as_lift | intros _].
      apply returns_as_ret.
    + apply returns_as_bind; [apply returns_as_lift | intros _].
      apply returns_as_bind; [apply returns_as_lift | intros _].
      apply returns_as_ret.
Qed.

(** C7 (as the code has it).  Each of [create_sampler],
    [create_resource], [create_resource_view], [create_pipeline] and
    [create_query_pool], when it returns, returns a success flag, and
    whenever the flag is [false] the output handle has been set to zero,
    whatever it held before the call.  [create_sampler],
    [create_resource] and [create_resource_view] contain no allocation
    and always return.  [create_pipeline] and [create_query_pool]
    allocate without a handler: they return, with the result and in the
    state of the code without exceptions, as long as the allocator has
    memory; and when the allocator refuses the first allocation of
    [create_query_pool], [std::bad_alloc] leaves the call. *)
Theorem create_operations_fail_closed :
  (forall desc out_handle (w : world),
      exists result w',
        D3D10Exceptions.create_sampler _ _ _ driver desc out_handle w
        = (inl result, w')
        /\ fails_closed result)
  /\ (forall desc initial_data initial_state out_handle shared_handle
             (w : world),
         exists result w',
           D3D10Exceptions.create_resource _ _ _ resource_flags_shared
             resource_flags_shared_nt_handle driver desc initial_data
             initial_state out_handle shared_handle w
           = (inl result, w')
           /\ fails_closed (fst result))
  /\ (forall resource usage_type desc out_handle (w : world),
         exists result w',
           D3D10Exceptions.create_resource_view _ _ _ driver resource
             usage_type desc out_handle w
           = (inl result, w')
           /\ fails_closed result)
  /\ (forall desc dynamic_states out_handle,
         returns_closed
           (D3D10Exceptions.create_pipeline _ _ _ driver allocates desc
              dynamic_states out_handle)
         /\ ((forall w, allocates w = true) ->
             returns_as
               (D3D10Exceptions.create_pipeline _ _ _ driver allocates
                  desc dynamic_states out_handle)
               (create_pipeline desc dynamic_states out_handle)))
  /\ (forall type size out_handle,
         returns_closed
           (D3D10Exceptions.create_query_pool _ _ _ driver allocates type
              size out_handle)
         /\ ((forall w, allocates w = true) ->
             returns_as
               (D3D10Exceptions.create_query_pool _ _ _ driver allocates
                  type size out_handle)
               (create_query_pool type size out_handle))
         /\ forall w : world,
              allocates w = false ->
              D3D10Exceptions.create_query_pool _ _ _ driver allocates
                type size out_handle w
              = (inr D3D10Exceptions.bad_alloc, w)).
Proof using Type.
  split; [|split; [|split; [|split]]].
  - intros desc out_handle w.
    unfold D3D10Exceptions.create_sampler, D3D10Exceptions.lift.
    pose proof (create_sampler_fails_closed desc out_handle w) as H.
    destruct (D3D10.create_sampler _ _ _ _ _ _ _) as [result w'].
    exists result, w'. split; [reflexivity | exact H].
  - intros desc initial_data initial_state out_handle shared_handle w.
    unfold D3D10Exceptions.create_resource, D3D10Exceptions.lift.
    pose proof (create_resource_fails_closed desc initial_data
                  initial_state out_handle shared_handle w) as H.
    destruct (D3D10.create_resource _ _ _ _ _ _ _ _ _ _ _ _)
      as [result w'].
    exists result, w'. split; [reflexivity | exact H].
  - intros resource usage_type desc out_handle w.
    unfold D3D10Exceptions.create_resource_view, D3D10Exceptions.lift.
    pose proof (create_resource_view_fails_closed resource usage_type
                  desc out_handle w) as H.
    destruct (D3D10.create_resource_view _ _ _ _ _ _ _ _ _)
      as [result w'].
    exists result, w'. split; [reflexivity | exact H].
  - intros desc dynamic_states out_handle.
    split; [apply create_pipeline_returns_closed|].
    apply create_pipeline_returns_as.
  - intros type size out_handle.
    split; [apply create_query_pool_returns_closed|].
    split; [apply create_query_pool_returns_as|].
    intros w Hrefused.
    unfold D3D10Exceptions.create_query_pool, D3D10Exceptions.bind at 1,
      D3D10Exceptions.operator_new.
    rewrite Hrefused. reflexivity.
Qed.

End D3D10_exceptions.

(** C5.  A description that carries the shared flag together with the
    shared-NT-handle flag is rejected by [create_resource] before any
    native call is made: the call returns [false], the output handle is
    zero, the shared handle and the world (in particular the trace of
    native calls) are unchanged; and the device reports the
    [shared_resource_nt_handle] capability as unsupported. *)
Theorem create_resource_rejects_shared_nt_handle
    (desc : Api.resource_desc)
    (initial_data initial_state out_handle : Z) (shared_handle : option Z)
    (feature_level : Z) (w : world) :
  has_flag (Api.flags desc) resource_flags_shared = true ->
  has_flag (Api.flags desc) resource_flags_shared_nt_handle = true ->
  create_resource desc initial_data initial_state out_handle shared_handle
    w = ((false, 0, shared_handle), w)
  /\ D3D10.check_capability feature_level
       D3D10.device_caps.shared_resource_nt_handle = false.
Proof.
  intros Hshared Hnt. split; [|reflexivity].
  unfold D3D10.create_resource. rewrite Hshared, Hnt.
  destruct shared_handle; reflexivity.
Qed.

(** C10.  Destroying the zero handle does nothing: [destroy_sampler],
    [destroy_resource], [destroy_resource_view] and [destroy_pipeline]
    leave the world as it is, so no [Release] is issued and no record is
    deleted. *)
Theorem destroy_zero_handle_is_noop (w : world) :
  destroy_sampler 0 w = (tt, w)
  /\ destroy_resource 0 w = (tt, w)
  /\ destroy_resource_view 0 w = (tt, w)
  /\ destroy_pipeline 0 w = (tt, w).
Proof. repeat split. Qed.

(** *** Merging the descriptor ranges of a pipeline layout *)

Abbreviation register_offset := D3D10.register_offset.

Lemma wrap32_sub_swap (a b c d : Z) :
  wrap32 (a - b) = wrap32 (c - d) <-> wrap32 (a - c) = wrap32 (b - d).
Proof.
  unfold wrap32. rewrite !Z.cong_iff_0.
  replace (a - b - (c - d)) with (a - c - (b - d)) by ring. reflexivity.
Qed.

Lemma wrap32_sub_opp (a b c d : Z) :
  wrap32 (a - b) = wrap32 (c - d) <-> wrap32 (b - a) = wrap32 (d - c).
Proof.
  unfold wrap32. rewrite !Z.cong_iff_0.
  replace (b - a - (d - c)) with (- (a - b - (c - d))) by ring.
  split; intros H.
  - apply Z.mod_opp_l_z; [discriminate | exact H].
  - apply Z.mod_opp_l_z in H; [|discriminate].
    rewrite Z.opp_involutive in H. exact H.
Qed.

Lemma descriptor_type_eqb_eq (a b : D3D10.descriptor_type.t) :
  D3D10.descriptor_type.eqb a b = true <-> a = b.
Proof.
  destruct a, b; simpl; split; intros H;
    try reflexivity; try discriminate.
  - apply Z.eqb_eq in H. congruence.
  - injection H as ->. apply Z.eqb_refl.
Qed.

(** A merge that goes through has seen only ranges of one type and of
    one register offset. *)
Lemma merge_ranges_uniform (ranges : list D3D10.descriptor_range) :
  forall merged_range result,
    D3D10.merge_ranges merged_range ranges = Some result ->
    (D3D10.type result = D3D10.type merged_range
     /\ register_offset result = register_offset merged_range)
    /\ forall range, In range ranges ->
         D3D10.type range = D3D10.type merged_range
         /\ register_offset range = register_offset merged_range.
Proof.
  induction ranges as [|range rest IH]; intros merged result Hm.
  - injection Hm as <-. split; [split; reflexivity|]. intros ? [].
  - simpl in Hm.
    destruct (D3D10.descriptor_type.eqb _ _) eqn:Hty; [|discriminate].
    apply descriptor_type_eqb_eq in Hty. simpl in Hm.
    destruct (1 <? D3D10.array_size range); [discriminate|]. simpl in Hm.
    destruct (_ =? D3D10.dx_register_space merged); [|discriminate].
    simpl in Hm.
    destruct (D3D10.binding merged <=? D3D10.binding range).
    + destruct (_ =? _) eqn:Hd in Hm; [|discriminate]. simpl in Hm.
      apply Z.eqb_eq, wrap32_sub_swap in Hd.
      destruct (IH _ _ Hm) as [[Ht Ho] Hall]. simpl in *.
      split; [split; assumption|].
      intros r [<- | Hin]; [split; assumption|].
      apply (Hall r Hin).
    + destruct (_ =? _) eqn:Hd in Hm; [|discriminate]. simpl in Hm.
      apply Z.eqb_eq, wrap32_sub_swap in Hd.
      destruct (IH _ _ Hm) as [[Ht Ho] Hall].
      unfold D3D10.register_offset in *. simpl in *.
      split; [split; congruence|].
      intros r [<- | Hin]; [split; [assumption | congruence]|].
      destruct (Hall r Hin). split; congruence.
Qed.

Lemma merge_param_uniform (ranges : list D3D10.descriptor_range)
    (result : D3D10.descriptor_range) :
  D3D10.merge_param descriptor_range_default
    (D3D10.param_descriptor_set ranges) = Some result ->
  forall r1 r2, In r1 ranges -> In r2 ranges ->
    D3D10.type r1 = D3D10.type r2
    /\ register_offset r1 = register_offset r2.
Proof.
  destruct ranges as [|first rest]; [discriminate|]. simpl.
  destruct (_ || _); [discriminate|]. intros Hm.
  destruct (merge_ranges_uniform _ _ _ Hm) as [_ Hall].
  assert (Hfirst : forall r, In r (first :: rest) ->
            D3D10.type r = D3D10.type first
            /\ register_offset r = register_offset first).
  { intros r [<- | Hin]; [split; reflexivity | apply Hall, Hin]. }
  intros r1 r2 H1 H2.
  destruct (Hfirst r1 H1), (Hfirst r2 H2). split; congruence.
Qed.

Lemma merge_params_rejects (params : list D3D10.pipeline_layout_param)
    (param : D3D10.pipeline_layout_param) :
  In param params ->
  D3D10.merge_param descriptor_range_default param = None ->
  D3D10.merge_params descriptor_range_default params = None.
Proof.
  induction params as [|p rest IH]; intros Hin Hnone; [destruct Hin|].
  simpl. destruct Hin as [-> | Hin].
  - rewrite Hnone. reflexivity.
  - rewrite (IH Hin Hnone).
    destruct (D3D10.merge_param _ p); reflexivity.
Qed.

Lemma create_pipeline_layout_rejects
    (params : list D3D10.pipeline_layout_param)
    (param : D3D10.pipeline_layout_param) (out_handle : Z) (w : world) :
  In param params ->
  D3D10.merge_param descriptor_range_default param = None ->
  create_pipeline_layout params out_handle w = ((false, 0), w).
Proof.
  intros Hin Hnone. unfold D3D10.create_pipeline_layout.
  rewrite (merge_params_rejects _ _ Hin Hnone). reflexivity.
Qed.

(** C3 (as the code has it).  If the parameter list contains a
    descriptor set with two ranges whose register indices are not
    contiguous with their binding indices, the distance between the two
    register indices and the distance between the two binding indices
    both taken modulo 2^32, as the unsigned 32-bit subtraction of the
    code computes them, then [create_pipeline_layout] returns [false]
    with a zero output handle and registers nothing: the world is
    unchanged. *)
Theorem create_pipeline_layout_rejects_non_contiguous
    (params : list D3D10.pipeline_layout_param)
    (ranges : list D3D10.descriptor_range)
    (r1 r2 : D3D10.descriptor_range) (out_handle : Z) (w : world) :
  In (D3D10.param_descriptor_set ranges) params ->
  In r1 ranges -> In r2 ranges ->
  wrap32 (D3D10.dx_register_index r1 - D3D10.dx_register_index r2)
  <> wrap32 (D3D10.binding r1 - D3D10.binding r2) ->
  create_pipeline_layout params out_handle w = ((false, 0), w).
Proof.
  intros Hset H1 H2 Hgap.
  apply (create_pipeline_layout_rejects _ _ _ _ Hset).
  destruct (D3D10.merge_param _ _) as [result|] eqn:Hm; [|reflexivity].
  exfalso. apply Hgap.
  destruct (merge_param_uniform _ _ Hm r1 r2 H1 H2) as [_ Ho].
  apply wrap32_sub_swap, Ho.
Qed.

Lemma merge_params_pointwise (params : list D3D10.pipeline_layout_param) :
  forall ranges,
    D3D10.merge_params descriptor_range_default params = Some ranges ->
    length ranges = length params
    /\ forall (i : nat) param,
         params !! i = Some param ->
         exists merged,
           ranges !! i = Some merged
           /\ D3D10.merge_param descriptor_range_default param
              = Some merged.
Proof using Type.
  induction params as [|param rest IH]; intros ranges;
    cbn [D3D10.merge_params].
  - intros [= <-]. split; [reflexivity|]. intros i p H. discriminate H.
  - destruct (D3D10.merge_param _ param) as [merged|] eqn:Hparam;
      [|discriminate].
    destruct (D3D10.merge_params _ rest) as [ranges'|];
      [|discriminate].
    intros [= <-]. destruct (IH ranges' eq_refl) as [Hlen Hall].
    split; [simpl; congruence|].
    intros [|i] p Hp; simpl in Hp.
    + injection Hp as <-. exists merged. split; [reflexivity | exact Hparam].
    + apply Hall, Hp.
Qed.

Lemma joins_change (merged merged' r : D3D10.descriptor_range) :
  D3D10.type merged' = D3D10.type merged ->
  D3D10.dx_register_space merged' = D3D10.dx_register_space merged ->
  register_offset merged' = register_offset merged ->
  D3D10Layout.joins merged' r <-> D3D10Layout.joins merged r.
Proof using Type.
  unfold D3D10Layout.joins. intros -> -> ->. reflexivity.
Qed.

Lemma Forall_joins_change (merged merged' : D3D10.descriptor_range)
    (ranges : list D3D10.descriptor_range) :
  D3D10.type merged' = D3D10.type merged ->
  D3D10.dx_register_space merged' = D3D10.dx_register_space merged ->
  register_offset merged' = register_offset merged ->
  Forall (D3D10Layout.joins merged') ranges
  <-> Forall (D3D10Layout.joins merged) ranges.
Proof using Type.
  intros Ht Hs Ho.
  induction ranges as [|r rest IH]; [split; constructor|].
  rewrite !Forall_cons_iff, IH, (joins_change merged merged' r Ht Hs Ho).
  reflexivity.
Qed.

(** The loop over the ranges of a set goes through exactly when every
    range joins the range the loop started from. *)
Lemma merge_ranges_accepts (ranges : list D3D10.descriptor_range) :
  forall merged_range,
    is_Some (D3D10.merge_ranges merged_range ranges)
    <-> Forall (D3D10Layout.joins merged_range) ranges.
Proof using Type.
  induction ranges as [|range rest IH]; intros merged;
    cbn [D3D10.merge_ranges].
  - split; [constructor | eexists; reflexivity].
  - rewrite Forall_cons_iff. unfold D3D10Layout.joins at 1.
    destruct (D3D10.descriptor_type.eqb (D3D10.type range)
                (D3D10.type merged)) eqn:Htype.
    2: { cbn [negb orb]. split; [intros [? H]; discriminate H|].
         intros [(Ht & _) _]. apply descriptor_type_eqb_eq in Ht.
         congruence. }
    apply descriptor_type_eqb_eq in Htype.
    destruct (Z.ltb_spec 1 (D3D10.array_size range)) as [Harray|Harray].
    { cbn [negb orb]. split; [intros [? H]; discriminate H|].
      intros [(_ & Ha & _) _]. lia. }
    destruct (Z.eqb_spec (D3D10.dx_register_space range)
                (D3D10.dx_register_space merged)) as [Hspace|Hspace].
    2: { cbn [negb orb]. split; [intros [? H]; discriminate H|].
         intros [(_ & _ & Hs & _) _]. contradiction. }
    cbn [negb orb]. unfold D3D10.register_offset at 1 2.
    destruct (D3D10.binding merged <=? D3D10.binding range).
    + destruct (Z.eqb_spec
                  (wrap32 (D3D10.dx_register_index range
                           - D3D10.dx_register_index merged))
                  (wrap32 (D3D10.binding range - D3D10.binding merged)))
        as [Hd|Hd]; cbn [negb].
      * apply wrap32_sub_swap in Hd.
        rewrite IH, Forall_joins_change by reflexivity.
        split; [intros HF; repeat split; assumption | intros [_ HF]].
        exact HF.
      * split; [intros [? H]; discriminate H|].
        intros [(_ & _ & _ & Ho) _]. exfalso.
        apply Hd, wrap32_sub_swap, Ho.
    + destruct (Z.eqb_spec
                  (wrap32 (D3D10.dx_register_index merged
                           - D3D10.dx_register_index range))
                  (wrap32 (D3D10.binding merged - D3D10.binding range)))
        as [Hd|Hd]; cbn [negb].
      * apply wrap32_sub_swap in Hd.
        rewrite IH, (Forall_joins_change merged)
          by (try reflexivity; symmetry; exact Hd).
        split; [intros HF; repeat split; try assumption | intros [_ HF]].
        -- symmetry. exact Hd.
        -- exact HF.
      * split; [intros [? H]; discriminate H|].
        intros [(_ & _ & _ & Ho) _]. exfalso.
        apply Hd, wrap32_sub_swap. symmetry. exact Ho.
Qed.

(** The merged range is visible to the stages of every range merged. *)
Lemma merge_ranges_visibility (ranges : list D3D10.descriptor_range) :
  forall merged_range result,
    D3D10.merge_ranges merged_range ranges = Some result ->
    D3D10.visibility result
    = D3D10Layout.union_visibility merged_range ranges.
Proof using Type.
  unfold D3D10Layout.union_visibility.
  induction ranges as [|range rest IH]; intros merged result;
    cbn [D3D10.merge_ranges fold_left].
  - intros [= <-]. reflexivity.
  - destruct (_ || _); [discriminate|].
    destruct (D3D10.binding merged <=? D3D10.binding range);
      (destruct (negb _); [discriminate|]);
      intros Hm; rewrite (IH _ _ Hm); reflexivity.
Qed.

Lemma merge_param_accepts (param : D3D10.pipeline_layout_param) :
  is_Some (D3D10.merge_param descriptor_range_default param)
  <-> D3D10Layout.acceptable param.
Proof using Type.
  destruct param as [[|first rest] | range | index space |];
    cbn [D3D10.merge_param D3D10Layout.acceptable D3D10Layout.mergeable
         D3D10.dx_register_space].
  - split; [intros [? H]; discriminate H | intros []].
  - destruct (Z.ltb_spec 1 (D3D10.array_size first)) as [Harray|Harray].
    { cbn [negb orb]. split; [intros [? H]; discriminate H|].
      intros (Ha & _). lia. }
    destruct (Z.eqb_spec (D3D10.dx_register_space first) 0)
      as [Hspace|Hspace]; cbn [negb orb].
    + rewrite merge_ranges_accepts.
      split; [intros HF; repeat split; assumption | intros (_ & _ & HF)].
      exact HF.
    + split; [intros [? H]; discriminate H|].
      intros (_ & Hs & _). contradiction.
  - destruct (Z.eqb_spec (D3D10.dx_register_space range) 0)
      as [Hspace|Hspace]; cbn [negb].
    + split; [intros _; exact Hspace | intros _; eexists; reflexivity].
    + split; [intros [? H]; discriminate H | contradiction].
  - destruct (Z.eqb_spec space 0) as [Hspace|Hspace]; cbn [negb].
    + split; [intros _; exact Hspace | intros _; eexists; reflexivity].
    + split; [intros [? H]; discriminate H | contradiction].
  - split; [intros _; exact I | intros _; eexists; reflexivity].
Qed.

Lemma merge_params_accepts (params : list D3D10.pipeline_layout_param) :
  is_Some (D3D10.merge_params descriptor_range_default params)
  <-> Forall D3D10Layout.acceptable params.
Proof using Type.
  induction params as [|param rest IH]; cbn [D3D10.merge_params].
  - split; [constructor | eexists; reflexivity].
  - rewrite Forall_cons_iff, <- IH, <- merge_param_accepts.
    destruct (D3D10.merge_param _ param) as [merged|];
      [destruct (D3D10.merge_params _ rest) as [ranges|]|].
    + split; [intros _; split; eexists; reflexivity|].
      intros _. eexists. reflexivity.
    + split; [intros [? H]; discriminate H|].
      intros [_ [? H]]. discriminate H.
    + split; [intros [? H]; discriminate H|].
      intros [[? H] _]. discriminate H.
Qed.

(** C4 (as the code has it).  Two ranges of one descriptor set that
    differ in type, or whose register indices are not as far apart as
    their binding indices (modulo 2^32), make the whole call fail with a
    zero handle and an unchanged world; so does every parameter list with
    a parameter that is not acceptable.  A difference in visibility is no
    failure: when every parameter is acceptable (a descriptor set is not
    empty and each of its ranges has array size at most 1, register
    space 0, the type of the first range and its register index as far
    from its binding as the first range, modulo 2^32; push descriptors
    and push constants have register space 0) the call succeeds with a
    non-zero handle to the stored layout, which has one range per
    parameter, and the range of a descriptor set is visible to the union
    of the visibilities of the ranges of the set. *)
Theorem create_pipeline_layout_merge
    (params : list D3D10.pipeline_layout_param) (out_handle : Z)
    (w : world) :
  (forall ranges r1 r2,
      In (D3D10.param_descriptor_set ranges) params ->
      In r1 ranges -> In r2 ranges ->
      D3D10.type r1 <> D3D10.type r2
      \/ wrap32 (D3D10.dx_register_index r1 - D3D10.dx_register_index r2)
         <> wrap32 (D3D10.binding r1 - D3D10.binding r2) ->
      create_pipeline_layout params out_handle w = ((false, 0), w))
  /\ (~ Forall D3D10Layout.acceptable params ->
      create_pipeline_layout params out_handle w = ((false, 0), w))
  /\ (Forall D3D10Layout.acceptable params ->
      exists handle ranges w',
        create_pipeline_layout params out_handle w = ((true, handle), w')
        /\ handle <> 0
        /\ D3D10.heap w' !! handle
           = Some (D3D10.obj_pipeline_layout ranges)
        /\ length ranges = length params
        /\ forall (i : nat) first rest merged,
             params !! i
             = Some (D3D10.param_descriptor_set (first :: rest)) ->
             ranges !! i = Some merged ->
             D3D10.visibility merged
             = D3D10Layout.union_visibility first rest).
Proof using Type.
  split; [|split].
  - intros ranges r1 r2 Hset H1 H2 Hdiff.
    apply (create_pipeline_layout_rejects _ _ _ _ Hset).
    destruct (D3D10.merge_param _ _) as [result|] eqn:Hm; [|reflexivity].
    exfalso.
    destruct (merge_param_uniform _ _ Hm r1 r2 H1 H2) as [Ht Ho].
    destruct Hdiff as [Hd | Hd]; apply Hd; [exact Ht|].
    apply wrap32_sub_swap, Ho.
  - intros Hno. unfold D3D10.create_pipeline_layout.
    destruct (D3D10.merge_params _ params) as [ranges|] eqn:Hm;
      [|reflexivity].
    exfalso. apply Hno, merge_params_accepts. rewrite Hm.
    eexists. reflexivity.
  - intros Hall. apply merge_params_accepts in Hall.
    destruct Hall as [ranges Hm].
    unfold D3D10.create_pipeline_layout. rewrite Hm.
    unfold D3D10.bind, D3D10.new, D3D10.ret. cbn [fst snd].
    eexists _, ranges, _. split; [reflexivity|].
    cbn [D3D10.heap]. split; [lia|].
    split; [apply lookup_insert_eq|].
    destruct (merge_params_pointwise params ranges Hm) as [Hlen Hpoint].
    split; [exact Hlen|].
    intros i first rest merged Hparam Hrange.
    destruct (Hpoint i _ Hparam) as (merged' & Hrange' & Hmerged).
    rewrite Hrange in Hrange'. injection Hrange' as <-.
    cbn [D3D10.merge_param] in Hmerged.
    destruct (_ || _); [discriminate Hmerged|].
    apply merge_ranges_visibility, Hmerged.
Qed.

(** *** Storage of emulated descriptor sets *)

Lemma new_descriptor_set_spec (range : D3D10.descriptor_range)
    (w : world) :
  exists impl,
    D3D10.new_descriptor_set _ _ _ range w
    = (2 * (Z.of_nat (D3D10.allocations w) + 1),
       D3D10.mk_world (D3D10.calls w)
         (<[2 * (Z.of_nat (D3D10.allocations w) + 1)
            := D3D10.obj_descriptor_set impl]> (D3D10.heap w))
         (S (D3D10.allocations w)))
    /\ D3D10.set_type impl = D3D10.type range
    /\ D3D10.set_count impl = D3D10.count range
    /\ forall k, D3D10.stride (D3D10.type range) = Some k ->
         0 <= D3D10.count range * k < 2 ^ 32 ->
         length (D3D10.descriptors impl)
         = Z.to_nat (D3D10.count range * k).
Proof.
  unfold D3D10.new_descriptor_set, D3D10.new.
  eexists. split; [reflexivity|]. simpl.
  split; [reflexivity|]. split; [reflexivity|].
  intros k Hk Hrange. rewrite length_replicate.
  destruct (D3D10.type range); simpl in Hk; inversion Hk; subst k;
    rewrite wrap32_small by exact Hrange; reflexivity.
Qed.

Lemma new_descriptor_sets_spec (range : D3D10.descriptor_range)
    (n : nat) :
  forall w : world,
  exists sets w',
    D3D10.new_descriptor_sets _ _ _ n range w = (sets, w')
    /\ length sets = n
    /\ D3D10.calls w' = D3D10.calls w
    /\ (forall p, p <= 2 * Z.of_nat (D3D10.allocations w) ->
          D3D10.heap w' !! p = D3D10.heap w !! p)
    /\ forall set, In set sets ->
         2 * Z.of_nat (D3D10.allocations w) < set
         /\ exists impl,
              D3D10.heap w' !! set = Some (D3D10.obj_descriptor_set impl)
              /\ D3D10.set_type impl = D3D10.type range
              /\ D3D10.set_count impl = D3D10.count range
              /\ forall k, D3D10.stride (D3D10.type range) = Some k ->
                   0 <= D3D10.count range * k < 2 ^ 32 ->
                   length (D3D10.descriptors impl)
                   = Z.to_nat (D3D10.count range * k).
Proof.
  induction n as [|n IH]; intros w.
  - exists [], w. simpl. unfold D3D10.ret.
    split; [reflexivity|]. split; [reflexivity|]. split; [reflexivity|].
    split; [reflexivity|]. intros set Hin. destruct Hin.
  - simpl. unfold D3D10.bind.
    destruct (new_descriptor_set_spec range w)
      as (impl & -> & Hty & Hcnt & Hlen).
    match goal with
    | |- context [D3D10.new_descriptor_sets _ _ _ n range ?w1] =>
      destruct (IH w1) as (sets & w' & -> & Hl & Hc & Hkeep & Hsets)
    end.
    simpl in *. unfold D3D10.ret.
    eexists _, _. split; [reflexivity|]. simpl.
    split; [congruence|]. split; [exact Hc|]. split.
    + intros p Hp. rewrite Hkeep by lia.
      apply lookup_insert_ne. lia.
    + intros set [<- | Hin].
      * split; [lia|]. exists impl. rewrite Hkeep by lia.
        rewrite lookup_insert_eq. auto.
      * destruct (Hsets set Hin) as [Hlt Himpl]. split; [lia|].
        exact Himpl.
Qed.

(** A call can only report success on a layout handle that is not null and
    refers to a live layout with a range at [layout_param]. *)
Lemma allocate_descriptor_sets_success_inv
    (set_count layout layout_param : Z) (sets : list Z) (w w' : world) :
  allocate_descriptor_sets set_count layout layout_param w
  = (Some (true, sets), w') ->
  layout <> 0
  /\ exists ranges range,
       D3D10.heap w !! layout = Some (D3D10.obj_pipeline_layout ranges)
       /\ ranges !! Z.to_nat layout_param = Some range.
Proof.
  unfold D3D10.allocate_descriptor_sets.
  destruct (Z.eqb_spec layout 0) as [->|Hnz]; simpl.
  - unfold D3D10.ret. intros H. discriminate H.
  - unfold D3D10.bind at 1, D3D10.load.
    destruct (D3D10.heap w !! layout) as [[| ranges | |]|] eqn:Hl;
      try (unfold D3D10.ret; intros H; discriminate H).
    destruct (ranges !! Z.to_nat layout_param) as [range|] eqn:Hr;
      try (unfold D3D10.ret; intros H; discriminate H).
    intros _. split; [exact Hnz|]. exists ranges, range. auto.
Qed.

(** C6 (as the code has it).  On a live layout, [allocate_descriptor_sets]
    succeeds and returns [set_count] sets; each of them is a record of
    the type and count of the layout range, and its flat descriptor array
    has length count x stride(type) - stride 3 for constant buffers, 1
    for samplers and shader resource views - provided that product fits
    the 32 bits the code computes it in. *)
Theorem allocate_descriptor_sets_storage
    (set_count layout layout_param : Z)
    (ranges : list D3D10.descriptor_range) (range : D3D10.descriptor_range)
    (k : Z) (w : world) :
  layout <> 0 ->
  D3D10.heap w !! layout = Some (D3D10.obj_pipeline_layout ranges) ->
  ranges !! Z.to_nat layout_param = Some range ->
  D3D10.stride (D3D10.type range) = Some k ->
  0 <= D3D10.count range * k < 2 ^ 32 ->
  exists sets w',
    allocate_descriptor_sets set_count layout layout_param w
    = (Some (true, sets), w')
    /\ length sets = Z.to_nat set_count
    /\ forall set, In set sets ->
         exists impl,
           D3D10.heap w' !! set = Some (D3D10.obj_descriptor_set impl)
           /\ D3D10.set_type impl = D3D10.type range
           /\ D3D10.set_count impl = D3D10.count range
           /\ length (D3D10.descriptors impl)
              = Z.to_nat (D3D10.count range * k).
Proof.
  intros Hnz Hlayout Hrange Hk Hfit.
  unfold D3D10.allocate_descriptor_sets.
  replace (layout =? 0) with false by (symmetry; apply Z.eqb_neq, Hnz).
  simpl. unfold D3D10.bind at 1, D3D10.load. rewrite Hlayout, Hrange.
  unfold D3D10.bind, D3D10.ret.
  destruct (new_descriptor_sets_spec range (Z.to_nat set_count) w)
    as (sets & w' & -> & Hl & _ & _ & Hsets).
  exists sets, w'. split; [reflexivity|]. split; [exact Hl|].
  intros set Hin. destruct (Hsets set Hin) as (_ & impl & H1 & H2 & H3 & H4).
  exists impl. auto.
Qed.

End D3D10_device.

(** ** Vulkan: destruction paths *)

Section Vulkan_destruction.

Variable dispatch_key_from_handle : Z -> Z.

Abbreviation key := dispatch_key_from_handle.




End Vulkan_destruction.

(** ** Vulkan: negotiation at device creation *)

Section Vulkan_creation.

Variable dispatch_key_from_handle : Z -> Z.
Variable NDEBUG : bool.
Variable next_vkCreateDevice :
  Vulkan.physical_device -> list string -> Vulkan.VkPhysicalDeviceFeatures
  -> Z * Z.
Variable GetDeviceQueue : Z -> Z -> Z -> Z.

Abbreviation key := dispatch_key_from_handle.
Abbreviation vkCreateDevice :=
  (Vulkan.vkCreateDevice dispatch_key_from_handle NDEBUG
     next_vkCreateDevice GetDeviceQueue).







End Vulkan_creation.

(** *** The statements above at concrete inputs *)

Lemma create_pipeline_layout_rejects_non_contiguous_witness :
  D3D10.create_pipeline_layout unit unit unit
    D3D10.Examples.descriptor_range_default
    [D3D10.param_descriptor_set
       [D3D10.Examples.vertex_stage_range; D3D10.Examples.displaced_range]]
    77 D3D10.Examples.device_world
  = ((false, 0), D3D10.Examples.device_world).
Proof.
  apply (create_pipeline_layout_rejects_non_contiguous unit unit unit
           D3D10.Examples.descriptor_range_default _
           [D3D10.Examples.vertex_stage_range;
            D3D10.Examples.displaced_range]
           D3D10.Examples.vertex_stage_range
           D3D10.Examples.displaced_range).
  - left. reflexivity.
  - left. reflexivity.
  - right. left. reflexivity.
  - vm_compute. discriminate.
Defined.

(** C3 (as stated) fails where the unsigned subtraction wraps: the
    ranges at bindings 0 and 4294967295 on registers 1 and 0 are one
    register apart and 4294967295 bindings apart, in either direction and
    in absolute value, yet both differences are 4294967295 modulo 2^32
    and the call returns [true] with the non-zero handle 2. *)
Lemma create_pipeline_layout_rejects_non_contiguous_counterexample :
  let r1 := D3D10.mk_descriptor_range 0 1 0 1 0x1 1
              D3D10.descriptor_type.constant_buffer in
  let r2 := D3D10.mk_descriptor_range 0xFFFFFFFF 0 0 1 0x1 1
              D3D10.descriptor_type.constant_buffer in
  D3D10.dx_register_index r2 - D3D10.dx_register_index r1
  <> D3D10.binding r2 - D3D10.binding r1
  /\ D3D10.dx_register_index r1 - D3D10.dx_register_index r2
     <> D3D10.binding r1 - D3D10.binding r2
  /\ Z.abs (D3D10.dx_register_index r2 - D3D10.dx_register_index r1)
     <> Z.abs (D3D10.binding r2 - D3D10.binding r1)
  /\ exists w',
       D3D10.create_pipeline_layout unit unit unit
         D3D10.Examples.descriptor_range_default
         [D3D10.param_descriptor_set [r1; r2]]
         0 D3D10.Examples.device_world
       = ((true, 2), w')
       /\ D3D10.heap w' !! 2
          = Some (D3D10.obj_pipeline_layout
                    [D3D10.mk_descriptor_range 0 1 0 0 0x1 1
                       D3D10.descriptor_type.constant_buffer]).
Proof.
  cbv zeta. split; [simpl; lia|]. split; [simpl; lia|].
  split; [simpl; lia|].
  eexists. split; [reflexivity|]. vm_compute. reflexivity.
Qed.

Lemma create_pipeline_layout_merge_witness :
  D3D10.create_pipeline_layout unit unit unit
    D3D10.Examples.descriptor_range_default
    [D3D10.param_descriptor_set
       [D3D10.Examples.vertex_stage_range; D3D10.Examples.displaced_range]]
    77 D3D10.Examples.device_world
  = ((false, 0), D3D10.Examples.device_world)
  /\ exists handle ranges w',
       D3D10.create_pipeline_layout unit unit unit
         D3D10.Examples.descriptor_range_default
         [D3D10.param_descriptor_set
            [D3D10.Examples.vertex_stage_range;
             D3D10.Examples.pixel_stage_range]]
         77 D3D10.Examples.device_world
       = ((true, handle), w')
       /\ handle <> 0
       /\ D3D10.heap w' !! handle
          = Some (D3D10.obj_pipeline_layout ranges)
       /\ length ranges = 1%nat
       /\ forall merged,
            ranges !! 0%nat = Some merged ->
            D3D10.visibility merged = 0x11.
Proof.
  split.
  - apply (proj1 (create_pipeline_layout_merge unit unit unit
                    D3D10.Examples.descriptor_range_default
                    [D3D10.param_descriptor_set
                       [D3D10.Examples.vertex_stage_range;
                        D3D10.Examples.displaced_range]]
                    77 D3D10.Examples.device_world)
             [D3D10.Examples.vertex_stage_range;
              D3D10.Examples.displaced_range]
             D3D10.Examples.vertex_stage_range
             D3D10.Examples.displaced_range).
    + left. reflexivity.
    + left. reflexivity.
    + right. left. reflexivity.
    + right. vm_compute. discriminate.
  - destruct (proj2 (proj2 (create_pipeline_layout_merge unit unit unit
                              D3D10.Examples.descriptor_range_default
                              [D3D10.param_descriptor_set
                                 [D3D10.Examples.vertex_stage_range;
                                  D3D10.Examples.pixel_stage_range]]
                              77 D3D10.Examples.device_world)))
      as (handle & ranges & w' & Hcall & Hhandle & Hheap & Hlen & Hvis).
    + repeat constructor; simpl; try lia; reflexivity.
    + exists handle, ranges, w'.
      split; [exact Hcall|]. split; [exact Hhandle|].
      split; [exact Hheap|]. split; [exact Hlen|].
      intros merged Hmerged.
      exact (Hvis 0%nat D3D10.Examples.vertex_stage_range
               [D3D10.Examples.pixel_stage_range] merged eq_refl Hmerged).
Defined.

(** C4 (as stated) fails: two adjacent ranges of one set that differ in
    visibility (vertex stage and pixel stage) do not make the call fail;
    it returns [true] with the non-zero handle 2 of a layout whose single
    merged range is visible to both stages. *)
Lemma create_pipeline_layout_merge_counterexample :
  D3D10.visibility D3D10.Examples.vertex_stage_range
  <> D3D10.visibility D3D10.Examples.pixel_stage_range
  /\ exists w',
       D3D10.create_pipeline_layout unit unit unit
         D3D10.Examples.descriptor_range_default
         [D3D10.param_descriptor_set
            [D3D10.Examples.vertex_stage_range;
             D3D10.Examples.pixel_stage_range]]
         0 D3D10.Examples.device_world
       = ((true, 2), w')
       /\ D3D10.heap w' !! 2
          = Some (D3D10.obj_pipeline_layout
                    [D3D10.mk_descriptor_range 0 0 0 2 0x11 1
                       D3D10.descriptor_type.constant_buffer]).
Proof.
  split; [discriminate|].
  eexists. split; [reflexivity|]. vm_compute. reflexivity.
Qed.

(** Nor is a gap between two ranges a failure when the registers leave the
    same gap: bindings 0 and 3 on registers 0 and 3 are merged, and the
    merged range grows by the distance. *)
Example create_pipeline_layout_accepts_matching_gap :
  fst (D3D10.create_pipeline_layout unit unit unit
         D3D10.Examples.descriptor_range_default
         [D3D10.param_descriptor_set
            [D3D10.Examples.vertex_stage_range;
             D3D10.mk_descriptor_range 3 3 0 1 0x1 1
               D3D10.descriptor_type.constant_buffer]]
         0 D3D10.Examples.device_world)
  = (true, 2)
  /\ D3D10.merge_param D3D10.Examples.descriptor_range_default
       (D3D10.param_descriptor_set
          [D3D10.Examples.vertex_stage_range;
           D3D10.mk_descriptor_range 3 3 0 1 0x1 1
             D3D10.descriptor_type.constant_buffer])
     = Some (D3D10.mk_descriptor_range 0 0 0 4 0x1 1
               D3D10.descriptor_type.constant_buffer).
Proof. split; reflexivity. Qed.

Lemma create_resource_rejects_shared_nt_handle_witness :
  D3D10.create_resource unit unit unit
    D3D10.Examples.resource_flags_shared
    D3D10.Examples.resource_flags_shared_nt_handle
    D3D10.Examples.working_driver
    D3D10.Examples.shared_nt_buffer_desc 0 0 77 (Some 0)
    D3D10.Examples.device_world
  = ((false, 0, Some 0), D3D10.Examples.device_world).
Proof.
  apply (create_resource_rejects_shared_nt_handle unit unit unit
           D3D10.Examples.resource_flags_shared
           D3D10.Examples.resource_flags_shared_nt_handle
           D3D10.Examples.working_driver
           D3D10.Examples.shared_nt_buffer_desc 0 0 77 (Some 0)
           D3D10.D3D_FEATURE_LEVEL_10_0 D3D10.Examples.device_world);
    reflexivity.
Defined.

(** The sizing scenario of the specification: a constant-buffer parameter
    with count 4 gives a descriptor array of length 12. *)
Lemma allocate_descriptor_sets_storage_witness :
  exists sets w',
    D3D10.allocate_descriptor_sets unit unit unit 1 2 0
      (D3D10.Examples.layout_world 4)
    = (Some (true, sets), w')
    /\ length sets = 1%nat
    /\ forall set, In set sets ->
         exists impl,
           D3D10.heap w' !! set = Some (D3D10.obj_descriptor_set impl)
           /\ D3D10.set_type impl = D3D10.descriptor_type.constant_buffer
           /\ D3D10.set_count impl = 4
           /\ length (D3D10.descriptors impl) = 12%nat.
Proof.
  apply (allocate_descriptor_sets_storage unit unit unit 1 2 0
           [D3D10.mk_descriptor_range 0 0 0 4 0x1 1
              D3D10.descriptor_type.constant_buffer]
           (D3D10.mk_descriptor_range 0 0 0 4 0x1 1
              D3D10.descriptor_type.constant_buffer)
           3 (D3D10.Examples.layout_world 4)).
  - discriminate.
  - vm_compute. reflexivity.
  - reflexivity.
  - reflexivity.
  - simpl. lia.
Defined.

(** C6 (as stated) fails where the product leaves 32 bits: for a
    constant-buffer parameter with count 1431655766 the call succeeds, and
    the descriptor array of the set has length 2 and not
    3 x 1431655766. *)
Lemma allocate_descriptor_sets_storage_counterexample :
  exists set w' impl,
    D3D10.allocate_descriptor_sets unit unit unit 1 2 0
      (D3D10.Examples.layout_world 1431655766)
    = (Some (true, [set]), w')
    /\ D3D10.heap w' !! set = Some (D3D10.obj_descriptor_set impl)
    /\ D3D10.set_type impl = D3D10.descriptor_type.constant_buffer
    /\ D3D10.set_count impl = 1431655766
    /\ length (D3D10.descriptors impl) = 2%nat
    /\ length (D3D10.descriptors impl) <> Z.to_nat (1431655766 * 3).
Proof.
  eexists _, _, _. split; [vm_compute; reflexivity|].
  split; [vm_compute; reflexivity|].
  split; [reflexivity|]. split; [reflexivity|]. split; [reflexivity|].
  simpl. lia.
Qed.

Lemma create_operations_fail_closed_witness :
  (forall w : D3D10.world unit unit unit, (fun _ => true) w = true)
  /\ D3D10Exceptions.create_query_pool unit unit unit
       D3D10.Examples.failing_driver (fun _ => true) tt 2 77
       D3D10.Examples.device_world
     = (inl (false, 0),
        snd (D3D10.create_query_pool unit unit unit
               D3D10.Examples.failing_driver tt 2 77
               D3D10.Examples.device_world)).
Proof.
  split; [reflexivity|].
  exact (proj1 (proj2 (proj2 (proj2 (proj2 (proj2
           (create_operations_fail_closed unit unit unit
              D3D10.Examples.resource_flags_shared
              D3D10.Examples.resource_flags_shared_nt_handle
              D3D10.Examples.failing_driver (fun _ => true)))))
           tt 2 77))
           (fun _ => eq_refl) D3D10.Examples.device_world).
Defined.

(** C7 (as stated) fails: with an allocator that has no memory
    [create_query_pool] does not return a flag; the [std::bad_alloc] of
    [new query_pool_impl()] leaves the call and crosses the interface
    boundary. *)
Lemma create_operations_fail_closed_counterexample :
  D3D10Exceptions.create_query_pool unit unit unit
    D3D10.Examples.working_driver (fun _ => false) tt 2 77
    D3D10.Examples.device_world
  = (inr D3D10Exceptions.bad_alloc, D3D10.Examples.device_world).
Proof. reflexivity. Qed.





(** The three destruction paths on the example device, event by event. *)
Example destroy_device_trace :
  Vulkan.trace
  <$> Vulkan.vkDestroyDevice Vulkan.Examples.dispatch_key_from_handle 0x1000
        Vulkan.Examples.recording_world
  = Some
      (Vulkan.trace Vulkan.Examples.recording_world
       ++ [Vulkan.Cleared Vulkan.s_vulkan_command_buffers_table;
           Vulkan.Erased Vulkan.g_vulkan_devices_table 0x1000;
           Vulkan.Erased Vulkan.s_vulkan_queues_table 0x1100;
           Vulkan.DeletedQueue 0x1100;
           Vulkan.DeletedDevice 0x1000;
           Vulkan.Called Vulkan.DestroyDevice [0x1000]]).
Proof. vm_compute. reflexivity. Qed.

(** * Further properties of the code *)

(** ** D3D11: what the flag conversions keep *)

Lemma land_pow2 (b k : Z) :
  0 <= k -> Z.land b (2 ^ k) = if Z.testbit b k then 2 ^ k else 0.
Proof.
  intros Hk. apply Z.bits_inj'. intros n Hn.
  rewrite Z.land_spec, Z.pow2_bits_eqb by exact Hk.
  destruct (Z.eqb_spec k n) as [->|Hne].
  - rewrite andb_true_r. destruct (Z.testbit b n).
    + symmetry. apply Z.pow2_bits_true. exact Hn.
    + symmetry. apply Z.bits_0.
  - rewrite andb_false_r. destruct (Z.testbit b k).
    + symmetry. apply Z.pow2_bits_false. exact Hne.
    + symmetry. apply Z.bits_0.
Qed.

Lemma has_flag_pow2 (b k : Z) :
  0 <= k -> has_flag b (2 ^ k) = Z.testbit b k.
Proof.
  intros Hk. unfold has_flag. rewrite land_pow2 by exact Hk.
  destruct (Z.testbit b k); [|reflexivity].
  apply negb_true_iff, Z.eqb_neq.
  apply Z.neq_sym, Z.lt_neq, Z.pow_pos_nonneg; lia.
Qed.

Lemma testbit_set_or_clear (c : bool) (x b n : Z) :
  0 <= n ->
  Z.testbit (D3D11.set_or_clear c x b) n
  = if Z.testbit b n then c else Z.testbit x n.
Proof.
  intros Hn. unfold D3D11.set_or_clear. destruct c.
  - rewrite Z.lor_spec. destruct (Z.testbit b n);
      [apply orb_true_r | apply orb_false_r].
  - rewrite Z.land_spec, Z.lnot_spec by exact Hn.
    destruct (Z.testbit b n);
      [apply andb_false_r | apply andb_true_r].
Qed.

(** X1.  [convert_resource_usage_to_bind_flags] decides the seven bind
    flags it names from [usage] alone, whatever they were before, and
    leaves every other bit of [bind_flags] as it was: outside the seven
    flags the result is [bind_flags], on the seven flags it is the
    result for empty bind flags, which has no other bit. *)
Theorem convert_resource_usage_to_bind_flags_frame (usage bind_flags : Z) :
  Z.land (D3D11.convert_resource_usage_to_bind_flags usage bind_flags)
    (Z.lnot D3D11Flags.converted_bind_flags)
  = Z.land bind_flags (Z.lnot D3D11Flags.converted_bind_flags)
  /\ Z.land (D3D11.convert_resource_usage_to_bind_flags usage bind_flags)
       D3D11Flags.converted_bind_flags
     = D3D11.convert_resource_usage_to_bind_flags usage 0
  /\ D3D11.convert_resource_usage_to_bind_flags usage bind_flags
     = Z.lor
         (Z.land bind_flags (Z.lnot D3D11Flags.converted_bind_flags))
         (D3D11.convert_resource_usage_to_bind_flags usage 0).
Proof.
  repeat split; apply Z.bits_inj'; intros n Hn;
    unfold D3D11.convert_resource_usage_to_bind_flags,
      D3D11Flags.converted_bind_flags;
    rewrite ?Z.lor_spec, ?Z.land_spec, ?Z.lnot_spec by exact Hn;
    rewrite !testbit_set_or_clear, !Z.lor_spec, ?Z.bits_0 by exact Hn;
    destruct (Z.testbit D3D11.D3D11_BIND_RENDER_TARGET n),
      (Z.testbit D3D11.D3D11_BIND_DEPTH_STENCIL n),
      (Z.testbit D3D11.D3D11_BIND_SHADER_RESOURCE n),
      (Z.testbit D3D11.D3D11_BIND_UNORDERED_ACCESS n),
      (Z.testbit D3D11.D3D11_BIND_INDEX_BUFFER n),
      (Z.testbit D3D11.D3D11_BIND_VERTEX_BUFFER n),
      (Z.testbit D3D11.D3D11_BIND_CONSTANT_BUFFER n);
    simpl; rewrite ?andb_false_r, ?andb_true_r, ?orb_false_r,
      ?orb_true_r, ?andb_diag;
    reflexivity.
Qed.

(** The bind flags survive neutral usage and back exactly on the seven
    flags the conversion names. *)
Lemma bind_flags_round_trip (bind_flags : Z) :
  D3D11.convert_resource_usage_to_bind_flags
    (D3D11.convert_bind_flags_to_resource_usage bind_flags 0) 0
  = Z.land bind_flags D3D11Flags.converted_bind_flags.
Proof.
  unfold D3D11Flags.converted_bind_flags.
  rewrite !Z.land_lor_distr_r.
  unfold D3D11.convert_bind_flags_to_resource_usage.
  change D3D11.D3D11_BIND_RENDER_TARGET with (2 ^ 5).
  change D3D11.D3D11_BIND_DEPTH_STENCIL with (2 ^ 6).
  change D3D11.D3D11_BIND_SHADER_RESOURCE with (2 ^ 3).
  change D3D11.D3D11_BIND_UNORDERED_ACCESS with (2 ^ 7).
  change D3D11.D3D11_BIND_INDEX_BUFFER with (2 ^ 1).
  change D3D11.D3D11_BIND_VERTEX_BUFFER with (2 ^ 0).
  change D3D11.D3D11_BIND_CONSTANT_BUFFER with (2 ^ 2).
  rewrite !has_flag_pow2, !land_pow2 by lia.
  destruct (Z.testbit bind_flags 5), (Z.testbit bind_flags 6),
    (Z.testbit bind_flags 3), (Z.testbit bind_flags 7),
    (Z.testbit bind_flags 1), (Z.testbit bind_flags 0),
    (Z.testbit bind_flags 2); vm_compute; reflexivity.
Qed.

(** X2.  Reading a native bind-flag word as a neutral usage and converting
    that usage again gives the word restricted to the seven bind flags the
    neutral model knows; any other bind flag (such as stream output) is
    dropped, and so are the copy bits that were added on the way. *)
Theorem bind_flags_survive_usage (bind_flags previous : Z) :
  D3D11.convert_resource_usage_to_bind_flags
    (D3D11.convert_bind_flags_to_resource_usage bind_flags 0) previous
  = Z.lor
      (Z.land previous (Z.lnot D3D11Flags.converted_bind_flags))
      (Z.land bind_flags D3D11Flags.converted_bind_flags).
Proof.
  rewrite <- bind_flags_round_trip.
  apply Z.bits_inj'. intros n Hn.
  unfold D3D11.convert_resource_usage_to_bind_flags,
    D3D11Flags.converted_bind_flags.
  rewrite Z.lor_spec, Z.land_spec, Z.lnot_spec by exact Hn.
  rewrite !testbit_set_or_clear, !Z.lor_spec, Z.bits_0 by exact Hn.
  destruct (Z.testbit D3D11.D3D11_BIND_RENDER_TARGET n),
    (Z.testbit D3D11.D3D11_BIND_DEPTH_STENCIL n),
    (Z.testbit D3D11.D3D11_BIND_SHADER_RESOURCE n),
    (Z.testbit D3D11.D3D11_BIND_UNORDERED_ACCESS n),
    (Z.testbit D3D11.D3D11_BIND_INDEX_BUFFER n),
    (Z.testbit D3D11.D3D11_BIND_VERTEX_BUFFER n),
    (Z.testbit D3D11.D3D11_BIND_CONSTANT_BUFFER n);
    simpl; rewrite ?andb_false_r, ?andb_true_r, ?orb_false_r;
    reflexivity.
Qed.

Lemma bind_flags_round_trip_resolve (bind_flags resolve : Z) :
  resolve = Api.resource_usage.resolve_dest
  \/ resolve = Api.resource_usage.resolve_source ->
  D3D11.convert_resource_usage_to_bind_flags
    (Z.lor (D3D11.convert_bind_flags_to_resource_usage bind_flags 0)
       resolve) 0
  = Z.land bind_flags D3D11Flags.converted_bind_flags.
Proof.
  intros Hresolve.
  unfold D3D11Flags.converted_bind_flags.
  rewrite !Z.land_lor_distr_r.
  unfold D3D11.convert_bind_flags_to_resource_usage.
  change D3D11.D3D11_BIND_RENDER_TARGET with (2 ^ 5).
  change D3D11.D3D11_BIND_DEPTH_STENCIL with (2 ^ 6).
  change D3D11.D3D11_BIND_SHADER_RESOURCE with (2 ^ 3).
  change D3D11.D3D11_BIND_UNORDERED_ACCESS with (2 ^ 7).
  change D3D11.D3D11_BIND_INDEX_BUFFER with (2 ^ 1).
  change D3D11.D3D11_BIND_VERTEX_BUFFER with (2 ^ 0).
  change D3D11.D3D11_BIND_CONSTANT_BUFFER with (2 ^ 2).
  rewrite !has_flag_pow2, !land_pow2 by lia.
  destruct Hresolve as [-> | ->];
    destruct (Z.testbit bind_flags 5), (Z.testbit bind_flags 6),
      (Z.testbit bind_flags 3), (Z.testbit bind_flags 7),
      (Z.testbit bind_flags 1), (Z.testbit bind_flags 0),
      (Z.testbit bind_flags 2); vm_compute; reflexivity.
Qed.

Lemma heap_round_trip (usage : Z) :
  D3D11Flags.native_usage_valid usage ->
  D3D11.convert_memory_heap_to_d3d_usage
    (D3D11.convert_d3d_usage_to_memory_heap usage
       Api.memory_heap_unknown) 0 0
  = (D3D11Flags.usage_read_back usage,
     D3D11Flags.cpu_access_of_usage usage).
Proof.
  intros [-> | [-> | [-> | ->]]]; reflexivity.
Qed.

Lemma convert_format_small (f : Z) :
  f < 1000 -> D3D11.convert_format_to_dxgi f = f.
Proof.
  intros H. unfold D3D11.convert_format_to_dxgi.
  destruct (Z.leb_spec 1000 f); [lia | reflexivity].
Qed.

(** X3.  A native buffer or texture description read into the neutral
    model and converted back keeps its sizes, mip levels, array size,
    format and sample count.  The usage comes back with
    [D3D11_USAGE_IMMUTABLE] turned into [D3D11_USAGE_DEFAULT], the bind
    flags restricted to the seven the neutral model knows, and the CPU
    access flags replaced by those the usage implies (write for dynamic,
    read for staging, none otherwise). *)
Theorem native_desc_round_trip (n : D3D11.native_desc) :
  D3D11Flags.native_valid n ->
  D3D11.to_native (D3D11.to_neutral n)
  = Some (D3D11Flags.native_read_back n).
Proof.
  destruct n as [d | d | d | d]; destruct d; simpl.
  - intros [Hw Hu].
    unfold D3D11.to_native, D3D11.convert_resource_desc_to_buffer. simpl.
    rewrite (heap_round_trip _ Hu), bind_flags_round_trip,
      (wrap32_small _ Hw).
    reflexivity.
  - intros (Hw & Hm & Ha & Hf & Hu).
    unfold D3D11.to_native, D3D11.convert_resource_desc_to_texture1d.
    simpl.
    rewrite (heap_round_trip _ Hu), bind_flags_round_trip,
      (wrap16_small _ Hm), (wrap16_small _ Ha).
    unfold D3D11.convert_format_from_dxgi.
    rewrite convert_format_small by lia.
    reflexivity.
  - intros (Hw & Hh & Hm & Ha & Hf & Hs & Hu).
    unfold D3D11.to_native, D3D11.convert_resource_desc_to_texture2d.
    simpl.
    rewrite (heap_round_trip _ Hu), (wrap16_small _ Hm),
      (wrap16_small _ Ha), (wrap16_small _ Hs).
    unfold D3D11.convert_format_from_dxgi.
    rewrite convert_format_small by lia.
    rewrite bind_flags_round_trip_resolve
      by (destruct (1 <? _); [right | left]; reflexivity).
    reflexivity.
  - intros (Hw & Hh & Hd & Hm & Hf & Hu).
    unfold D3D11.to_native, D3D11.convert_resource_desc_to_texture3d.
    simpl.
    rewrite (heap_round_trip _ Hu), bind_flags_round_trip,
      (wrap16_small _ Hd), (wrap16_small _ Hm).
    unfold D3D11.convert_format_from_dxgi.
    rewrite convert_format_small by lia.
    reflexivity.
Qed.

Lemma native_desc_round_trip_witness :
  D3D11Flags.native_valid D3D11Flags.application_texture
  /\ D3D11.to_native (D3D11.to_neutral D3D11Flags.application_texture)
     = Some (D3D11Flags.native_read_back D3D11Flags.application_texture).
Proof.
  assert (H : D3D11Flags.native_valid D3D11Flags.application_texture).
  { unfold D3D11Flags.native_valid, D3D11Flags.application_texture,
      D3D11Flags.native_usage_valid, is_u32, is_u16. simpl.
    repeat split; lia. }
  split; [exact H | exact (native_desc_round_trip _ H)].
Defined.

(** ** D3D11: resource view descriptions *)

Lemma convert_format_in_place (f : Z) :
  f < 1000 ->
  D3D11.convert_format_to_dxgi (D3D11.convert_format_from_dxgi f) = f.
Proof. intros H. apply convert_format_small. exact H. Qed.

Ltac by_dimension d :=
  repeat
    match goal with
    | |- context [d =? ?k] =>
      destruct (Z.eqb_spec d k) as [-> | ?]
    end.

(** A cube count too large for [NumCubes * 6] does not come back. *)
Lemma cube_count_lost (n : Z) :
  is_u32 n -> n <> 0xFFFFFFFF -> 2 ^ 32 <= n * 6 ->
  (if wrap32 (n * 6) =? 0xFFFFFFFF then 0xFFFFFFFF else wrap32 (n * 6) / 6)
  <> n.
Proof.
  unfold is_u32, wrap32. intros Hn Hall Hbig.
  assert (Hm : 0 <= (n * 6) mod 2 ^ 32 < 2 ^ 32)
    by (apply Z.mod_pos_bound; lia).
  destruct (Z.eqb_spec ((n * 6) mod 2 ^ 32) 0xFFFFFFFF) as [_ | _].
  - exact (fun H => Hall (eq_sym H)).
  - intros H.
    assert (Hq : (n * 6) mod 2 ^ 32 / 6 <= (2 ^ 32 - 1) / 6)
      by (apply Z.div_le_mono; lia).
    change ((2 ^ 32 - 1) / 6) with 715827882 in Hq. lia.
Qed.

Lemma cube_count_kept (n : Z) :
  is_u32 n -> n = 0xFFFFFFFF \/ n * 6 < 2 ^ 32 ->
  (if (if n =? 0xFFFFFFFF then 0xFFFFFFFF else wrap32 (n * 6))
      =? 0xFFFFFFFF
   then 0xFFFFFFFF
   else (if n =? 0xFFFFFFFF then 0xFFFFFFFF else wrap32 (n * 6)) / 6)
  = n.
Proof.
  unfold is_u32. intros Hn Hfits.
  destruct (Z.eqb_spec n 0xFFFFFFFF) as [-> | Hne]; [reflexivity|].
  destruct Hfits as [? | Hfits]; [contradiction|].
  unfold wrap32. rewrite Z.mod_small by lia.
  destruct (Z.eqb_spec (n * 6) 0xFFFFFFFF) as [Hodd | _]; [lia|].
  apply Z.div_mul. lia.
Qed.

(** X4.  A native shader resource view description that is read into the
    neutral model and written back over itself is unchanged, for every
    view dimension: those without a case (and [BUFFEREX], whose type is
    left unknown on purpose) are not touched, the others are reproduced
    member by member.  The one exception is a cube array view whose cube
    count times six leaves 32 bits: the description comes back unchanged
    exactly when the count is [0xFFFFFFFF] or its sixfold fits. *)
Theorem shader_resource_view_round_trip_in_place
    (internal_desc : D3D11Views.D3D11_SHADER_RESOURCE_VIEW_DESC) :
  D3D11Views.srv_wf internal_desc ->
  D3D11Views.convert_resource_view_desc_to_srv
    (D3D11Views.convert_resource_view_desc_from_srv internal_desc)
    internal_desc = internal_desc
  <-> D3D11Views.cubes_representable internal_desc.
Proof.
  destruct internal_desc as [f d u0 u1 u2 u3].
  unfold D3D11Views.srv_wf, D3D11Views.cubes_representable. simpl.
  intros (Hf & H0 & H1 & H2 & H3).
  assert (Hformat := convert_format_in_place f (proj2 Hf)).
  destruct (Z.eq_dec d D3D11Views.D3D11_SRV_DIMENSION_TEXTURECUBEARRAY)
    as [-> | Hd].
  - unfold D3D11Views.convert_resource_view_desc_from_srv,
      D3D11Views.convert_resource_view_desc_to_srv. simpl.
    rewrite Hformat. split.
    + intros Hsame _.
      destruct (Z.eq_dec u3 0xFFFFFFFF) as [| Hall]; [left; assumption|].
      right. destruct (Z.lt_ge_cases (u3 * 6) (2 ^ 32)) as [| Hbig];
        [assumption|].
      exfalso. apply (cube_count_lost u3 H3 Hall Hbig).
      destruct (Z.eqb_spec u3 0xFFFFFFFF) as [| _]; [contradiction|].
      congruence.
    + intros Hfits. rewrite (cube_count_kept u3 H3 (Hfits eq_refl)).
      reflexivity.
  - split; [intros _ Habs; contradiction|]. intros _.
    unfold D3D11Views.convert_resource_view_desc_from_srv. simpl.
    by_dimension d; simpl;
      unfold D3D11Views.convert_resource_view_desc_to_srv; simpl;
      rewrite ?Hformat, ?wrap32_small by assumption;
      try reflexivity.
    contradiction.
Qed.

Lemma shader_resource_view_round_trip_in_place_witness :
  D3D11Views.srv_wf D3D11Views.raw_buffer_view
  /\ (D3D11Views.convert_resource_view_desc_to_srv
        (D3D11Views.convert_resource_view_desc_from_srv
           D3D11Views.raw_buffer_view)
        D3D11Views.raw_buffer_view = D3D11Views.raw_buffer_view
      <-> D3D11Views.cubes_representable D3D11Views.raw_buffer_view).
Proof.
  assert (H : D3D11Views.srv_wf D3D11Views.raw_buffer_view).
  { unfold D3D11Views.srv_wf, is_u32. simpl. lia. }
  split; [exact H|].
  exact (shader_resource_view_round_trip_in_place _ H).
Defined.

(** A cube array view of 715827883 cubes reads back as one of no cube. *)
Example oversized_cube_array_view_is_lost :
  D3D11Views.srv_3
    (D3D11Views.convert_resource_view_desc_to_srv
       (D3D11Views.convert_resource_view_desc_from_srv
          D3D11Views.oversized_cube_array_view)
       D3D11Views.oversized_cube_array_view) = 0.
Proof. reflexivity. Qed.

(** X5.  A neutral shader resource view description (of a type other
    than unknown, format below 1000, members within their C++ types and
    the buffer range within 32 bits as asserted) written to a native
    description and read back keeps its type and format, the buffer
    offset and size of a buffer view, the first level and level count of
    every view that has mipmap levels, and the first layer and layer
    count of the array views.  A cube array view keeps its first layer,
    and its layer count is rounded down to a multiple of six unless it is
    [0xFFFFFFFF]. *)
Theorem shader_resource_view_round_trip
    (desc : D3D11Views.resource_view_desc)
    (internal_desc : D3D11Views.D3D11_SHADER_RESOURCE_VIEW_DESC) :
  D3D11Views.type desc <> D3D11Views.resource_view_type.unknown ->
  D3D11Views.format desc < 1000 ->
  is_u32 (D3D11Views.buffer_offset desc) ->
  is_u32 (D3D11Views.buffer_size desc) ->
  is_u32 (D3D11Views.texture_layers desc) ->
  let back :=
    D3D11Views.convert_resource_view_desc_from_srv
      (D3D11Views.convert_resource_view_desc_to_srv desc internal_desc) in
  D3D11Views.type back = D3D11Views.type desc
  /\ D3D11Views.format back = D3D11Views.format desc
  /\ (D3D11Views.type desc = D3D11Views.resource_view_type.buffer ->
      D3D11Views.buffer_offset back = D3D11Views.buffer_offset desc
      /\ D3D11Views.buffer_size back = D3D11Views.buffer_size desc)
  /\ (D3D11Views.srv_has_levels (D3D11Views.type desc) = true ->
      D3D11Views.texture_first_level back
      = D3D11Views.texture_first_level desc
      /\ D3D11Views.texture_levels back = D3D11Views.texture_levels desc)
  /\ (D3D11Views.srv_has_layers (D3D11Views.type desc) = true ->
      D3D11Views.texture_first_layer back
      = D3D11Views.texture_first_layer desc
      /\ D3D11Views.texture_layers back = D3D11Views.texture_layers desc)
  /\ (D3D11Views.type desc
      = D3D11Views.resource_view_type.texture_cube_array ->
      D3D11Views.texture_first_layer back
      = D3D11Views.texture_first_layer desc
      /\ D3D11Views.texture_layers back
         = if D3D11Views.texture_layers desc =? 0xFFFFFFFF
           then 0xFFFFFFFF
           else 6 * (D3D11Views.texture_layers desc / 6)).
Proof.
  destruct desc as [t f off size fl lv fla la]. simpl.
  intros Ht Hf Hoff Hsize Hla.
  assert (Hformat : D3D11.convert_format_from_dxgi
                      (D3D11.convert_format_to_dxgi f) = f)
    by (unfold D3D11.convert_format_from_dxgi;
        apply convert_format_small; exact Hf).
  destruct t; try contradiction;
    unfold D3D11Views.convert_resource_view_desc_to_srv,
      D3D11Views.convert_resource_view_desc_from_srv; simpl;
    rewrite Hformat, ?wrap32_small by assumption;
    repeat split; try reflexivity; try discriminate.
  unfold is_u32 in Hla.
  destruct (Z.eqb_spec la 0xFFFFFFFF) as [-> | Hne]; [reflexivity|].
  assert (Hq : 0 <= la / 6 <= (2 ^ 32 - 1) / 6)
    by (split; [apply Z.div_pos | apply Z.div_le_mono]; lia).
  change ((2 ^ 32 - 1) / 6) with 715827882 in Hq.
  destruct (Z.eqb_spec (la / 6) 0xFFFFFFFF) as [Habs | _]; [lia|].
  rewrite wrap32_small by (unfold is_u32; lia). lia.
Qed.

Lemma shader_resource_view_round_trip_witness :
  D3D11Views.texture_layers
    (D3D11Views.convert_resource_view_desc_from_srv
       (D3D11Views.convert_resource_view_desc_to_srv
          D3D11Views.eleven_layers_view D3D11Views.raw_buffer_view)) = 6.
Proof.
  assert (Ht : D3D11Views.type D3D11Views.eleven_layers_view
               <> D3D11Views.resource_view_type.unknown)
    by discriminate.
  assert (Hf : D3D11Views.format D3D11Views.eleven_layers_view < 1000)
    by (simpl; lia).
  assert (H0 : is_u32 (D3D11Views.buffer_offset
                         D3D11Views.eleven_layers_view))
    by (unfold is_u32; simpl; lia).
  assert (H1 : is_u32 (D3D11Views.texture_layers
                         D3D11Views.eleven_layers_view))
    by (unfold is_u32; simpl; lia).
  exact (proj2 (proj2 (proj2 (proj2 (proj2 (proj2
    (shader_resource_view_round_trip D3D11Views.eleven_layers_view
       D3D11Views.raw_buffer_view Ht Hf H0 H0 H1))))) eq_refl)).
Defined.

(** X6.  A native render target, depth-stencil or unordered access view
    description that is read into the neutral model and written back over
    itself is unchanged, whatever its view dimension, and the neutral
    description in between satisfies the assertion of the conversion that
    writes it back (one mipmap level; not a buffer for render target and
    depth-stencil views). *)
Theorem output_view_round_trip_in_place :
  (forall n : D3D11Views.D3D11_RENDER_TARGET_VIEW_DESC,
     D3D11Views.rtv_Format n < 1000 ->
     D3D11Views.asserts_texture_view
       (D3D11Views.convert_resource_view_desc_from_rtv n)
     /\ D3D11Views.convert_resource_view_desc_to_rtv
          (D3D11Views.convert_resource_view_desc_from_rtv n) n = n)
  /\ (forall n : D3D11Views.D3D11_DEPTH_STENCIL_VIEW_DESC,
        D3D11Views.dsv_Format n < 1000 ->
        D3D11Views.asserts_texture_view
          (D3D11Views.convert_resource_view_desc_from_dsv n)
        /\ D3D11Views.convert_resource_view_desc_to_dsv
             (D3D11Views.convert_resource_view_desc_from_dsv n) n = n)
  /\ (forall n : D3D11Views.D3D11_UNORDERED_ACCESS_VIEW_DESC,
        D3D11Views.uav_Format n < 1000 ->
        is_u32 (D3D11Views.uav_0 n) -> is_u32 (D3D11Views.uav_1 n) ->
        D3D11Views.asserts_unordered_access_view
          (D3D11Views.convert_resource_view_desc_from_uav n)
        /\ D3D11Views.convert_resource_view_desc_to_uav
             (D3D11Views.convert_resource_view_desc_from_uav n) n = n).
Proof.
  split; [|split].
  - intros [f d u0 u1 u2]. simpl. intros Hf.
    assert (Hformat := convert_format_in_place f Hf).
    unfold D3D11Views.convert_resource_view_desc_from_rtv,
      D3D11Views.asserts_texture_view. simpl.
    by_dimension d; simpl;
      unfold D3D11Views.convert_resource_view_desc_to_rtv; simpl;
      rewrite Hformat; repeat split; discriminate.
  - intros [f d fl u0 u1 u2]. simpl. intros Hf.
    assert (Hformat := convert_format_in_place f Hf).
    unfold D3D11Views.convert_resource_view_desc_from_dsv,
      D3D11Views.asserts_texture_view. simpl.
    by_dimension d; simpl;
      unfold D3D11Views.convert_resource_view_desc_to_dsv; simpl;
      rewrite Hformat; repeat split; discriminate.
  - intros [f d u0 u1 u2]. simpl. intros Hf H0 H1.
    assert (Hformat := convert_format_in_place f Hf).
    unfold D3D11Views.convert_resource_view_desc_from_uav,
      D3D11Views.asserts_unordered_access_view. simpl.
    by_dimension d; simpl;
      unfold D3D11Views.convert_resource_view_desc_to_uav; simpl;
      rewrite Hformat, ?wrap32_small by assumption;
      (split; [first [left; reflexivity | right; reflexivity]
              | reflexivity]).
Qed.

Lemma output_view_round_trip_in_place_witness :
  D3D11Views.convert_resource_view_desc_to_uav
    (D3D11Views.convert_resource_view_desc_from_uav
       (D3D11Views.mk_uav 41 D3D11Views.D3D11_UAV_DIMENSION_BUFFER 16 64 1))
    (D3D11Views.mk_uav 41 D3D11Views.D3D11_UAV_DIMENSION_BUFFER 16 64 1)
  = D3D11Views.mk_uav 41 D3D11Views.D3D11_UAV_DIMENSION_BUFFER 16 64 1.
Proof.
  refine (proj2 (proj2 (proj2 output_view_round_trip_in_place)
    (D3D11Views.mk_uav 41 D3D11Views.D3D11_UAV_DIMENSION_BUFFER 16 64 1)
    _ _ _)); unfold is_u32; simpl; lia.
Defined.

(** ** D3D10: the references the device holds on native objects *)

Section D3D10_references.

Variables sampler_desc resource_view_desc query_type : Set.

Abbreviation native_call :=
  (D3D10.native_call sampler_desc resource_view_desc query_type).
Abbreviation world :=
  (D3D10.world sampler_desc resource_view_desc query_type).

Variable driver : list native_call -> native_call -> option Z.

Abbreviation M := (D3D10.M sampler_desc resource_view_desc query_type).
Abbreviation native := (D3D10.native _ _ _ driver).
Abbreviation release_all :=
  (D3D10.release_all sampler_desc resource_view_desc query_type).
Abbreviation reference_change :=
  (D3D10References.reference_change _ _ _ driver).
Abbreviation references := (D3D10References.references _ _ _ driver).
Abbreviation held := (D3D10References.held _ _ _ driver).
Abbreviation occurrences := D3D10References.occurrences.
Abbreviation same_records :=
  (D3D10References.same_records sampler_desc resource_view_desc
     query_type).
Abbreviation hands_out :=
  (D3D10References.hands_out sampler_desc resource_view_desc query_type).
Abbreviation accounted := (D3D10References.accounted _ _ _ driver).
Abbreviation pipeline_post := (D3D10References.pipeline_post _ _ _ driver).
Abbreviation create_graphics_pipeline :=
  (D3D10.create_graphics_pipeline _ _ _ driver).
Abbreviation destroy_pipeline :=
  (D3D10.destroy_pipeline sampler_desc resource_view_desc query_type).
Abbreviation create_query_pool := (D3D10.create_query_pool _ _ _ driver).
Abbreviation destroy_query_pool :=
  (D3D10.destroy_query_pool sampler_desc resource_view_desc query_type).

Lemma references_app (h a b : list native_call) (o : Z) :
  references h (a ++ b) o = references h a o + references (h ++ a) b o.
Proof.
  revert h. induction a as [|c a IH]; intros h; simpl.
  - rewrite app_nil_r. reflexivity.
  - rewrite IH, <- app_assoc. simpl. lia.
Qed.

Lemma references_snoc (l : list native_call) (c : native_call) (o : Z) :
  references [] (l ++ [c]) o = references [] l o + reference_change l c o.
Proof. rewrite references_app. simpl. lia. Qed.

Lemma reference_change_hands_out (h : list native_call) (c : native_call)
    (o : Z) :
  hands_out c = true ->
  reference_change h c o
  = match driver h c with
    | Some created => if created =? o then 1 else 0
    | None => 0
    end.
Proof. destruct c; simpl; intros H; try reflexivity; discriminate H. Qed.

Lemma native_spec (c : native_call) (w : world) :
  same_records w (snd (native c w))
  /\ fst (native c w) = driver (D3D10.calls w) c
  /\ forall o,
       held (snd (native c w)) o
       = held w o + reference_change (D3D10.calls w) c o.
Proof.
  unfold D3D10.native, same_records, D3D10References.held. simpl.
  repeat split. intros o. apply references_snoc.
Qed.

Lemma release_spec (object : Z) (w : world) :
  same_records w (snd (D3D10.release _ _ _ object w))
  /\ forall o,
       held (snd (D3D10.release _ _ _ object w)) o
       = held w o - (if object =? o then 1 else 0).
Proof.
  unfold D3D10.release, same_records, D3D10References.held. simpl.
  repeat split. intros o. rewrite references_snoc. simpl.
  destruct (object =? o); lia.
Qed.

Lemma release_all_spec (objects : list Z) (w : world) :
  same_records w (snd (release_all objects w))
  /\ forall o, o <> 0 ->
       held (snd (release_all objects w)) o
       = held w o - occurrences o objects.
Proof.
  revert w. induction objects as [|object rest IH]; intros w; simpl.
  - unfold D3D10References.same_records, D3D10.ret. simpl.
    repeat split. intros o _. lia.
  - unfold D3D10.bind.
    destruct (Z.eqb_spec object 0) as [-> | Hobject].
    + unfold D3D10.ret at 1. simpl.
      destruct (IH w) as [Hsame Hheld]. split; [exact Hsame|].
      intros o Ho. rewrite (Hheld o Ho).
      destruct o; [congruence | simpl; lia | simpl; lia].
    + destruct (release_spec object w) as [[Hh Ha] Hone].
      destruct (D3D10.release _ _ _ object w) as [[] w1]. simpl in *.
      destruct (IH w1) as [[Hh' Ha'] Hheld]. split.
      * split; congruence.
      * intros o Ho. rewrite (Hheld o Ho), Hone. lia.
Qed.

Lemma create_from_accounted (call : native_call) (out_handle : Z) :
  hands_out call = true ->
  accounted (D3D10.create_from _ _ _ driver call out_handle).
Proof.
  intros Hcall w. unfold D3D10.create_from, D3D10.bind.
  destruct (native_spec call w) as (Hsame & Hr & Hheld).
  destruct (native call w) as [r w1]. simpl in *. subst r.
  split.
  - destruct (driver (D3D10.calls w) call); exact Hsame.
  - intros o _. specialize (Hheld o).
    rewrite (reference_change_hands_out _ _ _ Hcall) in Hheld.
    destruct (driver (D3D10.calls w) call); simpl; rewrite Hheld; lia.
Qed.

Lemma create_input_layout_accounted (desc : D3D10.pipeline_desc)
    (out_handle : Z) :
  accounted (D3D10.create_input_layout _ _ _ driver desc out_handle).
Proof.
  unfold D3D10.create_input_layout.
  destruct (D3D10.input_layout_elements desc =? 0).
  - intros w. unfold D3D10.ret, same_records. simpl.
    repeat split. intros o Ho.
    destruct o; [congruence | simpl; lia | simpl; lia].
  - apply create_from_accounted. reflexivity.
Qed.

Lemma create_state_object_spec
    (create : D3D10.pipeline_desc -> Z -> M (bool * Z))
    (condition : bool) (desc : D3D10.pipeline_desc) (w : world) :
  (forall h, accounted (create desc h)) ->
  let res := D3D10.create_state_object _ _ _ create condition desc w in
  same_records w (snd res)
  /\ forall o, o <> 0 ->
       held (snd res) o
       = held w o
         + match fst res with
           | Some created => if created =? o then 1 else 0
           | None => 0
           end.
Proof.
  intros Hcreate. unfold D3D10.create_state_object.
  destruct condition; simpl.
  - unfold D3D10.bind. destruct (Hcreate 0 w) as [Hsame Hheld].
    destruct (create desc 0 w) as [[ok object] w1]. simpl in *.
    split; [exact Hsame|]. intros o Ho. rewrite (Hheld o Ho).
    destruct ok; reflexivity.
  - unfold D3D10.ret, same_records. simpl. repeat split.
    intros o Ho. destruct o; [congruence | simpl; lia | simpl; lia].
Qed.

Lemma pipeline_stage_spec
    (create : D3D10.pipeline_desc -> Z -> M (bool * Z))
    (condition : bool) (desc : D3D10.pipeline_desc)
    (constructed : list Z) (k : Z -> M (bool * Z)) (w0 w : world) :
  (forall h, accounted (create desc h)) ->
  same_records w0 w ->
  (forall o, o <> 0 -> held w o = held w0 o + occurrences o constructed) ->
  (forall x w1,
     same_records w0 w1 ->
     (forall o, o <> 0 ->
        held w1 o = held w0 o + occurrences o (x :: constructed)) ->
     pipeline_post w0 (k x w1)) ->
  pipeline_post w0
    (D3D10.bind _ _ _
       (D3D10.create_state_object _ _ _ create condition desc)
       (fun r => D3D10.or_return_false _ _ _ constructed r k) w).
Proof.
  intros Hcreate [Hh Ha] Hheld Hk. unfold D3D10.bind.
  destruct (create_state_object_spec create condition desc w Hcreate)
    as [[Hh1 Ha1] Hheld1].
  destruct (D3D10.create_state_object _ _ _ create condition desc w)
    as [r w1].
  simpl in *. destruct r as [x|]; simpl.
  - apply Hk.
    + split; congruence.
    + intros o Ho. rewrite (Hheld1 o Ho), (Hheld o Ho). simpl. lia.
  - unfold D3D10.bind.
    destruct (release_all_spec constructed w1) as [[Hh2 Ha2] Hheld2].
    destruct (release_all constructed w1) as [[] w2]. simpl in *.
    unfold D3D10References.pipeline_post. simpl. split.
    + split; congruence.
    + intros o Ho.
      rewrite (Hheld2 o Ho), (Hheld1 o Ho), (Hheld o Ho). lia.
Qed.

Lemma create_graphics_pipeline_post (desc : D3D10.pipeline_desc)
    (out_handle : Z) (w : world) :
  pipeline_post w (create_graphics_pipeline desc out_handle w).
Proof.
  unfold D3D10.create_graphics_pipeline.
  destruct (_ || _).
  { unfold D3D10References.pipeline_post, D3D10.ret, same_records.
    simpl. auto. }
  apply pipeline_stage_spec;
    [intros h; apply create_from_accounted; reflexivity
    | split; reflexivity | intros o _; simpl; lia |].
  intros x1 w1 Hs1 Hheld1.
  apply pipeline_stage_spec;
    [intros h; apply create_from_accounted; reflexivity
    | exact Hs1 | exact Hheld1 |].
  intros x2 w2 Hs2 Hheld2.
  apply pipeline_stage_spec;
    [intros h; apply create_from_accounted; reflexivity
    | exact Hs2 | exact Hheld2 |].
  intros x3 w3 Hs3 Hheld3.
  apply pipeline_stage_spec;
    [intros h; apply create_input_layout_accounted
    | exact Hs3 | exact Hheld3 |].
  intros x4 w4 Hs4 Hheld4.
  apply pipeline_stage_spec;
    [intros h; apply create_from_accounted; reflexivity
    | exact Hs4 | exact Hheld4 |].
  intros x5 w5 Hs5 Hheld5.
  apply pipeline_stage_spec;
    [intros h; apply create_from_accounted; reflexivity
    | exact Hs5 | exact Hheld5 |].
  intros x6 w6 Hs6 Hheld6.
  apply pipeline_stage_spec;
    [intros h; apply create_from_accounted; reflexivity
    | exact Hs6 | exact Hheld6 |].
  intros x7 w7 [Hh7 Ha7] Hheld7.
  unfold D3D10References.pipeline_post, D3D10.bind, D3D10.new, D3D10.ret.
  simpl.
  eexists. rewrite Ha7, Hh7. split; [reflexivity|].
  split; [reflexivity|]. exact Hheld7.
Qed.

Lemma tagged_handle (n : nat) :
  let p := 2 * (Z.of_nat n + 1) in
  Z.land (Z.lor p 1) 1 = 1 /\ Z.lxor (Z.lor p 1) 1 = p
  /\ Z.lor p 1 - 1 = p.
Proof using Type.
  intros p.
  assert (Heven : Z.land p 1 = 0).
  { change 1 with (Z.ones 1). rewrite Z.land_ones by lia.
    unfold p. change (2 ^ 1) with 2.
    rewrite Z.mul_comm. apply Z.mod_mul. lia. }
  assert (Hp : Z.lor p 1 = p + 1).
  { pose proof (Z.add_lor_land p 1) as H. rewrite Heven in H. lia. }
  assert (Hx : Z.lxor p 1 = p + 1).
  { symmetry. apply Z.add_nocarry_lxor. exact Heven. }
  rewrite Hp. repeat split; [| | lia].
  - change 1 with (Z.ones 1) at 2. rewrite Z.land_ones by lia.
    unfold p. change (2 ^ 1) with 2.
    rewrite Z.add_comm, Z.mul_comm, Z.mod_add by lia. reflexivity.
  - rewrite <- Hx, Z.lxor_assoc, Z.lxor_nilpotent. apply Z.lxor_0_r.
Qed.

(** X7.  When [create_graphics_pipeline] fails, whichever state object
    the driver refused, it leaves no record behind and holds no reference
    it did not hold before: every object it had created on the way is
    released again. *)
Theorem create_graphics_pipeline_failure_releases_all
    (desc : D3D10.pipeline_desc) (out_handle : Z) (w : world) :
  let res := create_graphics_pipeline desc out_handle w in
  fst (fst res) = false ->
  D3D10.heap (snd res) = D3D10.heap w
  /\ D3D10.allocations (snd res) = D3D10.allocations w
  /\ forall o, o <> 0 -> held (snd res) o = held w o.
Proof.
  intros res Hfail.
  pose proof (create_graphics_pipeline_post desc out_handle w) as Hpost.
  unfold D3D10References.pipeline_post in Hpost. fold res in Hpost.
  rewrite Hfail in Hpost. destruct Hpost as [[Hh Ha] Hheld]. auto.
Qed.

(** X8.  A pipeline created by [create_graphics_pipeline] is undone by
    [destroy_pipeline]: the handle is recognised as a tagged record, every
    reference taken for the pipeline is released, and the record behind
    the handle is gone while all other records are as before the
    creation. *)
Theorem destroy_pipeline_undoes_create_graphics_pipeline
    (desc : D3D10.pipeline_desc) (out_handle : Z) (w : world) :
  let res := create_graphics_pipeline desc out_handle w in
  fst (fst res) = true ->
  let w' := snd (destroy_pipeline (snd (fst res)) (snd res)) in
  D3D10.heap w' = delete (snd (fst res) - 1) (D3D10.heap w)
  /\ forall o, o <> 0 -> held w' o = held w o.
Proof.
  intros res Hok.
  pose proof (create_graphics_pipeline_post desc out_handle w) as Hpost.
  unfold D3D10References.pipeline_post in Hpost. fold res in Hpost.
  rewrite Hok in Hpost. destruct Hpost as (impl & Hhandle & Hheap & Hheld).
  destruct (tagged_handle (D3D10.allocations w)) as (Hland & Hlxor & Hsub).
  rewrite Hhandle. unfold D3D10.destroy_pipeline.
  rewrite Hland, Hlxor, Hsub. change (negb (1 =? 0)) with true.
  unfold D3D10.delete_pipeline_impl, D3D10.bind, D3D10.load.
  cbv beta iota. cbn [fst snd]. rewrite Hheap, lookup_insert_eq.
  change [D3D10.depth_stencil_state impl; D3D10.rasterizer_state impl;
          D3D10.blend_state impl; D3D10.input_layout impl;
          D3D10.ps impl; D3D10.gs impl; D3D10.vs impl]
    with (D3D10References.pipeline_members impl).
  pose proof (release_all_spec (D3D10References.pipeline_members impl)
                (snd res)) as [[Hh Ha] Hrel].
  destruct (release_all (D3D10References.pipeline_members impl) (snd res))
    as [[] w1].
  cbn [fst snd] in *. unfold D3D10.free. cbn [snd D3D10.heap].
  split.
  - rewrite Hh, Hheap. apply delete_insert_eq.
  - intros o Ho. unfold D3D10References.held in *. cbn [D3D10.calls].
    rewrite (Hrel o Ho), (Hheld o Ho). lia.
Qed.

Lemma occurrences_app (o : Z) (a b : list Z) :
  occurrences o (a ++ b) = occurrences o a + occurrences o b.
Proof using Type.
  induction a as [|x a IH]; simpl; [reflexivity | rewrite IH; lia].
Qed.

Lemma create_queries_spec (type : query_type) (n : nat)
    (created : list Z) (w : world) :
  let res := D3D10.create_queries _ _ _ driver type n created w in
  same_records w (snd res)
  /\ match fst res with
     | inl queries =>
       length queries = (length created + n)%nat
       /\ forall o, o <> 0 ->
            held (snd res) o
            = held w o + occurrences o queries - occurrences o created
     | inr kept =>
       forall o, o <> 0 ->
         held (snd res) o
         = held w o + occurrences o kept - occurrences o created
     end.
Proof.
  revert created w. induction n as [|n IH]; intros created w; simpl.
  - unfold D3D10.ret, same_records. simpl.
    repeat split; [lia | intros o _; lia].
  - unfold D3D10.bind.
    destruct (native_spec (D3D10.CreateQuery _ _ _ type) w)
      as ([Hh Ha] & Hr & Hheld).
    destruct (native (D3D10.CreateQuery _ _ _ type) w) as [r w1].
    cbn [fst snd] in *. subst r.
    destruct (driver (D3D10.calls w) (D3D10.CreateQuery _ _ _ type))
      as [query|] eqn:Hdriver.
    + destruct (IH (created ++ [query]) w1) as [[Hh' Ha'] Hrest].
      split; [split; congruence|].
      destruct (D3D10.create_queries _ _ _ driver type n
                  (created ++ [query]) w1) as [[queries | kept] w2];
        cbn [fst snd] in *.
      * destruct Hrest as [Hlen Hrest]. split.
        -- rewrite Hlen, length_app. simpl. lia.
        -- intros o Ho. rewrite (Hrest o Ho), Hheld, occurrences_app.
           simpl. rewrite Hdriver. lia.
      * intros o Ho. rewrite (Hrest o Ho), Hheld, occurrences_app.
        simpl. rewrite Hdriver. lia.
    + unfold D3D10.ret. cbn [fst snd].
      split; [split; congruence|].
      intros o _. rewrite Hheld. simpl. rewrite Hdriver. lia.
Qed.

(** X9.  [create_query_pool] either fails, and then the pool record is
    freed again, the queries created before the failing one are released
    and the handle is zero; or it succeeds, and then the handle is the
    record, the record holds exactly [size] queries, and
    [destroy_query_pool] releases every one of them and frees the
    record. *)
Theorem create_query_pool_accounting (type : query_type) (size : Z)
    (out_handle : Z) (w : world) :
  let res := create_query_pool type size out_handle w in
  let p := 2 * (Z.of_nat (D3D10.allocations w) + 1) in
  if fst (fst res) then
    snd (fst res) = p
    /\ exists queries,
         D3D10.heap (snd res)
         = <[p := D3D10.obj_query_pool queries]> (D3D10.heap w)
         /\ length queries = Z.to_nat size
         /\ let w' := snd (destroy_query_pool p (snd res)) in
            D3D10.heap w' = delete p (D3D10.heap w)
            /\ forall o, o <> 0 -> held w' o = held w o
  else
    snd (fst res) = 0
    /\ D3D10.heap (snd res) = delete p (D3D10.heap w)
    /\ forall o, o <> 0 -> held (snd res) o = held w o.
Proof.
  intros res p. subst res.
  unfold D3D10.create_query_pool, D3D10.bind, D3D10.new.
  cbv beta iota. fold p.
  set (w0 := {| D3D10.calls := D3D10.calls w;
                D3D10.heap := <[p := _]> (D3D10.heap w);
                D3D10.allocations := S (D3D10.allocations w) |}).
  destruct (create_queries_spec type (Z.to_nat size) [] w0)
    as [[Hh Ha] Hres].
  destruct (D3D10.create_queries _ _ _ driver type (Z.to_nat size) [] w0)
    as [[queries | kept] w1]; cbn [fst snd] in *.
  - destruct Hres as [Hlen Hheld].
    unfold D3D10.store, D3D10.ret. cbn [fst snd D3D10.heap].
    split; [reflexivity|]. exists queries.
    rewrite Hh. unfold w0 at 1. cbn [D3D10.heap].
    rewrite insert_insert_eq. split; [reflexivity|].
    split; [simpl in Hlen; exact Hlen|].
    unfold D3D10.destroy_query_pool, D3D10.bind, D3D10.load.
    cbn [fst snd D3D10.heap]. rewrite lookup_insert_eq.
    match goal with
    | |- context [release_all queries ?w2] =>
      pose proof (release_all_spec queries w2) as [[Hh2 Ha2] Hrel];
      destruct (release_all queries w2) as [[] w3]
    end.
    cbn [fst snd D3D10.heap D3D10.calls] in *. unfold D3D10.free.
    cbn [snd D3D10.heap]. split.
    + rewrite Hh2. unfold w0. cbn [D3D10.heap].
      rewrite delete_insert_eq. apply delete_insert_eq.
    + intros o Ho. unfold D3D10References.held in *.
      cbn [D3D10.calls] in *.
      rewrite (Hrel o Ho), (Hheld o Ho). simpl. lia.
  - pose proof (release_all_spec kept w1) as [[Hh2 Ha2] Hrel].
    destruct (release_all kept w1) as [[] w2].
    cbn [fst snd] in *. unfold D3D10.free, D3D10.ret.
    cbn [fst snd D3D10.heap]. split; [reflexivity|]. split.
    + rewrite Hh2, Hh. unfold w0. cbn [D3D10.heap].
      apply delete_insert_eq.
    + intros o Ho. unfold D3D10References.held in *.
      cbn [D3D10.calls] in *.
      rewrite (Hrel o Ho), (Hres o Ho). simpl. lia.
Qed.

Variables resource_flags_shared resource_flags_shared_nt_handle : Z.

Abbreviation create_resource :=
  (D3D10.create_resource _ _ _ resource_flags_shared
     resource_flags_shared_nt_handle driver).

Lemma get_shared_resource_spec (object : Z) (w : world) :
  let res := D3D10.get_shared_resource _ _ _ driver object w in
  same_records w (snd res)
  /\ forall o, o <> 0 -> held (snd res) o = held w o.
Proof.
  unfold D3D10.get_shared_resource, D3D10.bind.
  destruct (native_spec (D3D10.QueryInterface_IDXGIResource _ _ _ object) w)
    as ([Hh Ha] & Hr & Hheld).
  destruct (native (D3D10.QueryInterface_IDXGIResource _ _ _ object) w)
    as [qi w1].
  cbn [fst snd] in *. subst qi.
  destruct (driver (D3D10.calls w)
              (D3D10.QueryInterface_IDXGIResource _ _ _ object))
    as [object_dxgi|] eqn:Hdriver.
  - destruct (native_spec (D3D10.GetSharedHandle _ _ _ object_dxgi) w1)
      as ([Hh1 Ha1] & _ & Hheld1).
    destruct (native (D3D10.GetSharedHandle _ _ _ object_dxgi) w1)
      as [r w2].
    cbn [fst snd] in *.
    pose proof (release_all_spec [object_dxgi] w2) as [[Hh2 Ha2] Hrel].
    destruct (release_all [object_dxgi] w2) as [[] w3].
    unfold D3D10.ret. cbn [fst snd] in *.
    split; [split; congruence|].
    intros o Ho. rewrite (Hrel o Ho), Hheld1, Hheld. simpl.
    rewrite Hdriver. lia.
  - unfold D3D10.ret. cbn [fst snd].
    split; [split; congruence|].
    intros o _. rewrite Hheld. simpl. rewrite Hdriver. lia.
Qed.

Lemma create_native_resource_spec (create : native_call)
    (is_shared : bool) (shared_handle : option Z) (w : world) :
  hands_out create = true ->
  let res :=
    D3D10.create_native_resource _ _ _ driver create is_shared
      shared_handle w in
  same_records w (snd res)
  /\ forall o, o <> 0 ->
       held (snd res) o
       = held w o
         + match fst res with
           | Some (object, _) => if object =? o then 1 else 0
           | None => 0
           end.
Proof.
  intros Hcreate. unfold D3D10.create_native_resource, D3D10.bind.
  destruct (native_spec create w) as ([Hh Ha] & Hr & Hheld).
  destruct (native create w) as [r w1].
  cbn [fst snd] in *. subst r.
  assert (Hchange := fun o => reference_change_hands_out
                                (D3D10.calls w) create o Hcreate).
  destruct (driver (D3D10.calls w) create) as [object|].
  - destruct is_shared.
    + destruct (get_shared_resource_spec object w1) as [[Hh1 Ha1] Hheld1].
      destruct (D3D10.get_shared_resource _ _ _ driver object w1)
        as [gs w2].
      cbn [fst snd] in *. destruct gs as [h|].
      * unfold D3D10.ret. cbn [fst snd].
        split; [split; congruence|].
        intros o Ho. rewrite (Hheld1 o Ho), Hheld, Hchange. reflexivity.
      * pose proof (release_all_spec [object] w2) as [[Hh2 Ha2] Hrel].
        destruct (release_all [object] w2) as [[] w3].
        unfold D3D10.ret. cbn [fst snd] in *.
        split; [split; congruence|].
        intros o Ho.
        rewrite (Hrel o Ho), (Hheld1 o Ho), Hheld, Hchange. simpl. lia.
    + unfold D3D10.ret. cbn [fst snd].
      split; [split; congruence|].
      intros o _. rewrite Hheld, Hchange. reflexivity.
  - unfold D3D10.ret. cbn [fst snd].
    split; [split; congruence|].
    intros o _. rewrite Hheld, Hchange. lia.
Qed.

(** X10.  [create_resource] allocates no record, and the references it
    takes on native objects are exactly one on the resource it returns
    when it succeeds and none when it fails; in particular a resource
    whose shared handle cannot be obtained is released again, and so is
    the [IDXGIResource] interface queried for it. *)
Theorem create_resource_accounting (desc : Api.resource_desc)
    (initial_data initial_state out_handle : Z)
    (shared_handle : option Z) (w : world) :
  let res :=
    create_resource desc initial_data initial_state out_handle
      shared_handle w in
  D3D10.heap (snd res) = D3D10.heap w
  /\ D3D10.allocations (snd res) = D3D10.allocations w
  /\ forall o, o <> 0 ->
       held (snd res) o
       = held w o
         + (if fst (fst (fst res))
            then (if snd (fst (fst res)) =? o then 1 else 0) else 0).
Proof.
  assert (Hnothing :
    forall (r : bool * Z * option Z), fst (fst r) = false ->
      D3D10.heap (snd (D3D10.ret _ _ _ r w)) = D3D10.heap w
      /\ D3D10.allocations (snd (D3D10.ret _ _ _ r w)) = D3D10.allocations w
      /\ forall o, o <> 0 ->
           held (snd (D3D10.ret _ _ _ r w)) o
           = held w o
             + (if fst (fst (fst (D3D10.ret _ _ _ r w)))
                then (if snd (fst (fst (D3D10.ret _ _ _ r w))) =? o
                      then 1 else 0) else 0)).
  { intros r Hr. unfold D3D10.ret. cbn [fst snd]. rewrite Hr.
    repeat split. intros o _. lia. }
  assert (Hby_type :
    forall is_shared create,
      let res :=
        (match create with
         | Some call =>
           D3D10.bind _ _ _
             (D3D10.create_native_resource _ _ _ driver call
                is_shared shared_handle)
             (fun r =>
                match r with
                | Some (object, shared_handle') =>
                  D3D10.ret _ _ _ (true, object, shared_handle')
                | None => D3D10.ret _ _ _ (false, 0, shared_handle)
                end)
         | None => D3D10.ret _ _ _ (false, 0, shared_handle)
         end) w in
      (forall call, create = Some call -> hands_out call = true) ->
      D3D10.heap (snd res) = D3D10.heap w
      /\ D3D10.allocations (snd res) = D3D10.allocations w
      /\ forall o, o <> 0 ->
           held (snd res) o
           = held w o
             + (if fst (fst (fst res))
                then (if snd (fst (fst res)) =? o then 1 else 0) else 0)).
  { intros is_shared [call|] res Hcall; subst res;
      [|apply Hnothing; reflexivity].
    unfold D3D10.bind.
    destruct (create_native_resource_spec call is_shared
                shared_handle w (Hcall call eq_refl)) as [[Hh Ha] Hheld].
    destruct (D3D10.create_native_resource _ _ _ driver call _ _ w)
      as [[[object sh]|] w1]; unfold D3D10.ret; cbn [fst snd] in *.
    - repeat split; try assumption.
    - repeat split; try assumption. }
  assert (Hcreate :
    forall call,
      match Api.type desc with
      | Api.buffer => Some (D3D10.CreateBuffer _ _ _ desc initial_data)
      | Api.texture_1d => Some (D3D10.CreateTexture1D _ _ _ desc initial_data)
      | Api.texture_2d => Some (D3D10.CreateTexture2D _ _ _ desc initial_data)
      | Api.texture_3d => Some (D3D10.CreateTexture3D _ _ _ desc initial_data)
      | Api.resource_type_unknown | Api.surface => None
      end = Some call -> hands_out call = true).
  { intros call. destruct (Api.type desc); intros H;
      try discriminate H; injection H as <-; reflexivity. }
  intros res. subst res. unfold D3D10.create_resource.
  destruct (has_flag (Api.flags desc) resource_flags_shared).
  - destruct shared_handle as [h|]; [|apply Hnothing; reflexivity].
    destruct (has_flag (Api.flags desc) resource_flags_shared_nt_handle);
      [apply Hnothing; reflexivity|].
    destruct (negb (h =? 0)).
    + unfold D3D10.bind, D3D10.open_shared_resource.
      destruct (native_spec (D3D10.OpenSharedResource _ _ _ h) w)
        as ([Hh Ha] & Hr & Hheld).
      destruct (native (D3D10.OpenSharedResource _ _ _ h) w) as [r w1].
      cbn [fst snd] in *. subst r.
      destruct (driver (D3D10.calls w) (D3D10.OpenSharedResource _ _ _ h))
        as [object|] eqn:Hdriver; unfold D3D10.ret; cbn [fst snd].
      * repeat split; try assumption.
        intros o _. rewrite Hheld. simpl. rewrite Hdriver. reflexivity.
      * repeat split; try assumption.
        intros o _. rewrite Hheld. simpl. rewrite Hdriver. lia.
    + apply Hby_type, Hcreate.
  - apply Hby_type, Hcreate.
Qed.

End D3D10_references.

(** *** The accounting at concrete devices *)

Lemma create_graphics_pipeline_failure_releases_all_witness :
  let res :=
    D3D10.create_graphics_pipeline unit unit unit
      D3D10References.third_call_fails
      D3D10References.two_shader_pipeline 0 D3D10.Examples.device_world in
  fst (fst res) = false
  /\ D3D10.heap (snd res) = D3D10.heap D3D10.Examples.device_world
  /\ D3D10References.held unit unit unit D3D10References.third_call_fails
       (snd res) 0x10000
     = D3D10References.held unit unit unit D3D10References.third_call_fails
         D3D10.Examples.device_world 0x10000.
Proof.
  intros res.
  assert (Hfail : fst (fst res) = false) by reflexivity.
  destruct (create_graphics_pipeline_failure_releases_all unit unit unit
              D3D10References.third_call_fails
              D3D10References.two_shader_pipeline 0
              D3D10.Examples.device_world Hfail) as (Hh & _ & Hheld).
  split; [exact Hfail|]. split; [exact Hh|].
  apply Hheld. lia.
Defined.

(** The calls of that failing creation: two shaders created, the blend
    state refused, the two shaders released in reverse order. *)
Example failing_pipeline_trace :
  D3D10.calls
    (snd (D3D10.create_graphics_pipeline unit unit unit
            D3D10References.third_call_fails
            D3D10References.two_shader_pipeline 0
            D3D10.Examples.device_world))
  = [D3D10.CreateVertexShader _ _ _ D3D10References.two_shader_pipeline;
     D3D10.CreatePixelShader _ _ _ D3D10References.two_shader_pipeline;
     D3D10.CreateBlendState1 _ _ _ D3D10References.two_shader_pipeline;
     D3D10.Release _ _ _ 0x10010;
     D3D10.Release _ _ _ 0x10000].
Proof. reflexivity. Qed.

Lemma destroy_pipeline_undoes_create_graphics_pipeline_witness :
  let res :=
    D3D10.create_graphics_pipeline unit unit unit
      D3D10.Examples.working_driver
      D3D10References.two_shader_pipeline 0 D3D10.Examples.device_world in
  let w' := snd (D3D10.destroy_pipeline unit unit unit (snd (fst res))
                   (snd res)) in
  fst (fst res) = true
  /\ D3D10.heap w'
     = delete (snd (fst res) - 1) (D3D10.heap D3D10.Examples.device_world)
  /\ D3D10References.held unit unit unit D3D10.Examples.working_driver
       w' 0x10000
     = D3D10References.held unit unit unit D3D10.Examples.working_driver
         D3D10.Examples.device_world 0x10000.
Proof.
  intros res w'.
  assert (Hok : fst (fst res) = true) by reflexivity.
  destruct (destroy_pipeline_undoes_create_graphics_pipeline unit unit unit
              D3D10.Examples.working_driver
              D3D10References.two_shader_pipeline 0
              D3D10.Examples.device_world Hok) as (Hh & Hheld).
  split; [exact Hok|]. split; [exact Hh|].
  apply Hheld. lia.
Defined.

Lemma create_query_pool_accounting_witness :
  let res :=
    D3D10.create_query_pool unit unit unit D3D10References.third_call_fails
      tt 4 0 D3D10.Examples.device_world in
  fst res = (false, 0)
  /\ D3D10References.held unit unit unit D3D10References.third_call_fails
       (snd res) 0x10000
     = D3D10References.held unit unit unit D3D10References.third_call_fails
         D3D10.Examples.device_world 0x10000.
Proof.
  intros res.
  pose proof (create_query_pool_accounting unit unit unit
                D3D10References.third_call_fails tt 4 0
                D3D10.Examples.device_world) as H.
  cbv zeta in H. fold res in H.
  change (fst (fst res)) with false in H. cbv iota in H.
  destruct H as (_ & _ & Hheld).
  split; [reflexivity|]. apply Hheld. lia.
Defined.

Lemma create_resource_accounting_witness :
  let res :=
    D3D10.create_resource unit unit unit
      D3D10.Examples.resource_flags_shared
      D3D10.Examples.resource_flags_shared_nt_handle
      D3D10References.third_call_fails
      D3D10References.exported_buffer_desc 0 0 0 (Some 0)
      D3D10.Examples.device_world in
  fst res = (false, 0, Some 0)
  /\ D3D10References.held unit unit unit D3D10References.third_call_fails
       (snd res) 0x10000
     = D3D10References.held unit unit unit D3D10References.third_call_fails
         D3D10.Examples.device_world 0x10000.
Proof.
  intros res.
  destruct (create_resource_accounting unit unit unit
              D3D10References.third_call_fails
              D3D10.Examples.resource_flags_shared
              D3D10.Examples.resource_flags_shared_nt_handle
              D3D10References.exported_buffer_desc 0 0 0 (Some 0)
              D3D10.Examples.device_world) as (_ & _ & Hheld).
  split; [reflexivity|].
  fold res in Hheld. rewrite (Hheld 0x10000) by lia.
  change (fst (fst (fst res))) with false. cbv iota. apply Z.add_0_r.
Defined.

(** The calls of that failing export: the buffer is created, its
    [IDXGIResource] interface queried, the shared handle refused, and
    both interfaces released. *)
Example failing_export_trace :
  D3D10.calls
    (snd (D3D10.create_resource unit unit unit
            D3D10.Examples.resource_flags_shared
            D3D10.Examples.resource_flags_shared_nt_handle
            D3D10References.third_call_fails
            D3D10References.exported_buffer_desc 0 0 0 (Some 0)
            D3D10.Examples.device_world))
  = [D3D10.CreateBuffer _ _ _ D3D10References.exported_buffer_desc 0;
     D3D10.QueryInterface_IDXGIResource _ _ _ 0x10000;
     D3D10.GetSharedHandle _ _ _ 0x10010;
     D3D10.Release _ _ _ 0x10010;
     D3D10.Release _ _ _ 0x10000].
Proof. reflexivity. Qed.

(** ** Vulkan: what [vkCreateSwapchainKHR] changes in the create info *)

Lemma In_insert_sorted (f x : Z) (l : list Z) :
  In f (VulkanSwapchain.insert_sorted x l) <-> f = x \/ In f l.
Proof.
  induction l as [|y rest IH]; simpl.
  - intuition congruence.
  - destruct (x <=? y); simpl; [intuition congruence|].
    rewrite IH. intuition congruence.
Qed.

Lemma ascending_insert_sorted (x : Z) (l : list Z) :
  VulkanSwapchain.ascending l ->
  VulkanSwapchain.ascending (VulkanSwapchain.insert_sorted x l).
Proof.
  induction l as [|y rest IH]; simpl.
  - intros _. split; [intros ? []| exact I].
  - intros [Hy Hrest]. destruct (Z.leb_spec x y) as [Hle | Hlt]; simpl.
    + split; [|split; assumption].
      intros z [<- | Hz]; [exact Hle|]. specialize (Hy z Hz). lia.
    + split; [|apply IH; exact Hrest].
      intros z Hz. apply In_insert_sorted in Hz.
      destruct Hz as [-> | Hz]; [lia | apply Hy; exact Hz].
Qed.

Lemma In_sort (f : Z) (l : list Z) :
  In f (VulkanSwapchain.sort l) <-> In f l.
Proof.
  induction l as [|x rest IH]; simpl; [reflexivity|].
  rewrite In_insert_sorted, IH. intuition congruence.
Qed.

Lemma ascending_sort (l : list Z) :
  VulkanSwapchain.ascending (VulkanSwapchain.sort l).
Proof.
  induction l as [|x rest IH]; simpl;
    [exact I | apply ascending_insert_sorted, IH].
Qed.

Lemma unique_from_spec (l : list Z) :
  forall x,
    (forall y, In y l -> x <= y) -> VulkanSwapchain.ascending l ->
    (forall f, In f (VulkanSwapchain.unique_from x l) <-> f = x \/ In f l)
    /\ VulkanSwapchain.increasing (VulkanSwapchain.unique_from x l).
Proof.
  induction l as [|y rest IH]; intros x Hx Hl; simpl.
  - split; [intros f; intuition congruence|].
    split; [intros ? [] | exact I].
  - destruct Hl as [Hy Hrest].
    destruct (Z.eqb_spec x y) as [<- | Hne].
    + destruct (IH x Hy Hrest) as [Hin Hinc].
      split; [|exact Hinc]. intros f. rewrite Hin. intuition congruence.
    + destruct (IH y Hy Hrest) as [Hin Hinc].
      split.
      * intros f. simpl. rewrite Hin. intuition congruence.
      * simpl. split; [|exact Hinc].
        intros z Hz. apply Hin in Hz.
        assert (x <= y) by (apply Hx; left; reflexivity).
        destruct Hz as [-> | Hz]; [lia|]. specialize (Hy z Hz). lia.
Qed.

Lemma unique_spec (l : list Z) :
  VulkanSwapchain.ascending l ->
  (forall f, In f (VulkanSwapchain.unique l) <-> In f l)
  /\ VulkanSwapchain.increasing (VulkanSwapchain.unique l).
Proof.
  destruct l as [|x rest]; simpl.
  - intros _. split; [reflexivity | exact I].
  - intros [Hx Hrest].
    destruct (unique_from_spec rest x Hx Hrest) as [Hin Hinc].
    split; [|exact Hinc]. intros f. rewrite Hin. intuition congruence.
Qed.

(** X11.  When the device has a graphics queue and the application gave
    a list of view formats, the list [vkCreateSwapchainKHR] hands down
    the chain is strictly increasing (hence free of duplicates) and holds
    exactly the sRGB and the normal variant of the image format together
    with the formats of the application. *)
Theorem swapchain_view_formats
    (make_format_srgb make_format_normal : Z -> Z)
    (graphics_queue_family_index : Z)
    (pCreateInfo : VulkanSwapchain.VkSwapchainCreateInfoKHR)
    (application_formats : list Z) :
  graphics_queue_family_index <> Vulkan.UINT32_MAX ->
  VulkanSwapchain.pViewFormats pCreateInfo = Some application_formats ->
  exists format_list,
    VulkanSwapchain.pViewFormats
      (VulkanSwapchain.patch_create_info make_format_srgb
         make_format_normal graphics_queue_family_index pCreateInfo)
    = Some format_list
    /\ VulkanSwapchain.increasing format_list
    /\ forall f,
         In f format_list
         <-> f = make_format_srgb (VulkanSwapchain.imageFormat pCreateInfo)
             \/ f = make_format_normal
                      (VulkanSwapchain.imageFormat pCreateInfo)
             \/ In f application_formats.
Proof.
  intros Hgraphics Hformats. unfold VulkanSwapchain.patch_create_info.
  destruct (Z.eqb_spec graphics_queue_family_index Vulkan.UINT32_MAX)
    as [? | _]; [contradiction|].
  simpl. rewrite Hformats. eexists. split; [reflexivity|].
  destruct (unique_spec _ (ascending_sort
              (make_format_srgb (VulkanSwapchain.imageFormat pCreateInfo)
               :: make_format_normal
                    (VulkanSwapchain.imageFormat pCreateInfo)
               :: application_formats))) as [Hin Hinc].
  split; [exact Hinc|].
  intros f. rewrite Hin, In_sort. simpl. intuition congruence.
Qed.

Lemma swapchain_view_formats_witness :
  VulkanSwapchain.pViewFormats
    (VulkanSwapchain.patch_create_info VulkanSwapchain.srgb_of
       VulkanSwapchain.normal_of 0 VulkanSwapchain.shared_swapchain)
  = Some [37; 43; 44; 50]
  /\ exists format_list,
       VulkanSwapchain.pViewFormats
         (VulkanSwapchain.patch_create_info VulkanSwapchain.srgb_of
            VulkanSwapchain.normal_of 0 VulkanSwapchain.shared_swapchain)
       = Some format_list
       /\ VulkanSwapchain.increasing format_list
       /\ forall f,
            In f format_list
            <-> f = VulkanSwapchain.srgb_of 37
                \/ f = VulkanSwapchain.normal_of 37 \/ In f [50; 37; 44].
Proof.
  split; [reflexivity|].
  apply (swapchain_view_formats VulkanSwapchain.srgb_of
           VulkanSwapchain.normal_of 0 VulkanSwapchain.shared_swapchain
           [50; 37; 44]).
  - unfold Vulkan.UINT32_MAX. lia.
  - reflexivity.
Defined.

Lemma occurrences_filter (g i : Z) (l : list Z) :
  VulkanSwapchain.occurrences i
    (List.filter (fun index => negb (index =? g)) l)
  = if i =? g then O else VulkanSwapchain.occurrences i l.
Proof.
  induction l as [|x rest IH]; simpl.
  - destruct (i =? g); reflexivity.
  - destruct (Z.eqb_spec x g) as [-> | Hx]; simpl.
    + rewrite IH. destruct (Z.eqb_spec i g) as [-> | Hi]; [reflexivity|].
      destruct (Z.eqb_spec g i); [congruence | reflexivity].
    + rewrite IH. destruct (Z.eqb_spec i g) as [-> | Hi];
        destruct (Z.eqb_spec x g); try congruence;
        destruct (Z.eqb_spec x i); congruence.
Qed.

(** X12.  For a swap chain with concurrent sharing on a device with a
    graphics queue, the queue family list handed down the chain starts
    with the graphics queue family, names it exactly once, and names
    every other queue family as often as the application did. *)
Theorem swapchain_queue_families
    (make_format_srgb make_format_normal : Z -> Z)
    (graphics_queue_family_index : Z)
    (pCreateInfo : VulkanSwapchain.VkSwapchainCreateInfoKHR) :
  graphics_queue_family_index <> Vulkan.UINT32_MAX ->
  VulkanSwapchain.imageSharingMode pCreateInfo
  = VulkanSwapchain.VK_SHARING_MODE_CONCURRENT ->
  exists others,
    VulkanSwapchain.pQueueFamilyIndices
      (VulkanSwapchain.patch_create_info make_format_srgb
         make_format_normal graphics_queue_family_index pCreateInfo)
    = graphics_queue_family_index :: others
    /\ VulkanSwapchain.occurrences graphics_queue_family_index others = O
    /\ forall index, index <> graphics_queue_family_index ->
         VulkanSwapchain.occurrences index others
         = VulkanSwapchain.occurrences index
             (VulkanSwapchain.pQueueFamilyIndices pCreateInfo).
Proof.
  intros Hgraphics Hmode. unfold VulkanSwapchain.patch_create_info.
  destruct (Z.eqb_spec graphics_queue_family_index Vulkan.UINT32_MAX)
    as [? | _]; [contradiction|].
  simpl. rewrite Hmode. simpl. eexists. split; [reflexivity|].
  split.
  - rewrite occurrences_filter, Z.eqb_refl. reflexivity.
  - intros index Hindex. rewrite occurrences_filter.
    destruct (Z.eqb_spec index graphics_queue_family_index);
      [contradiction | reflexivity].
Qed.

Lemma swapchain_queue_families_witness :
  VulkanSwapchain.pQueueFamilyIndices
    (VulkanSwapchain.patch_create_info VulkanSwapchain.srgb_of
       VulkanSwapchain.normal_of 0 VulkanSwapchain.shared_swapchain)
  = [0; 2; 2]
  /\ exists others,
       VulkanSwapchain.pQueueFamilyIndices
         (VulkanSwapchain.patch_create_info VulkanSwapchain.srgb_of
            VulkanSwapchain.normal_of 0 VulkanSwapchain.shared_swapchain)
       = 0 :: others
       /\ VulkanSwapchain.occurrences 0 others = O
       /\ forall index, index <> 0 ->
            VulkanSwapchain.occurrences index others
            = VulkanSwapchain.occurrences index [2; 0; 2].
Proof.
  split; [reflexivity|].
  apply (swapchain_queue_families VulkanSwapchain.srgb_of
           VulkanSwapchain.normal_of 0 VulkanSwapchain.shared_swapchain).
  - unfold Vulkan.UINT32_MAX. lia.
  - reflexivity.
Defined.

(** ** Vulkan: the data [vkCreateRenderPass] keeps for a render pass *)

Lemma cleared_head
    (first : Z) (d : VulkanRenderPass.VkAttachmentDescription)
    (c : VulkanRenderPass.cleared_attachment) :
  let clear_flags :=
    Z.lor
      (if VulkanRenderPass.loadOp d
          =? VulkanRenderPass.VK_ATTACHMENT_LOAD_OP_CLEAR
       then 0x1 else 0x0)
      (if VulkanRenderPass.stencilLoadOp d
          =? VulkanRenderPass.VK_ATTACHMENT_LOAD_OP_CLEAR
       then 0x2 else 0x0) in
  In c (if negb (clear_flags =? 0)
        then [{| VulkanRenderPass.clear_flags := clear_flags;
                 VulkanRenderPass.index := first;
                 VulkanRenderPass.initial_layout :=
                   VulkanRenderPass.initialLayout d |}]
        else [])
  <-> VulkanRenderPass.is_cleared d = true
      /\ c = {| VulkanRenderPass.clear_flags := clear_flags;
                VulkanRenderPass.index := first;
                VulkanRenderPass.initial_layout :=
                  VulkanRenderPass.initialLayout d |}.
Proof.
  unfold VulkanRenderPass.is_cleared.
  destruct (VulkanRenderPass.loadOp d
            =? VulkanRenderPass.VK_ATTACHMENT_LOAD_OP_CLEAR);
    destruct (VulkanRenderPass.stencilLoadOp d
              =? VulkanRenderPass.VK_ATTACHMENT_LOAD_OP_CLEAR);
    simpl; intuition congruence.
Qed.

Lemma cleared_flags
    (d : VulkanRenderPass.VkAttachmentDescription) :
  let load :=
    VulkanRenderPass.loadOp d
    =? VulkanRenderPass.VK_ATTACHMENT_LOAD_OP_CLEAR in
  let stencil :=
    VulkanRenderPass.stencilLoadOp d
    =? VulkanRenderPass.VK_ATTACHMENT_LOAD_OP_CLEAR in
  let clear_flags :=
    Z.lor (if load then 0x1 else 0x0) (if stencil then 0x2 else 0x0) in
  Z.testbit clear_flags 0 = load /\ Z.testbit clear_flags 1 = stencil
  /\ (load || stencil = true -> 1 <= clear_flags <= 3).
Proof.
  simpl.
  destruct (VulkanRenderPass.loadOp d
            =? VulkanRenderPass.VK_ATTACHMENT_LOAD_OP_CLEAR);
    destruct (VulkanRenderPass.stencilLoadOp d
              =? VulkanRenderPass.VK_ATTACHMENT_LOAD_OP_CLEAR);
    simpl; repeat split; try lia; discriminate.
Qed.

Lemma cleared_attachments_sound
    (pAttachments : list VulkanRenderPass.VkAttachmentDescription) :
  forall first c,
    In c (VulkanRenderPass.cleared_attachments_from first pAttachments) ->
    first <= VulkanRenderPass.index c
    /\ exists description,
         pAttachments !! Z.to_nat (VulkanRenderPass.index c - first)
         = Some description
         /\ VulkanRenderPass.is_cleared description = true
         /\ VulkanRenderPass.initial_layout c
            = VulkanRenderPass.initialLayout description
         /\ Z.testbit (VulkanRenderPass.clear_flags c) 0
            = (VulkanRenderPass.loadOp description
               =? VulkanRenderPass.VK_ATTACHMENT_LOAD_OP_CLEAR)
         /\ Z.testbit (VulkanRenderPass.clear_flags c) 1
            = (VulkanRenderPass.stencilLoadOp description
               =? VulkanRenderPass.VK_ATTACHMENT_LOAD_OP_CLEAR)
         /\ 1 <= VulkanRenderPass.clear_flags c <= 3.
Proof.
  induction pAttachments as [|d rest IH]; intros first c;
    cbn [VulkanRenderPass.cleared_attachments_from].
  - intros [].
  - intros Hc. apply in_app_or in Hc. destruct Hc as [Hc | Hc].
    + apply cleared_head in Hc. destruct Hc as [Hcleared ->].
      cbn [VulkanRenderPass.index VulkanRenderPass.clear_flags
           VulkanRenderPass.initial_layout].
      split; [lia|]. exists d. rewrite Z.sub_diag.
      destruct (cleared_flags d) as (H0 & H1 & Hrange).
      repeat split; try assumption; apply Hrange; exact Hcleared.
    + destruct (IH (first + 1) c Hc) as (Hle & description & Hd & H).
      split; [lia|]. exists description. split; [|exact H].
      replace (Z.to_nat (VulkanRenderPass.index c - first))
        with (S (Z.to_nat (VulkanRenderPass.index c - (first + 1))))
        by lia.
      exact Hd.
Qed.

Lemma cleared_attachments_complete
    (pAttachments : list VulkanRenderPass.VkAttachmentDescription) :
  forall first (i : nat) description,
    pAttachments !! i = Some description ->
    VulkanRenderPass.is_cleared description = true ->
    exists c,
      In c (VulkanRenderPass.cleared_attachments_from first pAttachments)
      /\ VulkanRenderPass.index c = first + Z.of_nat i.
Proof.
  induction pAttachments as [|d rest IH]; intros first i description Hd
    Hcleared; [discriminate Hd|].
  cbn [VulkanRenderPass.cleared_attachments_from].
  destruct i as [|i]; simpl in Hd.
  - injection Hd as <-. eexists. split.
    + apply in_or_app. left. apply cleared_head.
      split; [exact Hcleared | reflexivity].
    + simpl. lia.
  - destruct (IH (first + 1) i description Hd Hcleared)
      as (c & Hc & Hindex).
    exists c. split; [apply in_or_app; right; exact Hc | lia].
Qed.

Lemma increasing_app (a b : list Z) :
  VulkanSwapchain.increasing a -> VulkanSwapchain.increasing b ->
  (forall x y, In x a -> In y b -> x < y) ->
  VulkanSwapchain.increasing (a ++ b).
Proof.
  induction a as [|x a IH]; simpl; [auto|].
  intros [Hx Ha] Hb Hab. split.
  - intros y Hy. apply in_app_or in Hy.
    destruct Hy as [Hy | Hy]; [apply Hx; exact Hy|].
    apply Hab; [left; reflexivity | exact Hy].
  - apply IH; [exact Ha | exact Hb |].
    intros u v Hu Hv. apply Hab; [right; exact Hu | exact Hv].
Qed.

Lemma cleared_attachments_increasing
    (pAttachments : list VulkanRenderPass.VkAttachmentDescription) :
  forall first,
    VulkanSwapchain.increasing
      (map VulkanRenderPass.index
         (VulkanRenderPass.cleared_attachments_from first pAttachments)).
Proof.
  induction pAttachments as [|d rest IH]; intros first;
    cbn [VulkanRenderPass.cleared_attachments_from]; [exact I|].
  rewrite map_app. apply increasing_app.
  - destruct (negb _); simpl; [split; [intros ? [] | exact I] | exact I].
  - apply IH.
  - intros x y Hx Hy.
    apply in_map_iff in Hx. destruct Hx as (cx & <- & Hx).
    apply in_map_iff in Hy. destruct Hy as (cy & <- & Hy).
    apply cleared_head in Hx. destruct Hx as [_ ->].
    destruct (cleared_attachments_sound rest (first + 1) cy Hy)
      as [Hle _].
    simpl. lia.
Qed.

(** X13.  The cleared attachments [vkCreateRenderPass] records are
    exactly the attachments of the render pass whose color/depth or
    stencil load operation is a clear: every record names such an
    attachment by its number, with its initial layout and with flag 1 for
    the load operation and flag 2 for the stencil load operation; every
    such attachment has a record; and the records are in increasing order
    of the attachment number, so no attachment is recorded twice. *)
Theorem render_pass_cleared_attachments
    (pCreateInfo : VulkanRenderPass.VkRenderPassCreateInfo) :
  let cleared :=
    VulkanRenderPass.cleared_attachments
      (VulkanRenderPass.render_pass_data_of pCreateInfo) in
  (forall c, In c cleared ->
     exists description,
       0 <= VulkanRenderPass.index c
       /\ VulkanRenderPass.pAttachments pCreateInfo
            !! Z.to_nat (VulkanRenderPass.index c)
          = Some description
       /\ VulkanRenderPass.is_cleared description = true
       /\ VulkanRenderPass.initial_layout c
          = VulkanRenderPass.initialLayout description
       /\ Z.testbit (VulkanRenderPass.clear_flags c) 0
          = (VulkanRenderPass.loadOp description
             =? VulkanRenderPass.VK_ATTACHMENT_LOAD_OP_CLEAR)
       /\ Z.testbit (VulkanRenderPass.clear_flags c) 1
          = (VulkanRenderPass.stencilLoadOp description
             =? VulkanRenderPass.VK_ATTACHMENT_LOAD_OP_CLEAR)
       /\ 1 <= VulkanRenderPass.clear_flags c <= 3)
  /\ (forall (i : nat) description,
        VulkanRenderPass.pAttachments pCreateInfo !! i = Some description ->
        VulkanRenderPass.is_cleared description = true ->
        exists c,
          In c cleared /\ VulkanRenderPass.index c = Z.of_nat i)
  /\ VulkanSwapchain.increasing (map VulkanRenderPass.index cleared).
Proof.
  intros cleared. subst cleared.
  cbn [VulkanRenderPass.render_pass_data_of
       VulkanRenderPass.cleared_attachments].
  split; [|split].
  - intros c Hc.
    destruct (cleared_attachments_sound _ 0 c Hc)
      as (Hle & description & Hd & H).
    exists description. split; [exact Hle|].
    rewrite Z.sub_0_r in Hd. split; [exact Hd | exact H].
  - intros i description Hd Hcleared.
    destruct (cleared_attachments_complete _ 0 i description Hd Hcleared)
      as (c & Hc & Hindex).
    exists c. split; [exact Hc | lia].
  - apply cleared_attachments_increasing.
Qed.

(** ** Vulkan: the registries across creation and destruction *)

Section Vulkan_registries.

Variable dispatch_key_from_handle : Z -> Z.
Variables RESHADE_ADDON NDEBUG : bool.
Variable next_vkCreateDevice :
  Vulkan.physical_device -> list string ->
  Vulkan.VkPhysicalDeviceFeatures -> Z * Z.
Variable GetDeviceQueue : Z -> Z -> Z -> Z.

Abbreviation key := dispatch_key_from_handle.
Abbreviation vkCreateDevice :=
  (Vulkan.vkCreateDevice key NDEBUG next_vkCreateDevice GetDeviceQueue).
Abbreviation vkDestroyDevice := (Vulkan.vkDestroyDevice key).

Lemma erase_queues_lookup (queues : list Z) :
  forall w : Vulkan.world,
    Vulkan.g_vulkan_devices (Vulkan.erase_queues queues w)
    = Vulkan.g_vulkan_devices w
    /\ Vulkan.s_vulkan_command_buffers (Vulkan.erase_queues queues w)
       = Vulkan.s_vulkan_command_buffers w
    /\ forall k,
         (In k queues ->
          Vulkan.s_vulkan_queues (Vulkan.erase_queues queues w) !! k = None)
         /\ (~ In k queues ->
             Vulkan.s_vulkan_queues (Vulkan.erase_queues queues w) !! k
             = Vulkan.s_vulkan_queues w !! k).
Proof using Type.
  induction queues as [|q rest IH]; intros w; simpl.
  - split; [reflexivity|]. split; [reflexivity|].
    intros k. split; [intros [] | reflexivity].
  - match goal with
    | |- context [Vulkan.erase_queues rest ?w1] =>
      destruct (IH w1) as (Hdev & Hcb & Hq)
    end.
    simpl in Hdev, Hcb, Hq |- *.
    split; [exact Hdev|]. split; [exact Hcb|].
    intros k. destruct (Hq k) as [Hin Hout]. split.
    + intros [-> | Hk]; [|apply Hin, Hk].
      destruct (in_dec Z.eq_dec k rest) as [Hk | Hk]; [apply Hin, Hk|].
      rewrite (Hout Hk). apply lookup_delete_eq.
    + intros Hk. rewrite Hout by (intros H; apply Hk; right; exact H).
      apply lookup_delete_ne. intros ->. apply Hk. left. reflexivity.
Qed.

Lemma vkDestroyDevice_lookup (device : Z) (impl : Vulkan.device_impl)
    (w : Vulkan.world) :
  Vulkan.g_vulkan_devices w !! key device = Some impl ->
  exists w',
    vkDestroyDevice device w = Some w'
    /\ Vulkan.g_vulkan_devices w' = delete (key device)
                                      (Vulkan.g_vulkan_devices w)
    /\ Vulkan.s_vulkan_command_buffers w' = ∅
    /\ forall queue,
         (In queue (Vulkan._queues impl) ->
          Vulkan.s_vulkan_queues w' !! queue = None)
         /\ (~ In queue (Vulkan._queues impl) ->
             Vulkan.s_vulkan_queues w' !! queue
             = Vulkan.s_vulkan_queues w !! queue).
Proof using Type.
  intros Himpl. unfold Vulkan.vkDestroyDevice, Vulkan.erase. simpl.
  rewrite Himpl. eexists. split; [reflexivity|].
  match goal with
  | |- context [Vulkan.erase_queues _ ?w1] =>
    destruct (erase_queues_lookup (Vulkan._queues impl) w1)
      as (Hdev & Hcb & Hq)
  end.
  unfold Vulkan.log. simpl in Hdev, Hcb, Hq |- *.
  split; [exact Hdev|]. split; [exact Hcb|]. exact Hq.
Qed.

Lemma init_queues_lookup (device family : Z) (n : nat) :
  forall (first : Z) (w : Vulkan.world) impl,
    Vulkan.g_vulkan_devices w !! key device = Some impl ->
    let w' :=
      Vulkan.init_queues key GetDeviceQueue device family first n w in
    exists queues,
      Vulkan.g_vulkan_devices w'
      = <[key device :=
            Vulkan.mk_device_impl (Vulkan._orig impl)
              (Vulkan._graphics_queue_family_index impl)
              (Vulkan._queues impl ++ queues) (Vulkan._resources impl)]>
          (Vulkan.g_vulkan_devices w)
      /\ Vulkan.s_vulkan_command_buffers w'
         = Vulkan.s_vulkan_command_buffers w
      /\ (forall q, In q queues ->
            exists index, q = GetDeviceQueue device family index)
      /\ forall k,
           (In k queues -> is_Some (Vulkan.s_vulkan_queues w' !! k))
           /\ (~ In k queues ->
               Vulkan.s_vulkan_queues w' !! k
               = Vulkan.s_vulkan_queues w !! k).
Proof.
  induction n as [|n IH]; intros first w impl Himpl; simpl.
  - exists []. rewrite app_nil_r. destruct impl; simpl.
    split; [symmetry; apply insert_id; exact Himpl|].
    split; [reflexivity|]. split; [intros ? []|].
    intros k. split; [intros [] | reflexivity].
  - match goal with
    | |- context [Vulkan.init_queues _ _ _ _ _ n ?w1] =>
      destruct (IH (first + 1) w1
                  (Vulkan.mk_device_impl (Vulkan._orig impl)
                     (Vulkan._graphics_queue_family_index impl)
                     (Vulkan._queues impl
                      ++ [GetDeviceQueue device family first])
                     (Vulkan._resources impl)))
        as (queues & Hdev & Hcb & Hfrom & Hq)
    end.
    { simpl. rewrite lookup_alter_eq, Himpl. reflexivity. }
    simpl in *.
    exists (GetDeviceQueue device family first :: queues).
    split.
    { rewrite Hdev, <- app_assoc. simpl.
      apply map_eq. intros k.
      destruct (decide (k = key device)) as [-> | Hk].
      - rewrite !lookup_insert_eq. reflexivity.
      - rewrite !lookup_insert_ne by congruence.
        apply lookup_alter_ne. congruence. }
    split; [exact Hcb|]. split.
    { intros q [<- | Hin]; [eexists; reflexivity | apply Hfrom, Hin]. }
    intros k. destruct (Hq k) as [Hin Hout]. split.
    + intros [<- | Hk]; [|apply Hin, Hk].
      destruct (in_dec Z.eq_dec (GetDeviceQueue device family first)
                  queues) as [Hk | Hk]; [apply Hin, Hk|].
      rewrite (Hout Hk). unfold Vulkan.emplace.
      destruct (Vulkan.s_vulkan_queues w
                  !! GetDeviceQueue device family first) eqn:Hold; simpl.
      * rewrite Hold. eexists; reflexivity.
      * rewrite lookup_insert_eq. eexists; reflexivity.
    + intros Hk. rewrite Hout by (intros H; apply Hk; right; exact H).
      unfold Vulkan.emplace.
      destruct (Vulkan.s_vulkan_queues w
                  !! GetDeviceQueue device family first); simpl;
        [reflexivity|].
      apply lookup_insert_ne. intros Heq. apply Hk. left. exact Heq.
Qed.

Lemma init_all_queues_lookup (device : Z)
    (infos : list Vulkan.VkDeviceQueueCreateInfo) :
  forall (w : Vulkan.world) impl,
    Vulkan.g_vulkan_devices w !! key device = Some impl ->
    let w' := Vulkan.init_all_queues key GetDeviceQueue device infos w in
    exists queues,
      Vulkan.g_vulkan_devices w'
      = <[key device :=
            Vulkan.mk_device_impl (Vulkan._orig impl)
              (Vulkan._graphics_queue_family_index impl)
              (Vulkan._queues impl ++ queues) (Vulkan._resources impl)]>
          (Vulkan.g_vulkan_devices w)
      /\ Vulkan.s_vulkan_command_buffers w'
         = Vulkan.s_vulkan_command_buffers w
      /\ (forall q, In q queues ->
            exists family index, q = GetDeviceQueue device family index)
      /\ forall k,
           (In k queues -> is_Some (Vulkan.s_vulkan_queues w' !! k))
           /\ (~ In k queues ->
               Vulkan.s_vulkan_queues w' !! k
               = Vulkan.s_vulkan_queues w !! k).
Proof.
  induction infos as [|info rest IH]; intros w impl Himpl; simpl.
  - exists []. rewrite app_nil_r. destruct impl; simpl.
    split; [symmetry; apply insert_id; exact Himpl|].
    split; [reflexivity|]. split; [intros ? []|].
    intros k. split; [intros [] | reflexivity].
  - destruct (init_queues_lookup device (Vulkan.queueFamilyIndex info)
                (Z.to_nat (Vulkan.queueCount info)) 0 w impl Himpl)
      as (q1 & Hdev1 & Hcb1 & Hfrom1 & Hq1).
    match goal with
    | |- context [Vulkan.init_all_queues _ _ _ rest ?w1] =>
      destruct (IH w1
                  (Vulkan.mk_device_impl (Vulkan._orig impl)
                     (Vulkan._graphics_queue_family_index impl)
                     (Vulkan._queues impl ++ q1)
                     (Vulkan._resources impl)))
        as (q2 & Hdev2 & Hcb2 & Hfrom2 & Hq2)
    end.
    { rewrite Hdev1. apply lookup_insert_eq. }
    simpl in *. exists (q1 ++ q2). split.
    { rewrite Hdev2, Hdev1, insert_insert_eq, app_assoc. reflexivity. }
    split; [congruence|]. split.
    { intros q Hin. apply in_app_or in Hin. destruct Hin as [Hin | Hin].
      - destruct (Hfrom1 q Hin) as [index ->]. eauto.
      - apply Hfrom2, Hin. }
    intros k. destruct (Hq1 k) as [Hin1 Hout1].
    destruct (Hq2 k) as [Hin2 Hout2]. split.
    + intros Hk. destruct (in_dec Z.eq_dec k q2) as [H2 | H2];
        [apply Hin2, H2|].
      rewrite (Hout2 H2). apply in_app_or in Hk.
      destruct Hk as [Hk | Hk]; [apply Hin1, Hk | contradiction].
    + intros Hk. rewrite Hout2, Hout1; [reflexivity | |];
        intros Hin; apply Hk, in_or_app; tauto.
Qed.

(** X14.  Destroying a registered device leaves every other device
    registered as it was, takes exactly the queues of the destroyed device
    out of the queue table, and empties the command buffer table, those
    of other devices included. *)
Theorem vkDestroyDevice_frame (device : Z) (impl : Vulkan.device_impl)
    (w : Vulkan.world) :
  Vulkan.g_vulkan_devices w !! key device = Some impl ->
  exists w',
    vkDestroyDevice device w = Some w'
    /\ (forall other, other <> key device ->
          Vulkan.g_vulkan_devices w' !! other
          = Vulkan.g_vulkan_devices w !! other)
    /\ Vulkan.s_vulkan_command_buffers w' = ∅
    /\ forall queue,
         Vulkan.s_vulkan_queues w' !! queue
         = if bool_decide (queue ∈ Vulkan._queues impl) then None
           else Vulkan.s_vulkan_queues w !! queue.
Proof using Type.
  intros Himpl.
  destruct (vkDestroyDevice_lookup device impl w Himpl)
    as (w' & Hdestroy & Hdev & Hcb & Hq).
  exists w'. split; [exact Hdestroy|]. split; [|split; [exact Hcb|]].
  - intros other Hother. rewrite Hdev. apply lookup_delete_ne. congruence.
  - intros queue. destruct (Hq queue) as [Hin Hout].
    destruct (bool_decide_reflect (queue ∈ Vulkan._queues impl))
      as [Hqueue | Hqueue].
    + apply Hin, list_elem_of_In, Hqueue.
    + apply Hout. intros H. apply Hqueue, list_elem_of_In, H.
Qed.

(** X15.  A device that [vkCreateDevice] created and registered is
    unregistered again by [vkDestroyDevice]: when neither the device nor
    any of its queues was registered before, the device table and the
    queue table are afterwards what they were before the creation. *)
Theorem vkDestroyDevice_undoes_vkCreateDevice
    (physicalDevice : Vulkan.physical_device)
    (pCreateInfo : Vulkan.VkDeviceCreateInfo) (device : Z)
    (w w1 : Vulkan.world) :
  vkCreateDevice physicalDevice pCreateInfo w
  = (Vulkan.VK_SUCCESS, Some device, w1) ->
  Vulkan.g_vulkan_devices w !! key device = None ->
  (forall family index,
     Vulkan.s_vulkan_queues w !! GetDeviceQueue device family index
     = None) ->
  exists w2,
    vkDestroyDevice device w1 = Some w2
    /\ Vulkan.g_vulkan_devices w2 = Vulkan.g_vulkan_devices w
    /\ Vulkan.s_vulkan_queues w2 = Vulkan.s_vulkan_queues w.
Proof.
  intros Hcreate Hfresh Hqueues.
  unfold Vulkan.vkCreateDevice in Hcreate.
  destruct (negb (Vulkan.link_info pCreateInfo)); [discriminate Hcreate|].
  destruct (Vulkan.negotiate NDEBUG physicalDevice pCreateInfo)
    as [[enabled_extensions enabled_features] graphics].
  destruct (next_vkCreateDevice physicalDevice enabled_extensions
              enabled_features) as [result device'].
  destruct (negb (result =? Vulkan.VK_SUCCESS)); [discriminate Hcreate|].
  injection Hcreate as <- <-. simpl.
  unfold Vulkan.emplace. rewrite Hfresh. simpl.
  match goal with
  | |- context [Vulkan.init_all_queues _ _ _ _ ?w0] =>
    destruct (init_all_queues_lookup device'
                (Vulkan.pQueueCreateInfos pCreateInfo) w0
                (Vulkan.mk_device_impl device' graphics [] ∅))
      as (queues & Hdev & Hcb & Hfrom & Hq);
      [simpl; apply lookup_insert_eq|];
      set (w1 := Vulkan.init_all_queues _ _ _ _ w0) in *
  end.
  simpl in Hdev, Hcb, Hq.
  destruct (vkDestroyDevice_lookup device' _ w1
              ltac:(rewrite Hdev; apply lookup_insert_eq))
    as (w2 & Hdestroy & Hdev2 & _ & Hq2).
  exists w2. split; [exact Hdestroy|]. simpl in Hq2. split.
  - rewrite Hdev2, Hdev, insert_insert_eq, delete_insert_eq.
    apply delete_id. exact Hfresh.
  - apply map_eq. intros k. destruct (Hq2 k) as [Hin2 Hout2].
    destruct (in_dec Z.eq_dec k queues) as [Hk | Hk].
    + rewrite (Hin2 Hk). destruct (Hfrom k Hk) as (family & index & ->).
      symmetry. apply Hqueues.
    + rewrite (Hout2 Hk). apply Hq. exact Hk.
Qed.

Lemma emplace_command_buffers_lookup (device : Z)
    (pCommandBuffers : list Z) :
  forall w : Vulkan.world,
    let w' :=
      Vulkan.emplace_command_buffers device pCommandBuffers w in
    Vulkan.g_vulkan_devices w' = Vulkan.g_vulkan_devices w
    /\ Vulkan.s_vulkan_queues w' = Vulkan.s_vulkan_queues w
    /\ forall k,
         (In k pCommandBuffers ->
          is_Some (Vulkan.s_vulkan_command_buffers w' !! k))
         /\ (~ In k pCommandBuffers ->
             Vulkan.s_vulkan_command_buffers w' !! k
             = Vulkan.s_vulkan_command_buffers w !! k).
Proof using Type.
  induction pCommandBuffers as [|cb rest IH]; intros w; simpl.
  - split; [reflexivity|]. split; [reflexivity|].
    intros k. split; [intros [] | reflexivity].
  - unfold Vulkan.emplace.
    destruct (Vulkan.s_vulkan_command_buffers w !! cb) eqn:Hold;
      match goal with
      | |- context [Vulkan.emplace_command_buffers device rest ?w1] =>
        destruct (IH w1) as (Hdev & Hqueues & Hcb)
      end;
      simpl in Hdev, Hqueues, Hcb |- *;
      (split; [exact Hdev|]); (split; [exact Hqueues|]);
      intros k; destruct (Hcb k) as [Hin Hout]; split.
    + intros [<- | Hk]; [|apply Hin, Hk].
      destruct (in_dec Z.eq_dec cb rest) as [Hk | Hk]; [apply Hin, Hk|].
      rewrite (Hout Hk), Hold. eexists; reflexivity.
    + intros Hk. apply Hout. intros H. apply Hk. right. exact H.
    + intros [<- | Hk]; [|apply Hin, Hk].
      destruct (in_dec Z.eq_dec cb rest) as [Hk | Hk]; [apply Hin, Hk|].
      rewrite (Hout Hk), lookup_insert_eq. eexists; reflexivity.
    + intros Hk. rewrite Hout by (intros H; apply Hk; right; exact H).
      apply lookup_insert_ne. intros ->. apply Hk. left. reflexivity.
Qed.

Lemma erase_command_buffers_lookup (pCommandBuffers : list Z) :
  forall w : Vulkan.world,
    let w' := Vulkan.erase_command_buffers pCommandBuffers w in
    Vulkan.g_vulkan_devices w' = Vulkan.g_vulkan_devices w
    /\ Vulkan.s_vulkan_queues w' = Vulkan.s_vulkan_queues w
    /\ forall k,
         (In k pCommandBuffers ->
          Vulkan.s_vulkan_command_buffers w' !! k = None)
         /\ (~ In k pCommandBuffers ->
             Vulkan.s_vulkan_command_buffers w' !! k
             = Vulkan.s_vulkan_command_buffers w !! k).
Proof using Type.
  induction pCommandBuffers as [|cb rest IH]; intros w; simpl.
  - split; [reflexivity|]. split; [reflexivity|].
    intros k. split; [intros [] | reflexivity].
  - match goal with
    | |- context [Vulkan.erase_command_buffers rest ?w1] =>
      destruct (IH w1) as (Hdev & Hqueues & Hcb)
    end.
    simpl in Hdev, Hqueues, Hcb |- *.
    split; [exact Hdev|]. split; [exact Hqueues|].
    intros k. destruct (Hcb k) as [Hin Hout]. split.
    + intros [<- | Hk]; [|apply Hin, Hk].
      destruct (in_dec Z.eq_dec cb rest) as [Hk | Hk]; [apply Hin, Hk|].
      rewrite (Hout Hk). apply lookup_delete_eq.
    + intros Hk. rewrite Hout by (intros H; apply Hk; right; exact H).
      apply lookup_delete_ne. intros ->. apply Hk. left. reflexivity.
Qed.

(** X16.  Command buffers registered by a successful
    [vkAllocateCommandBuffers] are unregistered by
    [vkFreeCommandBuffers]: when none of them was registered before, the
    command buffer table is afterwards what it was before the allocation,
    and the device and queue tables are untouched, in either build
    configuration. *)
Theorem vkFreeCommandBuffers_undoes_vkAllocateCommandBuffers
    (device commandPool : Z) (pCommandBuffers : list Z)
    (w w1 : Vulkan.world) :
  Vulkan.vkAllocateCommandBuffers key RESHADE_ADDON device
    (Vulkan.VK_SUCCESS, pCommandBuffers) w
  = Some (Vulkan.VK_SUCCESS, w1) ->
  (forall command_buffer, In command_buffer pCommandBuffers ->
     Vulkan.s_vulkan_command_buffers w !! command_buffer = None) ->
  exists w2,
    Vulkan.vkFreeCommandBuffers key RESHADE_ADDON device commandPool
      pCommandBuffers w1 = Some w2
    /\ Vulkan.s_vulkan_command_buffers w2
       = Vulkan.s_vulkan_command_buffers w
    /\ Vulkan.g_vulkan_devices w2 = Vulkan.g_vulkan_devices w
    /\ Vulkan.s_vulkan_queues w2 = Vulkan.s_vulkan_queues w.
Proof.
  intros Hallocate Hfresh.
  unfold Vulkan.vkAllocateCommandBuffers, Vulkan.table_at in Hallocate.
  destruct (Vulkan.g_vulkan_devices w !! key device) as [impl|] eqn:Himpl;
    [|discriminate Hallocate].
  simpl in Hallocate. injection Hallocate as <-.
  unfold Vulkan.vkFreeCommandBuffers, Vulkan.table_at.
  destruct RESHADE_ADDON.
  - match goal with
    | |- context [Vulkan.emplace_command_buffers device _ ?w0] =>
      destruct (emplace_command_buffers_lookup device pCommandBuffers w0)
        as (Hdev & Hqueues & Hcb);
        set (w1 := Vulkan.emplace_command_buffers device _ w0) in *
    end.
    destruct (erase_command_buffers_lookup pCommandBuffers w1)
      as (Hdev2 & Hqueues2 & Hcb2).
    simpl in *. rewrite Hdev2, Hdev, Himpl.
    eexists. split; [reflexivity|]. unfold Vulkan.log. simpl.
    split; [|split; congruence].
    apply map_eq. intros k. destruct (Hcb2 k) as [Hin2 Hout2].
    destruct (in_dec Z.eq_dec k pCommandBuffers) as [Hk | Hk].
    + rewrite (Hin2 Hk). symmetry. apply Hfresh, Hk.
    + rewrite (Hout2 Hk). apply Hcb. exact Hk.
  - simpl. rewrite Himpl. eexists. split; [reflexivity|].
    simpl. repeat split.
Qed.

Lemma find_graphics_queue_family_spec (queue_families : list Z)
    (infos : list Vulkan.VkDeviceQueueCreateInfo) :
  let found :=
    Vulkan.find_graphics_queue_family queue_families infos in
  found = Vulkan.UINT32_MAX
  \/ exists info,
       In info infos
       /\ Vulkan.queueFamilyIndex info = found
       /\ 0 < Vulkan.queueCount info
       /\ has_flag
            (nth (Z.to_nat (Vulkan.queueFamilyIndex info))
               queue_families 0)
            Vulkan.VK_QUEUE_GRAPHICS_BIT = true.
Proof using Type.
  induction infos as [|info rest IH]; simpl; [left; reflexivity|].
  destruct (Z.ltb_spec 0 (Vulkan.queueCount info)) as [Hcount | _];
    simpl.
  - destruct (has_flag _ Vulkan.VK_QUEUE_GRAPHICS_BIT) eqn:Hflag.
    + right. exists info. auto.
    + destruct IH as [IH | (info' & Hin & H)]; [left; exact IH|].
      right. exists info'. auto.
  - destruct IH as [IH | (info' & Hin & H)]; [left; exact IH|].
    right. exists info'. auto.
Qed.

(** X17.  Whatever the application and the physical device are, the
    negotiation of [vkCreateDevice] keeps the extension list of the
    application as it is and only appends extensions the physical device
    reports; the graphics queue family it keeps is either none
    ([UINT32_MAX]) or a family the application requests at least one queue
    of and which supports graphics; and for an application that does not
    enable [VK_KHR_swapchain] nothing is appended and no family is
    kept. *)
Theorem negotiate_conservative (physicalDevice : Vulkan.physical_device)
    (pCreateInfo : Vulkan.VkDeviceCreateInfo) :
  let result := Vulkan.negotiate NDEBUG physicalDevice pCreateInfo in
  (exists added,
     fst (fst result) = Vulkan.ppEnabledExtensionNames pCreateInfo ++ added
     /\ (forall name, In name added ->
           Vulkan.supports physicalDevice name = true)
     /\ (Vulkan.presents pCreateInfo = false -> added = []))
  /\ (snd result = Vulkan.UINT32_MAX
      \/ Vulkan.presents pCreateInfo = true
         /\ exists info,
              In info (Vulkan.pQueueCreateInfos pCreateInfo)
              /\ Vulkan.queueFamilyIndex info = snd result
              /\ 0 < Vulkan.queueCount info
              /\ has_flag
                   (nth (Z.to_nat (Vulkan.queueFamilyIndex info))
                      (Vulkan.queue_families physicalDevice) 0)
                   Vulkan.VK_QUEUE_GRAPHICS_BIT = true).
Proof.
  intros result. subst result.
  pose proof (find_graphics_queue_family_spec
                (Vulkan.queue_families physicalDevice)
                (Vulkan.pQueueCreateInfos pCreateInfo)) as Hfound.
  simpl in Hfound.
  unfold Vulkan.negotiate, Vulkan.presents, Vulkan.supports.
  destruct (existsb _ (Vulkan.ppEnabledExtensionNames pCreateInfo));
    simpl.
  2: { split; [|left; reflexivity].
       exists []. rewrite app_nil_r. repeat split. intros ? []. }
  destruct (Z.eqb_spec
              (Vulkan.find_graphics_queue_family
                 (Vulkan.queue_families physicalDevice)
                 (Vulkan.pQueueCreateInfos pCreateInfo))
              Vulkan.UINT32_MAX) as [Hnone | Hsome]; simpl.
  { split; [|left; exact Hnone].
    exists []. rewrite app_nil_r. split; [reflexivity|].
    split; [intros ? [] | intros _; reflexivity]. }
  destruct Hfound as [? | Hfound]; [contradiction|].
  unfold Vulkan.add_extension.
  destruct (Vulkan.has_extension (Vulkan.extensions physicalDevice)
              Vulkan.VK_KHR_PUSH_DESCRIPTOR_EXTENSION_NAME) eqn:H1;
    destruct (Vulkan.has_extension (Vulkan.extensions physicalDevice)
                Vulkan.VK_KHR_IMAGE_FORMAT_LIST_EXTENSION_NAME) eqn:H2;
    destruct (Vulkan.has_extension (Vulkan.extensions physicalDevice)
                Vulkan.VK_KHR_SWAPCHAIN_MUTABLE_FORMAT_EXTENSION_NAME)
      eqn:H3;
    destruct NDEBUG;
    try destruct (Vulkan.has_extension (Vulkan.extensions physicalDevice)
                    Vulkan.VK_EXT_DEBUG_MARKER_EXTENSION_NAME) eqn:H4;
    simpl; rewrite <- ?app_assoc; simpl;
    (split;
     [eexists; split; [try reflexivity; symmetry; apply app_nil_r|];
      split; [|intros H; discriminate H];
      intros name Hin; simpl in Hin;
      repeat (destruct Hin as [<- | Hin]; [assumption|]);
      destruct Hin
     | first [left; reflexivity | right; split; [reflexivity|exact Hfound]]]).
Qed.

End Vulkan_registries.

(** *** The registries at a concrete device *)

Lemma render_pass_cleared_attachments_witness :
  exists c,
    In c (VulkanRenderPass.cleared_attachments
            (VulkanRenderPass.render_pass_data_of
               VulkanRenderPass.three_attachments))
    /\ VulkanRenderPass.index c = 2.
Proof.
  exact (proj1 (proj2 (render_pass_cleared_attachments
                         VulkanRenderPass.three_attachments))
           2%nat _ eq_refl eq_refl).
Defined.

(** The data recorded for that render pass. *)
Example three_attachments_data :
  VulkanRenderPass.render_pass_data_of VulkanRenderPass.three_attachments
  = {| VulkanRenderPass.subpasses :=
         [{| VulkanRenderPass.color_attachments :=
               [{| VulkanRenderPass.attachment := 0;
                   VulkanRenderPass.layout := 2 |};
                VulkanRenderPass.unused;
                {| VulkanRenderPass.attachment := 2;
                   VulkanRenderPass.layout := 2 |}];
             VulkanRenderPass.depth_stencil_attachment :=
               {| VulkanRenderPass.attachment := 1;
                  VulkanRenderPass.layout := 3 |} |}];
       VulkanRenderPass.cleared_attachments :=
         [{| VulkanRenderPass.clear_flags := 3;
             VulkanRenderPass.index := 1;
             VulkanRenderPass.initial_layout := 3 |};
          {| VulkanRenderPass.clear_flags := 1;
             VulkanRenderPass.index := 2;
             VulkanRenderPass.initial_layout := 0 |}] |}.
Proof. reflexivity. Qed.

Lemma vkDestroyDevice_frame_witness :
  exists w',
    Vulkan.vkDestroyDevice Vulkan.Examples.dispatch_key_from_handle 0x1000
      Vulkan.Examples.recording_world = Some w'
    /\ Vulkan.s_vulkan_command_buffers w' = ∅
    /\ Vulkan.s_vulkan_queues w' !! 0x1100 = None.
Proof.
  assert (Himpl :
    Vulkan.g_vulkan_devices Vulkan.Examples.recording_world
      !! Vulkan.Examples.dispatch_key_from_handle 0x1000
    = Some (Vulkan.mk_device_impl 0x1000 0 [0x1100] ∅))
    by reflexivity.
  destruct (vkDestroyDevice_frame Vulkan.Examples.dispatch_key_from_handle
              0x1000 _ Vulkan.Examples.recording_world Himpl)
    as (w' & Hdestroy & _ & Hcb & Hq).
  exists w'. split; [exact Hdestroy|]. split; [exact Hcb|].
  rewrite Hq. reflexivity.
Defined.

Lemma vkDestroyDevice_undoes_vkCreateDevice_witness :
  exists w2,
    Vulkan.vkDestroyDevice Vulkan.Examples.dispatch_key_from_handle 0x1000
      Vulkan.Examples.device_world = Some w2
    /\ Vulkan.g_vulkan_devices w2
       = Vulkan.g_vulkan_devices Vulkan.initial_world
    /\ Vulkan.s_vulkan_queues w2
       = Vulkan.s_vulkan_queues Vulkan.initial_world.
Proof.
  apply (vkDestroyDevice_undoes_vkCreateDevice
           Vulkan.Examples.dispatch_key_from_handle true
           Vulkan.Examples.next_vkCreateDevice
           Vulkan.Examples.GetDeviceQueue
           Vulkan.Examples.device_without_push_descriptor
           Vulkan.Examples.presenting_application 0x1000
           Vulkan.initial_world Vulkan.Examples.device_world).
  - reflexivity.
  - reflexivity.
  - intros family index. reflexivity.
Defined.

Lemma vkFreeCommandBuffers_undoes_vkAllocateCommandBuffers_witness :
  exists w2,
    Vulkan.vkFreeCommandBuffers Vulkan.Examples.dispatch_key_from_handle
      true 0x1000 0 [0x2000; 0x2010] Vulkan.Examples.recording_world
    = Some w2
    /\ Vulkan.s_vulkan_command_buffers w2
       = Vulkan.s_vulkan_command_buffers Vulkan.Examples.device_world
    /\ Vulkan.g_vulkan_devices w2
       = Vulkan.g_vulkan_devices Vulkan.Examples.device_world
    /\ Vulkan.s_vulkan_queues w2
       = Vulkan.s_vulkan_queues Vulkan.Examples.device_world.
Proof.
  apply (vkFreeCommandBuffers_undoes_vkAllocateCommandBuffers
           Vulkan.Examples.dispatch_key_from_handle true 0x1000 0
           [0x2000; 0x2010] Vulkan.Examples.device_world
           Vulkan.Examples.recording_world).
  - reflexivity.
  - intros command_buffer [<- | [<- | []]]; reflexivity.
Defined.

Lemma negotiate_conservative_witness :
  snd (Vulkan.negotiate true Vulkan.Examples.device_without_push_descriptor
         Vulkan.Examples.presenting_application) = 0
  /\ exists added,
       fst (fst (Vulkan.negotiate true
                   Vulkan.Examples.device_without_push_descriptor
                   Vulkan.Examples.presenting_application))
       = [Vulkan.VK_KHR_SWAPCHAIN_EXTENSION_NAME] ++ added
       /\ (forall name, In name added ->
             Vulkan.supports Vulkan.Examples.device_without_push_descriptor
               name = true)
       /\ (Vulkan.presents Vulkan.Examples.presenting_application = false ->
           added = []).
Proof.
  split; [reflexivity|].
  exact (proj1 (negotiate_conservative true
                  Vulkan.Examples.device_without_push_descriptor
                  Vulkan.Examples.presenting_application)).
Defined.

(** ** D3D10: format support and buffer updates *)

Lemma has_flag_antitone (a b f : Z) :
  flags_subset a b -> has_flag b f = false -> has_flag a f = false.
Proof.
  intros Hab Hb. destruct (has_flag a f) eqn:Ha; [|reflexivity].
  rewrite (has_flag_mono a b f Hab Ha) in Hb. discriminate Hb.
Qed.

(** X18.  [check_format_support] is antitone in the usage: a format
    that is supported for a usage is supported for every part of that
    usage; and no format is supported for unordered access, whatever the
    driver reports. *)
Theorem check_format_support_antitone
    (convert_format : Z -> Z) (CheckFormatSupport : Z -> option Z)
    (format usage usage' : Z) :
  flags_subset usage' usage ->
  D3D10Support.check_format_support convert_format CheckFormatSupport
    format usage = true ->
  D3D10Support.check_format_support convert_format CheckFormatSupport
    format usage' = true
  /\ has_flag usage Api.resource_usage.unordered_access = false.
Proof.
  intros Hsub. unfold D3D10Support.check_format_support.
  destruct (has_flag usage Api.resource_usage.unordered_access) eqn:Hua;
    [discriminate|].
  rewrite (has_flag_antitone _ _ _ Hsub Hua).
  destruct (CheckFormatSupport (convert_format format)) as [support|];
    [|discriminate].
  destruct (has_flag usage Api.resource_usage.depth_stencil) eqn:H1;
    [|rewrite (has_flag_antitone _ _ _ Hsub H1)];
    (destruct (Z.land support
                 D3D10Support.D3D10_FORMAT_SUPPORT_DEPTH_STENCIL =? 0);
     rewrite ?andb_true_r, ?andb_false_r, ?andb_false_l;
     simpl; [try discriminate|]);
    (destruct (has_flag usage Api.resource_usage.render_target) eqn:H2;
     [|rewrite (has_flag_antitone _ _ _ Hsub H2)];
     (destruct (Z.land support
                  D3D10Support.D3D10_FORMAT_SUPPORT_RENDER_TARGET =? 0);
      rewrite ?andb_true_r, ?andb_false_r, ?andb_false_l;
      simpl; [try discriminate|]));
    (destruct (has_flag usage Api.resource_usage.shader_resource) eqn:H3;
     [|rewrite (has_flag_antitone _ _ _ Hsub H3)];
     (destruct (Z.land support
                  (Z.lor D3D10Support.D3D10_FORMAT_SUPPORT_SHADER_LOAD
                     D3D10Support.D3D10_FORMAT_SUPPORT_SHADER_SAMPLE)
                =? 0);
      rewrite ?andb_true_r, ?andb_false_r, ?andb_false_l;
      simpl; [try discriminate|]));
    (destruct (has_flag usage
                 (Z.lor Api.resource_usage.resolve_source
                    Api.resource_usage.resolve_dest)) eqn:H4;
     [|rewrite (has_flag_antitone _ _ _ Hsub H4)];
     (destruct (Z.land support
                  D3D10Support.D3D10_FORMAT_SUPPORT_MULTISAMPLE_RESOLVE
                =? 0);
      rewrite ?andb_true_r, ?andb_false_r, ?andb_false_l;
      simpl; [try discriminate|]));
    intros _; split; reflexivity.
Qed.

Lemma check_format_support_antitone_witness :
  D3D10Support.check_format_support (fun format => format)
    D3D10Support.color_support 28 Api.resource_usage.shader_resource_pixel
  = true.
Proof.
  refine (proj1 (check_format_support_antitone (fun format => format)
                   D3D10Support.color_support 28
                   (Z.lor Api.resource_usage.shader_resource
                      Api.resource_usage.render_target)
                   Api.resource_usage.shader_resource_pixel _ _));
    reflexivity.
Defined.

(** X19.  Under its assertions (offset and size within 32 bits),
    [update_buffer_region] passes no box for offset zero, and for any
    other offset a box that starts at the offset; the box ends at
    offset + size, and so lies left to right, exactly when offset + size
    fits 32 bits. *)
Theorem update_buffer_region_box (offset size : Z) :
  D3D10Support.update_buffer_region_asserts offset size ->
  snd (D3D10Support.update_buffer_region offset size) = size
  /\ match fst (D3D10Support.update_buffer_region offset size) with
     | None => offset = 0
     | Some box =>
       offset <> 0
       /\ D3D10Support.left box = offset
       /\ (D3D10Support.right box = offset + size
           <-> offset + size < 2 ^ 32)
       /\ (D3D10Support.left box <= D3D10Support.right box
           <-> offset + size < 2 ^ 32)
     end.
Proof.
  unfold D3D10Support.update_buffer_region_asserts,
    D3D10Support.update_buffer_region.
  intros [Hoffset Hsize]. cbn [fst snd].
  rewrite (wrap32_small size) by (unfold is_u32; lia).
  split; [reflexivity|].
  destruct (Z.eqb_spec offset 0) as [-> | Hne]; cbn [negb];
    [reflexivity|].
  cbn [D3D10Support.left D3D10Support.right].
  rewrite (wrap32_small offset) by (unfold is_u32; lia).
  split; [exact Hne|]. split; [reflexivity|].
  unfold wrap32.
  destruct (Z.lt_ge_cases (offset + size) (2 ^ 32)) as [Hfits | Hwraps].
  - rewrite Z.mod_small by lia. split; split; intros; lia.
  - replace ((offset + size) mod 2 ^ 32) with (offset + size - 2 ^ 32).
    + split; split; intros; lia.
    + apply Z.mod_unique with (q := 1); lia.
Qed.

Lemma update_buffer_region_box_witness :
  D3D10Support.update_buffer_region_asserts 0xFFFFFFF0 0x20
  /\ fst (D3D10Support.update_buffer_region 0xFFFFFFF0 0x20)
     = Some {| D3D10Support.left := 0xFFFFFFF0; D3D10Support.top := 0;
               D3D10Support.front := 0; D3D10Support.right := 0x10;
               D3D10Support.bottom := 1; D3D10Support.back := 1 |}
  /\ snd (D3D10Support.update_buffer_region 0xFFFFFFF0 0x20) = 0x20.
Proof.
  assert (H : D3D10Support.update_buffer_region_asserts 0xFFFFFFF0 0x20)
    by (unfold D3D10Support.update_buffer_region_asserts; lia).
  split; [exact H|]. split; [reflexivity|].
  exact (proj1 (update_buffer_region_box 0xFFFFFFF0 0x20 H)).
Defined.

(** ** D3D10: the ranges of a pipeline layout *)

Lemma flags_subset_trans (a b c : Z) :
  flags_subset a b -> flags_subset b c -> flags_subset a c.
Proof.
  rewrite !flags_subset_spec. intros Hab Hbc n Hn Ha.
  apply (Hbc n Hn), (Hab n Hn), Ha.
Qed.

Lemma flags_subset_lor_intro_r (a b : Z) : flags_subset b (Z.lor a b).
Proof.
  apply flags_subset_spec. intros n Hn Hb.
  rewrite Z.lor_spec, Hb. apply orb_true_r.
Qed.

Lemma covered_by_step (merged' result r : D3D10.descriptor_range) :
  D3D10Layout.covered_by merged' r ->
  D3D10Layout.covered_by result merged' ->
  D3D10Layout.covered_by result r.
Proof.
  unfold D3D10Layout.covered_by.
  intros (Hb & Hv & Ht & Hs) (Hb' & Hv' & Ht' & Hs').
  repeat split; try congruence; try lia.
  exact (flags_subset_trans _ _ _ Hv Hv').
Qed.

Lemma merge_ranges_covers (ranges : list D3D10.descriptor_range) :
  forall merged_range result,
    D3D10.merge_ranges merged_range ranges = Some result ->
    D3D10Layout.covered_by result merged_range
    /\ (D3D10Layout.starts_at result merged_range
        \/ exists r, In r ranges /\ D3D10Layout.starts_at result r)
    /\ forall r, In r ranges ->
         D3D10Layout.covered_by result r /\ D3D10.array_size r <= 1.
Proof.
  induction ranges as [|range rest IH]; intros merged_range result;
    cbn [D3D10.merge_ranges].
  - intros [= <-]. unfold D3D10Layout.covered_by, D3D10Layout.starts_at.
    split; [|split].
    + repeat split; try lia. apply flags_subset_refl.
    + left. split; reflexivity.
    + intros r [].
  - destruct (D3D10.descriptor_type.eqb (D3D10.type range)
                (D3D10.type merged_range)) eqn:Htype;
      [|discriminate].
    apply descriptor_type_eqb_eq in Htype.
    destruct (Z.ltb_spec 1 (D3D10.array_size range)) as [|Harray];
      [discriminate|].
    destruct (Z.eqb_spec (D3D10.dx_register_space range)
                (D3D10.dx_register_space merged_range)) as [Hspace|];
      [|discriminate].
    cbn [negb orb].
    destruct (Z.leb_spec (D3D10.binding merged_range)
                (D3D10.binding range)) as [Hle | Hlt].
    + destruct (negb _); [discriminate|].
      intros Hmerge.
      destruct (IH _ _ Hmerge) as (Hcov & Hstart & Hall).
      assert (Hm : D3D10Layout.covered_by result merged_range).
      { refine (covered_by_step _ result merged_range _ Hcov).
        unfold D3D10Layout.covered_by. simpl.
        repeat split; try lia. apply flags_subset_lor_l, flags_subset_refl. }
      assert (Hr : D3D10Layout.covered_by result range).
      { refine (covered_by_step _ result range _ Hcov).
        unfold D3D10Layout.covered_by. simpl.
        repeat split; try assumption. apply flags_subset_lor_intro_r. }
      split; [exact Hm|]. split.
      * destruct Hstart as [Hstart | (r & Hin & Hstart)].
        -- left. exact Hstart.
        -- right. exists r. split; [right; exact Hin | exact Hstart].
      * intros r [<- | Hin]; [split; assumption | apply Hall, Hin].
    + destruct (negb _); [discriminate|].
      intros Hmerge.
      destruct (IH _ _ Hmerge) as (Hcov & Hstart & Hall).
      assert (Hm : D3D10Layout.covered_by result merged_range).
      { refine (covered_by_step _ result merged_range _ Hcov).
        unfold D3D10Layout.covered_by. simpl.
        repeat split; try lia. apply flags_subset_lor_l, flags_subset_refl. }
      assert (Hr : D3D10Layout.covered_by result range).
      { refine (covered_by_step _ result range _ Hcov).
        unfold D3D10Layout.covered_by. simpl.
        repeat split; try lia; try assumption.
        apply flags_subset_lor_intro_r. }
      split; [exact Hm|]. split.
      * right. destruct Hstart as [Hstart | (r & Hin & Hstart)].
        -- exists range. split; [left; reflexivity | exact Hstart].
        -- exists r. split; [right; exact Hin | exact Hstart].
      * intros r [<- | Hin]; [split; assumption | apply Hall, Hin].
Qed.

Section D3D10_layout.

Variables sampler_desc resource_view_desc query_type : Set.
Variable descriptor_range_default : D3D10.descriptor_range.

Abbreviation world :=
  (D3D10.world sampler_desc resource_view_desc query_type).
Abbreviation merge_param := (D3D10.merge_param descriptor_range_default).
Abbreviation merge_params :=
  (D3D10.merge_params descriptor_range_default).
Abbreviation create_pipeline_layout :=
  (D3D10.create_pipeline_layout sampler_desc resource_view_desc query_type
     descriptor_range_default).

(** X20.  The layout a successful [create_pipeline_layout] registers
    holds one range per parameter, in the order of the parameters.  The
    range of a descriptor set parameter starts where one of the ranges of
    the set starts, at the lowest binding of the set; it is visible to
    every stage any range of the set is visible to; and every range of
    the set has its type, register space 0 and no array. *)
Theorem create_pipeline_layout_ranges
    (params : list D3D10.pipeline_layout_param) (out_handle : Z)
    (w : world) :
  let res := create_pipeline_layout params out_handle w in
  fst (fst res) = true ->
  exists ranges,
    D3D10.heap (snd res) !! snd (fst res)
    = Some (D3D10.obj_pipeline_layout ranges)
    /\ length ranges = length params
    /\ forall (i : nat) set_ranges merged,
         params !! i = Some (D3D10.param_descriptor_set set_ranges) ->
         ranges !! i = Some merged ->
         (exists r, In r set_ranges /\ D3D10Layout.starts_at merged r)
         /\ forall r, In r set_ranges ->
              D3D10Layout.covered_by merged r
              /\ D3D10.dx_register_space r = 0
              /\ D3D10.array_size r <= 1.
Proof using Type.
  intros res. subst res. unfold D3D10.create_pipeline_layout.
  destruct (merge_params params) as [ranges|] eqn:Hmerge;
    [|discriminate].
  intros _. unfold D3D10.bind, D3D10.new, D3D10.ret. cbn [fst snd D3D10.heap].
  exists ranges. split; [apply lookup_insert_eq|].
  destruct (merge_params_pointwise descriptor_range_default params
              ranges Hmerge) as [Hlen Hall].
  split; [exact Hlen|].
  intros i set_ranges merged Hparam Hrange.
  destruct (Hall i _ Hparam) as (merged' & Hrange' & Hmerged).
  rewrite Hrange in Hrange'. injection Hrange' as <-.
  cbn [D3D10.merge_param] in Hmerged.
  destruct set_ranges as [|first rest]; [discriminate Hmerged|].
  destruct (Z.ltb_spec 1 (D3D10.array_size first)) as [|Harray];
    [discriminate Hmerged|].
  destruct (Z.eqb_spec (D3D10.dx_register_space first) 0) as [Hspace|];
    [|discriminate Hmerged].
  cbn [negb orb] in Hmerged.
  destruct (merge_ranges_covers rest first merged Hmerged)
    as (Hcov & Hstart & Hrest).
  assert (Hzero : D3D10.dx_register_space merged = 0).
  { destruct Hcov as (_ & _ & _ & Hs). congruence. }
  split.
  - destruct Hstart as [Hstart | (r & Hin & Hstart)].
    + exists first. split; [left; reflexivity | exact Hstart].
    + exists r. split; [right; exact Hin | exact Hstart].
  - intros r [<- | Hin].
    + split; [exact Hcov|]. split; [exact Hspace | exact Harray].
    + destruct (Hrest r Hin) as [Hr Ha].
      split; [exact Hr|]. split; [|exact Ha].
      destruct Hr as (_ & _ & _ & Hs). congruence.
Qed.

End D3D10_layout.

Lemma create_pipeline_layout_ranges_witness :
  let res :=
    D3D10.create_pipeline_layout unit unit unit
      D3D10.Examples.descriptor_range_default
      [D3D10.param_descriptor_set
         [D3D10.Examples.pixel_stage_range;
          D3D10.Examples.vertex_stage_range]] 0
      D3D10.Examples.device_world in
  exists ranges,
    D3D10.heap (snd res) !! snd (fst res)
    = Some (D3D10.obj_pipeline_layout ranges)
    /\ length ranges = 1%nat.
Proof.
  intros res.
  destruct (create_pipeline_layout_ranges unit unit unit
              D3D10.Examples.descriptor_range_default
              [D3D10.param_descriptor_set
                 [D3D10.Examples.pixel_stage_range;
                  D3D10.Examples.vertex_stage_range]] 0
              D3D10.Examples.device_world eq_refl)
    as (ranges & Hheap & Hlen & _).
  exists ranges. split; [exact Hheap | exact Hlen].
Defined.

(** The range merged from the pixel stage range at binding 1 and the
    vertex stage range at binding 0. *)
Example merged_stage_ranges :
  D3D10.merge_param D3D10.Examples.descriptor_range_default
    (D3D10.param_descriptor_set
       [D3D10.Examples.pixel_stage_range;
        D3D10.Examples.vertex_stage_range])
  = Some (D3D10.mk_descriptor_range 0 0 0 2 0x11 1
            D3D10.descriptor_type.constant_buffer).
Proof. reflexivity. Qed.

(** ** Vulkan: looking up an extension *)

Lemma strncmp_eq_exact (n : nat) :
  forall a b : string,
    (String.length b < n)%nat ->
    Vulkan.strncmp_eq n a b = true <-> a = b.
Proof.
  induction n as [|n IH]; intros a b Hlen; [lia|].
  destruct a as [|x a], b as [|y b]; simpl in *.
  - split; reflexivity.
  - split; discriminate.
  - split; discriminate.
  - rewrite andb_true_iff, (IH a b) by lia.
    split.
    + intros [Hxy ->]. apply Ascii.eqb_eq in Hxy. congruence.
    + intros [= -> ->]. split; [apply Ascii.eqb_refl | reflexivity].
Qed.

(** X21.  For a name shorter than [VK_MAX_EXTENSION_NAME_SIZE] the
    extension lookup of [vkCreateDevice] is exact: the extension is found
    if and only if the physical device reports that very name. *)
Theorem has_extension_exact (extensions : list string) (name : string) :
  (String.length name < Vulkan.VK_MAX_EXTENSION_NAME_SIZE)%nat ->
  Vulkan.has_extension extensions name = true <-> In name extensions.
Proof.
  intros Hlen. unfold Vulkan.has_extension. rewrite existsb_exists.
  split.
  - intros (props & Hin & Heq).
    apply (strncmp_eq_exact _ _ _ Hlen) in Heq. congruence.
  - intros Hin. exists name. split; [exact Hin|].
    apply (strncmp_eq_exact _ _ _ Hlen). reflexivity.
Qed.

Lemma has_extension_exact_witness :
  Vulkan.has_extension
    (Vulkan.extensions Vulkan.Examples.device_without_format_list)
    Vulkan.VK_KHR_IMAGE_FORMAT_LIST_EXTENSION_NAME = true
  <-> In Vulkan.VK_KHR_IMAGE_FORMAT_LIST_EXTENSION_NAME
        (Vulkan.extensions Vulkan.Examples.device_without_format_list).
Proof.
  apply has_extension_exact.
  unfold Vulkan.VK_MAX_EXTENSION_NAME_SIZE. simpl. lia.
Defined.
